(** * Data-access layer of the jobs API: users, jobs and applications

    A shallow embedding of [models/user.js] and [models/job.js]: the
    repository operations are functions over an explicit store (the three
    tables [users], [jobs], [applications]); an operation either returns a
    value or raises one of the error classes of [expressError.js]; the store
    is threaded through, so that a failed call's effect on it can be stated.

    JavaScript values are the primitives the operations handle; an object
    returned to the caller is a finite map from property names to values; an
    object whose key order matters (the payload of a partial update) is an
    association list. *)

From Stdlib Require Import ZArith String Ascii List Bool Lia.
From Stdlib Require Import Sorted Permutation Btauto.
From stdpp Require Import base option list gmap strings pretty.

Local Open Scope Z_scope.
Local Open Scope string_scope.

(** ** JavaScript values *)

Inductive jsval : Type :=
  | JUndefined
  | JNull
  | JBool (b : bool)
  | JNum (z : Z)
  | JStr (s : string).

#[global] Instance jsval_eq_dec : EqDecision jsval.
Proof. solve_decision. Defined.

(** [if (v)]: the values that count as true in a condition. *)
Definition truthy (v : jsval) : bool :=
  match v with
  | JUndefined | JNull => false
  | JBool b => b
  | JNum z => negb (z =? 0)%Z
  | JStr s => negb (String.eqb s "")
  end.

(** String conversion, as done by [+] with a string operand and by template
    literals. *)
Definition to_js_string (v : jsval) : string :=
  match v with
  | JUndefined => "undefined"
  | JNull => "null"
  | JBool true => "true"
  | JBool false => "false"
  | JNum z => pretty z
  | JStr s => s
  end.

(** A default parameter value replaces [undefined] only. *)
Definition default_to (d v : jsval) : jsval :=
  match v with
  | JUndefined => d
  | _ => v
  end.

(** An object handed back to the caller. *)
Abbreviation obj := (gmap string jsval).

(** An object whose keys are iterated in insertion order. *)
Abbreviation ordered_obj := (list (string * jsval)).

Fixpoint ordered_get (k : string) (o : ordered_obj) : jsval :=
  match o with
  | [] => JUndefined
  | (k', v) :: o' => if String.eqb k k' then v else ordered_get k o'
  end.

(** Assignment to an existing property keeps its position; a new property is
    appended. *)
Fixpoint ordered_set (k : string) (v : jsval) (o : ordered_obj) : ordered_obj :=
  match o with
  | [] => [(k, v)]
  | (k', v') :: o' =>
      if String.eqb k k' then (k', v) :: o' else (k', v') :: ordered_set k v o'
  end.

Fixpoint join (sep : string) (l : list string) : string :=
  match l with
  | [] => ""
  | [s] => s
  | s :: l' => s +:+ sep +:+ join sep l'
  end.

(** ** Errors *)

(** Modelled from the spec: [expressError.js] is not among the sources. The
    classes are those the models import and raise, [ExpressError] carrying a
    status of its own; section 7 gives their kinds. To these are added a
    [TypeError] of the language itself and the failures reported by the
    hashing library and by the database, which section 7 calls opaque. *)
Inductive error : Type :=
  | ExpressError (message : string) (status : Z)
  | NotFoundError (message : string)
  | UnauthorizedError (message : string)
  | BadRequestError (message : string)
  | TypeError (message : string)
  | BcryptError (message : string)
  | DbError (message : string).

#[global] Instance error_eq_dec : EqDecision error.
Proof. solve_decision. Defined.

Inductive error_kind : Type :=
  | NotFound | Validation | Conflict | Unauthorized | Opaque.

#[global] Instance error_kind_eq_dec : EqDecision error_kind.
Proof. solve_decision. Defined.

(** The four kinds a caller distinguishes; 409 is the status of a conflict. *)
Definition kind_of (e : error) : error_kind :=
  match e with
  | NotFoundError _ => NotFound
  | BadRequestError _ => Validation
  | UnauthorizedError _ => Unauthorized
  | ExpressError _ status =>
      if (status =? 409)%Z then Conflict
      else if (status =? 404)%Z then NotFound
      else if (status =? 401)%Z then Unauthorized
      else if (status =? 400)%Z then Validation
      else Opaque
  | TypeError _ | BcryptError _ | DbError _ => Opaque
  end.

Inductive result (A : Type) : Type :=
  | Ok (a : A)
  | Err (e : error).
Arguments Ok {A} a.
Arguments Err {A} e.

Definition is_ok {A} (r : result A) : bool :=
  match r with Ok _ => true | Err _ => false end.

(** [t] starts with [s]. *)
Fixpoint prefixb (s t : string) : bool :=
  match s, t with
  | EmptyString, _ => true
  | String a s', String b t' => Ascii.eqb a b && prefixb s' t'
  | String _ _, EmptyString => false
  end.

(** [s] occurs in [t]. *)
Fixpoint mentions (t s : string) : bool :=
  prefixb s t ||
  match t with
  | EmptyString => false
  | String _ t' => mentions t' s
  end.

(** ** The store *)

(** Modelled from the spec: the schema of the database is not among the
    sources. Section 6 gives the tables, their columns and their keys;
    section 3 gives the nullable salary and the range of the equity. *)

Record user_row := {
  u_username : string;
  u_password : string;
  u_first_name : string;
  u_last_name : string;
  u_email : string;
  u_is_admin : bool
}.

(** [salary] is nullable; [equity] is a NUMERIC, kept as the decimal text the
    driver hands back. *)
Record job_row := {
  j_id : Z;
  j_title : string;
  j_salary : option Z;
  j_equity : string;
  j_company_handle : string
}.

Record application_row := {
  a_username : string;
  a_job_id : Z
}.

Record store := {
  users : list user_row;
  jobs : list job_row;
  applications : list application_row
}.

(** An operation reads and writes the store and returns or throws. There are
    no transactions: what was written before a throw stays written. *)
Definition M (A : Type) : Type := store -> result A * store.

Definition ret {A} (a : A) : M A := fun st => (Ok a, st).
Definition throw {A} (e : error) : M A := fun st => (Err e, st).
Definition bind {A B} (m : M A) (k : A -> M B) : M B :=
  fun st =>
    match m st with
    | (Ok a, st') => k a st'
    | (Err e, st') => (Err e, st')
    end.
(** A statement that only reads. *)
Definition query {A} (q : store -> A) : M A := fun st => (Ok (q st), st).

Notation "'let!' x ':=' m 'in' k" := (bind m (fun x => k))
  (at level 10, x name, m at level 100, k at level 200).

(** ** Statements on the store

    Each function below is the meaning of one SQL statement of the models,
    quoted above it. Positional parameters are resolved by index in the list
    handed to the driver. *)

(** [$i] among the parameters. *)
Definition param (params : list jsval) (i : nat) : option jsval :=
  match i with
  | O => None
  | S n => params !! n
  end.

(** Modelled from the spec: the types of the columns are in the schema,
    which is not among the sources. Section 3 gives the id of a job and its
    salary as integers: these are the values of an INTEGER column. A
    parameter compared with such a column, or assigned to it, is read as a
    value of the column: outside the range it is not one, and the statement
    is rejected whatever the rows are. *)
Definition in_integer (z : Z) : bool :=
  (-2147483648 <=? z)%Z && (z <=? 2147483647)%Z.

Definition out_of_range : error :=
  DbError "value is out of range for type integer".

(** [ORDER BY] on a text column: a stable insertion sort, in byte order. *)
Fixpoint insert_by {A} (key : A -> string) (x : A) (l : list A) : list A :=
  match l with
  | [] => [x]
  | y :: l' =>
      if String.leb (key x) (key y) then x :: y :: l' else y :: insert_by key x l'
  end.

Definition order_by {A} (key : A -> string) (l : list A) : list A :=
  List.fold_right (insert_by key) [] l.

(** [l LEFT JOIN r ON on]: every row of [l], with each of its matches in [r],
    or once with nulls when it has none. *)
Definition left_join {A B} (on : A -> B -> bool) (l : list A) (r : list B)
  : list (A * option B) :=
  List.flat_map
    (fun a =>
       match List.filter (on a) r with
       | [] => [(a, None)]
       | ms => List.map (fun b => (a, Some b)) ms
       end) l.

(** [l FULL OUTER JOIN r ON on]: the left join, then the rows of [r] that no
    row of [l] matches, padded with nulls. *)
Definition full_outer_join {A B} (on : A -> B -> bool) (l : list A) (r : list B)
  : list (option A * option B) :=
  List.map (fun '(a, ob) => (Some a, ob)) (left_join on l r)
  ++ List.map (fun b => (None, Some b))
       (List.filter (fun b => negb (List.existsb (fun a => on a b) l)) r).

(** [SELECT ... FROM users WHERE username = $1] *)
Definition select_users_by_username (username : string) (st : store)
  : list user_row :=
  List.filter (fun u => String.eqb (u_username u) username) (users st).

(** [INSERT INTO users (...) VALUES ($1, ..., $6) RETURNING ...];
    [username] is the primary key. *)
Definition insert_user (u : user_row) : M user_row :=
  fun st =>
    if List.existsb (fun u' => String.eqb (u_username u') (u_username u)) (users st)
    then (Err (DbError "duplicate key value violates unique constraint"), st)
    else (Ok u, {| users := users st ++ [u];
                   jobs := jobs st;
                   applications := applications st |}).

(** [SELECT u.username, ..., job_id FROM users u LEFT JOIN applications a
     ON a.username = u.username] *)
Definition users_left_join_applications (st : store)
  : list (user_row * option Z) :=
  List.map (fun '(u, oa) => (u, a_job_id <$> oa))
    (left_join (fun u a => String.eqb (a_username a) (u_username u))
       (users st) (applications st)).

(** [... ORDER BY username] *)
Definition select_users_with_jobs (st : store) : list (user_row * option Z) :=
  order_by (fun r => u_username (fst r)) (users_left_join_applications st).

(** [... WHERE u.username = $1] *)
Definition select_user_with_jobs (username : string) (st : store)
  : list (user_row * option Z) :=
  List.filter (fun r => String.eqb (u_username (fst r)) username)
    (users_left_join_applications st).

(** [select u.username, j.id from applications a
     full outer join jobs j on a.job_id = j.id
     full outer join users u on u.username = a.username
     where u.username = $1 or j.id = $2].
    A comparison with null is not true, in [on] as in [where]. These are
    the rows of the statement once its parameters are taken. *)
Definition users_and_jobs_rows (username : string) (jobId : Z) (st : store)
  : list (option string * option Z) :=
  let a_j :=
    full_outer_join (fun a j => (a_job_id a =? j_id j)%Z)
      (applications st) (jobs st) in
  let a_j_u :=
    full_outer_join
      (fun (aj : option application_row * option job_row) u =>
         match fst aj with
         | Some a => String.eqb (u_username u) (a_username a)
         | None => false
         end)
      a_j (users st) in
  let lines :=
    List.map
      (fun '(oaj, ou) =>
         (u_username <$> ou, j_id <$> (oaj ≫= snd)))
      a_j_u in
  List.filter
    (fun line =>
       match fst line with Some s => String.eqb s username | None => false end
       || match snd line with Some i => (i =? jobId)%Z | None => false end)
    lines.

(** The statement: [$2] is compared with the integer [j.id]. *)
Definition select_users_and_jobs (username : string) (jobId : Z)
  : M (list (option string * option Z)) :=
  fun st =>
    if in_integer jobId
    then (Ok (users_and_jobs_rows username jobId st), st)
    else (Err out_of_range, st).

(** [insert into applications (username, job_id) values ($1, $2)
     returning username, job_id]; the pair is the key and both columns are
    foreign keys. *)
Definition insert_application (username : string) (jobId : Z)
  : M application_row :=
  fun st =>
    if negb (in_integer jobId)
    then (Err out_of_range, st)
    else if List.existsb
         (fun a => String.eqb (a_username a) username && (a_job_id a =? jobId)%Z)
         (applications st)
    then (Err (DbError "duplicate key value violates unique constraint"), st)
    else if negb (List.existsb (fun u => String.eqb (u_username u) username)
                    (users st))
         || negb (List.existsb (fun j => (j_id j =? jobId)%Z) (jobs st))
    then (Err (DbError "insert violates foreign key constraint"), st)
    else
      let a := {| a_username := username; a_job_id := jobId |} in
      (Ok a, {| users := users st;
                jobs := jobs st;
                applications := applications st ++ [a] |}).

(** *** NUMERIC text *)

Definition is_some {A} (o : option A) : bool :=
  match o with Some _ => true | None => false end.

Definition digit_of (c : ascii) : option Z :=
  let n := Z.of_nat (nat_of_ascii c) in
  if (48 <=? n)%Z && (n <=? 57)%Z then Some (n - 48)%Z else None.

(** The digits after the point: the value read so far and its scale. *)
Fixpoint parse_fraction (s : string) (num : Z) (scale : nat) : option (Z * nat) :=
  match s with
  | EmptyString => Some (num, scale)
  | String c s' =>
      d ← digit_of c; parse_fraction s' (10 * num + d)%Z (S scale)
  end.

Fixpoint parse_digits (s : string) (num : Z) : option (Z * nat) :=
  match s with
  | EmptyString => Some (num, O)
  | String c s' =>
      if Ascii.eqb c "."%char then parse_fraction s' num O
      else d ← digit_of c; parse_digits s' (10 * num + d)%Z
  end.

Fixpoint has_digit (s : string) : bool :=
  match s with
  | EmptyString => false
  | String c s' => is_some (digit_of c) || has_digit s'
  end.

(** A decimal literal [-ddd.ddd] read as [num / 10 ^ scale]. *)
Definition parse_numeric (s : string) : option (Z * nat) :=
  if has_digit s then
    match s with
    | String "-"%char s' =>
        '(num, scale) ← parse_digits s' 0%Z; Some ((- num)%Z, scale)
    | _ => parse_digits s 0%Z
    end
  else None.

Fixpoint zeros (n : nat) : string :=
  match n with
  | O => EmptyString
  | S n' => String "0"%char (zeros n')
  end.

(** The text under which a NUMERIC [num / 10 ^ scale] is stored and handed
    back: a sign when it is negative, the whole part without leading zeros
    but with one digit at least, and the point and [scale] digits when
    [scale] is not zero. So [.5] is stored as [0.5], [007] as [7], [1.50]
    as [1.50] and [-0] as [0]. *)
Definition numeric_text (num : Z) (scale : nat) : string :=
  let digits := pretty (Z.abs num) in
  let padded := zeros (S scale - String.length digits) +:+ digits in
  let whole := (String.length padded - scale)%nat in
  (if (num <? 0)%Z then "-" else "")
  +:+ substring 0 whole padded
  +:+ (if (scale =? 0)%nat then "" else "." +:+ substring whole scale padded).

Definition numeric_positive (s : string) : bool :=
  match parse_numeric s with
  | Some (num, _) => (0 <? num)%Z
  | None => false
  end.

(** [CHECK (0 <= equity <= 1)] *)
Definition equity_in_range (s : string) : bool :=
  match parse_numeric s with
  | Some (num, scale) => (0 <=? num)%Z && (num <=? 10 ^ Z.of_nat scale)%Z
  | None => false
  end.

(** *** UPDATE *)

(** What [SET column = $i] does with the value bound to [$i]. The outer
    [None]: the statement is rejected whatever the rows are (no such column,
    or a value that is not of the column's type). The inner [None]: a row
    receiving the value violates a constraint of the table. *)
Abbreviation assignment R := (option (R -> option R)).

Definition set_user_text (c : string) (s : string) (u : user_row) : user_row :=
  {| u_username := if String.eqb c "username" then s else u_username u;
     u_password := if String.eqb c "password" then s else u_password u;
     u_first_name := if String.eqb c "first_name" then s else u_first_name u;
     u_last_name := if String.eqb c "last_name" then s else u_last_name u;
     u_email := if String.eqb c "email" then s else u_email u;
     u_is_admin := u_is_admin u |}.

Definition users_text_columns : list string :=
  ["username"; "password"; "first_name"; "last_name"; "email"].

Definition inb (c : string) (l : list string) : bool :=
  List.existsb (String.eqb c) l.

(** Every column of [users] is NOT NULL. *)
Definition assign_user (c : string) (v : jsval) : assignment user_row :=
  if String.eqb c "is_admin" then
    match v with
    | JBool b =>
        Some (fun u => Some {| u_username := u_username u;
                               u_password := u_password u;
                               u_first_name := u_first_name u;
                               u_last_name := u_last_name u;
                               u_email := u_email u;
                               u_is_admin := b |})
    | JUndefined | JNull => Some (fun _ => None)
    | _ => None
    end
  else if inb c users_text_columns then
    match v with
    | JStr s => Some (fun u => Some (set_user_text c s u))
    | JUndefined | JNull => Some (fun _ => None)
    | _ => None
    end
  else None.

(** [title] and [company_handle] are NOT NULL texts, [salary] is a nullable
    integer with [CHECK (salary >= 0)], [equity] a NUMERIC within [0, 1],
    stored in its normal form. A number outside the range of INTEGER is no
    value for [salary] or [id]. *)
Definition assign_job (c : string) (v : jsval) : assignment job_row :=
  if String.eqb c "title" then
    match v with
    | JStr s =>
        Some (fun j => Some {| j_id := j_id j; j_title := s;
                               j_salary := j_salary j; j_equity := j_equity j;
                               j_company_handle := j_company_handle j |})
    | JUndefined | JNull => Some (fun _ => None)
    | _ => None
    end
  else if String.eqb c "company_handle" then
    match v with
    | JStr s =>
        Some (fun j => Some {| j_id := j_id j; j_title := j_title j;
                               j_salary := j_salary j; j_equity := j_equity j;
                               j_company_handle := s |})
    | JUndefined | JNull => Some (fun _ => None)
    | _ => None
    end
  else if String.eqb c "salary" then
    match v with
    | JNum z =>
        if in_integer z
        then
          Some (fun j =>
                  if (0 <=? z)%Z
                  then Some {| j_id := j_id j; j_title := j_title j;
                               j_salary := Some z; j_equity := j_equity j;
                               j_company_handle := j_company_handle j |}
                  else None)
        else None
    | JUndefined | JNull =>
        Some (fun j => Some {| j_id := j_id j; j_title := j_title j;
                               j_salary := None; j_equity := j_equity j;
                               j_company_handle := j_company_handle j |})
    | _ => None
    end
  else if String.eqb c "equity" then
    let set (s : string) (j : job_row) : job_row :=
      {| j_id := j_id j; j_title := j_title j;
         j_salary := j_salary j; j_equity := s;
         j_company_handle := j_company_handle j |} in
    match v with
    | JStr s =>
        match parse_numeric s with
        | Some (num, scale) =>
            Some (fun j =>
                    if equity_in_range s
                    then Some (set (numeric_text num scale) j)
                    else None)
        | None => None
        end
    | JNum z =>
        Some (fun j =>
                if (0 <=? z)%Z && (z <=? 1)%Z
                then Some (set (pretty z) j)
                else None)
    | JUndefined | JNull => Some (fun _ => None)
    | _ => None
    end
  else if String.eqb c "id" then
    match v with
    | JNum z =>
        if in_integer z
        then
          Some (fun j => Some {| j_id := z; j_title := j_title j;
                                 j_salary := j_salary j; j_equity := j_equity j;
                                 j_company_handle := j_company_handle j |})
        else None
    | JUndefined | JNull => Some (fun _ => None)
    | _ => None
    end
  else None.

(** The whole [SET] list, each [$i] looked up among the parameters. *)
Fixpoint resolve_sets {R} (assign : string -> jsval -> assignment R)
    (sets : list (string * nat)) (params : list jsval) : assignment R :=
  match sets with
  | [] => Some Some
  | (c, i) :: sets' =>
      match param params i with
      | None => None
      | Some v =>
          match assign c v, resolve_sets assign sets' params with
          | Some f, Some g =>
              Some (fun r => match f r with Some r' => g r' | None => None end)
          | _, _ => None
          end
      end
  end.

Fixpoint distinctb (l : list string) : bool :=
  match l with
  | [] => true
  | c :: l' => negb (inb c l') && distinctb l'
  end.

(** The rows hit by [WHERE] are rewritten in place; the result is the new
    table and the rows hit, as [RETURNING] hands them back. *)
Fixpoint update_rows {R} (hit : R -> bool) (f : R -> option R) (rows : list R)
  : option (list R * list R) :=
  match rows with
  | [] => Some ([], [])
  | r :: rows' =>
      '(table, returned) ← update_rows hit f rows';
      if hit r
      then r' ← f r; Some (r' :: table, r' :: returned)
      else Some (r :: table, returned)
  end.

(** [UPDATE users SET <sets> WHERE username = $<where_idx> RETURNING ...] *)
Definition update_users (sets : list (string * nat)) (where_idx : nat)
    (params : list jsval) : M (list user_row) :=
  fun st =>
    match sets with
    | [] => (Err (DbError "syntax error at or near WHERE"), st)
    | _ =>
      if negb (distinctb (List.map fst sets))
      then (Err (DbError "multiple assignments to same column"), st)
      else
        match resolve_sets assign_user sets params, param params where_idx with
        | Some f, Some (JStr key) =>
            match update_rows (fun u => String.eqb (u_username u) key) f
                    (users st) with
            | Some (table, returned) =>
                (Ok returned, {| users := table;
                                 jobs := jobs st;
                                 applications := applications st |})
            | None => (Err (DbError "row violates a constraint"), st)
            end
        | _, _ => (Err (DbError "statement rejected"), st)
        end
    end.

(** [update jobs set <sets> where id = $<where_idx> returning ...].
    [company_handle] is a foreign key (section 6) to the table [companies],
    which is outside the store: [companies] are its handles. A statement that assigns the
    column is refused when a row it rewrote names no company; the checks of
    the table come first. *)
Definition update_jobs (companies : list string) (sets : list (string * nat))
    (where_idx : nat) (params : list jsval) : M (list job_row) :=
  fun st =>
    match sets with
    | [] => (Err (DbError "syntax error at or near where"), st)
    | _ =>
      if negb (distinctb (List.map fst sets))
      then (Err (DbError "multiple assignments to same column"), st)
      else
        match resolve_sets assign_job sets params, param params where_idx with
        | Some f, Some (JNum key) =>
            if negb (in_integer key)
            then (Err out_of_range, st)
            else
              match update_rows (fun j => (j_id j =? key)%Z) f (jobs st) with
              | Some (table, returned) =>
                  if inb "company_handle" (List.map fst sets)
                     && negb (List.forallb
                                (fun j => inb (j_company_handle j) companies)
                                returned)
                  then (Err (DbError "update violates foreign key constraint"),
                        st)
                  else (Ok returned, {| users := users st;
                                        jobs := table;
                                        applications := applications st |})
              | None => (Err (DbError "row violates a constraint"), st)
              end
        | _, _ => (Err (DbError "statement rejected"), st)
        end
    end.

(** *** The job search *)

(** [lower] on a text of ASCII characters, one to a byte: the letters [A]
    to [Z] are folded. What the server does with a character outside ASCII
    depends on the encoding and the locale and is not modelled; [ascii_text]
    below is the domain. *)
Definition ascii_text (s : string) : bool :=
  List.forallb (fun c => (nat_of_ascii c <? 128)%nat) (list_ascii_of_string s).

Definition lower_ascii (c : ascii) : ascii :=
  let n := nat_of_ascii c in
  if (65 <=? n)%nat && (n <=? 90)%nat then ascii_of_nat (n + 32) else c.

Fixpoint lower (s : string) : string :=
  match s with
  | EmptyString => EmptyString
  | String c s' => String (lower_ascii c) (lower s')
  end.

(** [s LIKE p]: [%] stands for any run of characters, [_] for any one
    character, and a backslash takes the next character literally. *)
Fixpoint like (p : string) : string -> bool :=
  match p with
  | EmptyString => fun s => String.eqb s ""
  | String c p' =>
      if Ascii.eqb c "%"%char then
        fix skip (s : string) : bool :=
          like p' s ||
          match s with
          | EmptyString => false
          | String _ s' => skip s'
          end
      else if Ascii.eqb c "_"%char then
        fun s =>
          match s with
          | EmptyString => false
          | String _ s' => like p' s'
          end
      else
        match p' with
        | String e p'' =>
            if Ascii.eqb c "\"%char then
              fun s =>
                match s with
                | EmptyString => false
                | String d s' => Ascii.eqb e d && like p'' s'
                end
            else
              fun s =>
                match s with
                | EmptyString => false
                | String d s' => Ascii.eqb c d && like p' s'
                end
        | EmptyString =>
            fun s =>
              match s with
              | String d EmptyString => Ascii.eqb c d
              | _ => false
              end
        end
  end.

(** The clauses [Job.find] puts after [where], each with the index of its
    positional parameter. *)
Inductive sql_component : Type :=
  | TitleLike (i : nat)
  | EquityPositive
  | SalaryAtLeast (i : nat)
  | CompanyHandleIs (i : nat).

#[global] Instance sql_component_eq_dec : EqDecision sql_component.
Proof. solve_decision. Defined.

(** The text of a clause, as the template literals of [Job.find] write it. *)
Definition render (c : sql_component) : string :=
  match c with
  | TitleLike i => "lower(title) like lower($" +:+ pretty i +:+ ")"
  | EquityPositive => "equity > 0"
  | SalaryAtLeast i => "salary >= $" +:+ pretty i
  | CompanyHandleIs i => "company_handle = $" +:+ pretty i
  end.

Definition parameter_of (c : sql_component) : option nat :=
  match c with
  | TitleLike i | SalaryAtLeast i | CompanyHandleIs i => Some i
  | EquityPositive => None
  end.

(** A clause as a test on a row; a comparison with a null salary is not
    true. [None]: the parameter is missing or not of the column's type, as
    is a number outside the range of INTEGER for [salary]. *)
Definition eval_component (params : list jsval) (c : sql_component)
  : option (job_row -> bool) :=
  match c with
  | TitleLike i =>
      match param params i with
      | Some (JStr p) => Some (fun j => like (lower p) (lower (j_title j)))
      | _ => None
      end
  | EquityPositive => Some (fun j => numeric_positive (j_equity j))
  | SalaryAtLeast i =>
      match param params i with
      | Some (JNum m) =>
          if in_integer m
          then Some (fun j =>
                       match j_salary j with
                       | Some s => (m <=? s)%Z
                       | None => false
                       end)
          else None
      | _ => None
      end
  | CompanyHandleIs i =>
      match param params i with
      | Some (JStr h) => Some (fun j => String.eqb (j_company_handle j) h)
      | _ => None
      end
  end.

Fixpoint eval_conjunction (params : list jsval) (cs : list sql_component)
  : option (job_row -> bool) :=
  match cs with
  | [] => Some (fun _ => true)
  | c :: cs' =>
      match eval_component params c, eval_conjunction params cs' with
      | Some p, Some q => Some (fun j => p j && q j)
      | _, _ => None
      end
  end.

(** [select id, title, salary, equity, company_handle from jobs
     where <c1> and ... and <cn>]. With no clause at all the statement ends
    at [where], which the database rejects. *)
Definition select_jobs_where (cs : list sql_component) (params : list jsval)
  : M (list job_row) :=
  fun st =>
    match cs with
    | [] => (Err (DbError "syntax error at end of input"), st)
    | _ =>
        match eval_conjunction params cs with
        | Some p => (Ok (List.filter p (jobs st)), st)
        | None => (Err (DbError "statement rejected"), st)
        end
    end.

(** ** The clause builder for partial updates *)

(** The result of the builder: one assignment per key, as the column and the
    index of its positional parameter, and the values. *)
Record partial_update := {
  assignments : list (string * nat);
  values : list jsval
}.

Definition render_assignment (a : string * nat) : string :=
  fst a +:+ " = $" +:+ pretty (snd a).

(** The clause as text: [col1 = $1, col2 = $2]. *)
Definition setCols (p : partial_update) : string :=
  join ", " (List.map render_assignment (assignments p)).

Definition column_of (jsToSql : gmap string string) (k : string) : string :=
  default k (jsToSql !! k).

(** Modelled from the spec: [sqlForPartialUpdate] of [helpers/sql.js], which
    the models import, is not among the sources. Section 4.1: for a
    non-empty field mapping, one assignment clause per key in iteration
    order, under the physical name of the rename mapping when the key has
    one, each with its own positional parameter, and the values in the same
    order; for the empty mapping, a "no data" failure, which section 7
    classes as a validation error. *)
Definition sqlForPartialUpdate (dataToUpdate : ordered_obj)
    (jsToSql : gmap string string) : result partial_update :=
  match dataToUpdate with
  | [] => Err (BadRequestError "No data")
  | _ =>
      Ok {| assignments :=
              imap (fun idx kv => (column_of jsToSql (fst kv), S idx))
                dataToUpdate;
            values := List.map snd dataToUpdate |}
  end.

Definition lift {A} (r : result A) : M A := fun st => (r, st).

(** *** The other statements *)

(** What the foreign keys of [applications] do when a row they point to is
    deleted. The schema is not among the sources: the action is an argument
    of the statements that delete. *)
Inductive fk_action : Type :=
  | Cascade
  | Restrict.

(** [DELETE FROM users WHERE username = $1 RETURNING username] *)
Definition delete_user (on_delete : fk_action) (username : string)
  : M (list string) :=
  fun st =>
    let hit u := String.eqb (u_username u) username in
    let deleted := List.filter hit (users st) in
    let referenced :=
      List.existsb (fun a => String.eqb (a_username a) username)
        (applications st) in
    match on_delete with
    | Restrict =>
        if is_some (head deleted) && referenced
        then (Err (DbError "delete violates foreign key constraint"), st)
        else (Ok (List.map u_username deleted),
              {| users := List.filter (fun u => negb (hit u)) (users st);
                 jobs := jobs st;
                 applications := applications st |})
    | Cascade =>
        (Ok (List.map u_username deleted),
         {| users := List.filter (fun u => negb (hit u)) (users st);
            jobs := jobs st;
            applications :=
              if is_some (head deleted)
              then List.filter
                     (fun a => negb (String.eqb (a_username a) username))
                     (applications st)
              else applications st |})
    end.

(** [DELETE FROM jobs WHERE id = $1 RETURNING id] *)
Definition delete_job (on_delete : fk_action) (id : Z) : M (list Z) :=
  fun st =>
    let hit j := (j_id j =? id)%Z in
    let deleted := List.filter hit (jobs st) in
    let referenced :=
      List.existsb (fun a => (a_job_id a =? id)%Z) (applications st) in
    if negb (in_integer id) then (Err out_of_range, st) else
    match on_delete with
    | Restrict =>
        if is_some (head deleted) && referenced
        then (Err (DbError "delete violates foreign key constraint"), st)
        else (Ok (List.map j_id deleted),
              {| users := users st;
                 jobs := List.filter (fun j => negb (hit j)) (jobs st);
                 applications := applications st |})
    | Cascade =>
        (Ok (List.map j_id deleted),
         {| users := users st;
            jobs := List.filter (fun j => negb (hit j)) (jobs st);
            applications :=
              if is_some (head deleted)
              then List.filter (fun a => negb (a_job_id a =? id)%Z)
                     (applications st)
              else applications st |})
    end.

(** The rows of [jobs] with an id. *)
Definition jobs_by_id (id : Z) (st : store) : list job_row :=
  List.filter (fun j => (j_id j =? id)%Z) (jobs st).

(** [select id, title, salary, equity, company_handle from jobs
     where id = $1] *)
Definition select_jobs_by_id (id : Z) : M (list job_row) :=
  fun st =>
    if in_integer id
    then (Ok (jobs_by_id id st), st)
    else (Err out_of_range, st).

(** [ORDER BY]: a stable insertion sort under a comparison. *)
Fixpoint insert_with {A} (le : A -> A -> bool) (x : A) (l : list A) : list A :=
  match l with
  | [] => [x]
  | y :: l' => if le x y then x :: y :: l' else y :: insert_with le x l'
  end.

Definition sort_with {A} (le : A -> A -> bool) (l : list A) : list A :=
  List.fold_right (insert_with le) [] l.

(** Nulls sort as larger than any value. *)
Definition nulls_last_leb (x y : option Z) : bool :=
  match x, y with
  | _, None => true
  | None, Some _ => false
  | Some a, Some b => (a <=? b)%Z
  end.

(** The order of two NUMERIC texts [n1 / 10 ^ k1] and [n2 / 10 ^ k2]. *)
Definition numeric_leb (s1 s2 : string) : bool :=
  let '(n1, k1) := default (0%Z, O) (parse_numeric s1) in
  let '(n2, k2) := default (0%Z, O) (parse_numeric s2) in
  (n1 * 10 ^ Z.of_nat k2 <=? n2 * 10 ^ Z.of_nat k1)%Z.

(** The ascending order of [jobs] on a column; texts in byte order. *)
Definition jobs_column_leb (column : string)
  : option (job_row -> job_row -> bool) :=
  if String.eqb column "id"
  then Some (fun a b => (j_id a <=? j_id b)%Z)
  else if String.eqb column "title"
  then Some (fun a b => String.leb (j_title a) (j_title b))
  else if String.eqb column "salary"
  then Some (fun a b => nulls_last_leb (j_salary a) (j_salary b))
  else if String.eqb column "equity"
  then Some (fun a b => numeric_leb (j_equity a) (j_equity b))
  else if String.eqb column "company_handle"
  then Some
         (fun a b => String.leb (j_company_handle a) (j_company_handle b))
  else None.

(** [select id, title, salary, equity, company_handle from jobs
     order by <column> <direction>]; the descending order is the ascending
    one reversed, nulls first. *)
Definition select_jobs_order_by (column direction : string)
  : M (list job_row) :=
  fun st =>
    match jobs_column_leb column with
    | None => (Err (DbError "column does not exist"), st)
    | Some le =>
        if String.eqb direction "asc"
        then (Ok (sort_with le (jobs st)), st)
        else if String.eqb direction "desc"
        then (Ok (sort_with (fun a b => le b a) (jobs st)), st)
        else (Err (DbError "syntax error in order by"), st)
    end.

(** [insert into jobs (title, salary, equity, company_handle)
     values ($1, $2, $3, $4) returning id, title, salary, equity,
     company_handle]. The id is the next value of the sequence of the
    column and [companies] are the handles of the table [companies], which
    [company_handle] refers to; both are outside the store and are
    arguments. A sequence that has run past the range of the column gives
    no id. *)
Definition insert_job (nextval : Z) (companies : list string)
    (params : list jsval) : M job_row :=
  fun st =>
    let blank :=
      {| j_id := nextval; j_title := ""; j_salary := None;
         j_equity := "0"; j_company_handle := "" |} in
    if negb (in_integer nextval) then (Err out_of_range, st) else
    match resolve_sets assign_job
            [("title", 1%nat); ("salary", 2%nat); ("equity", 3%nat);
             ("company_handle", 4%nat)] params with
    | None => (Err (DbError "statement rejected"), st)
    | Some f =>
        match f blank with
        | None => (Err (DbError "row violates a constraint"), st)
        | Some job =>
            if List.existsb (fun j => (j_id j =? nextval)%Z) (jobs st)
            then (Err (DbError "duplicate key value violates unique constraint"),
                  st)
            else if negb (inb (j_company_handle job) companies)
            then (Err (DbError "insert violates foreign key constraint"), st)
            else (Ok job, {| users := users st;
                             jobs := jobs st ++ [job];
                             applications := applications st |})
        end
    end.

(** ** [models/user.js] *)

Module User.

(** The projection [username, firstName, lastName, email, isAdmin] that the
    statements select or return. *)
Definition user_obj (u : user_row) : obj :=
  <["username" := JStr (u_username u)]>
    (<["firstName" := JStr (u_first_name u)]>
       (<["lastName" := JStr (u_last_name u)]>
          (<["email" := JStr (u_email u)]>
             (<["isAdmin" := JBool (u_is_admin u)]> ∅)))).

(** The same with the stored hash, as [authenticate] selects it. *)
Definition user_obj_with_password (u : user_row) : obj :=
  <["password" := JStr (u_password u)]> (user_obj u).

(** [x != s] for [x] an element of an array of plain objects ([undefined]
    past its end) and [s] a string: [undefined] equals no string, and an
    object is compared through its string conversion. *)
Definition loose_neq_string (x : option obj) (s : string) : bool :=
  match x with
  | None => true
  | Some _ => negb (String.eqb "[object Object]" s)
  end.

(** [array.reduceRight(f, init)] for an [f] that may throw. *)
Fixpoint reduceRight {A B} (f : B -> A -> result B) (init : B) (l : list A)
  : result B :=
  match l with
  | [] => Ok init
  | x :: l' =>
      match reduceRight f init l' with
      | Ok acc => f acc x
      | Err e => Err e
      end
  end.

(** The fields [register] takes from its argument. *)
Record registration := {
  username : string;
  password : string;
  firstName : string;
  lastName : string;
  email : string;
  isAdmin : bool
}.

Section WithBcrypt.

(** [bcrypt.compare(data, hash)], [bcrypt.hash(data, rounds)] and the work
    factor of [config.js]. *)
Variable bcrypt_compare : string -> string -> bool.
Variable bcrypt_hash : string -> Z -> string.
Variable BCRYPT_WORK_FACTOR : Z.

Definition authenticate (username password : string) : M obj :=
  let! rows := query (select_users_by_username username) in
  match head rows with
  | Some user =>
      if bcrypt_compare password (u_password user)
      then ret (delete "password" (user_obj_with_password user))
      else throw (UnauthorizedError "Invalid username/password")
  | None => throw (UnauthorizedError "Invalid username/password")
  end.

Definition register (r : registration) : M obj :=
  let! duplicateCheck := query (select_users_by_username (username r)) in
  match head duplicateCheck with
  | Some _ => throw (BadRequestError ("Duplicate username: " +:+ username r))
  | None =>
      let hashedPassword := bcrypt_hash (password r) BCRYPT_WORK_FACTOR in
      let! user :=
        insert_user {| u_username := username r;
                       u_password := hashedPassword;
                       u_first_name := firstName r;
                       u_last_name := lastName r;
                       u_email := email r;
                       u_is_admin := isAdmin r |} in
      ret (user_obj user)
  end.

(** The callback of [findAll]. The accumulator is an array, hence true in a
    condition, and its first element is a record or [undefined]. No record
    is given a [jobs] property, so that the other branch reads [undefined]
    and throws. *)
Definition findAll_step (rows : list obj) (row : user_row * option Z)
  : result (list obj) :=
  if true && loose_neq_string (head rows) (u_username (fst row))
  then Ok (user_obj (fst row) :: rows)
  else
    match head rows with
    | None =>
        Err (TypeError "Cannot read properties of undefined (reading 'jobs')")
    | Some first =>
        match first !! "jobs" with
        | None =>
            Err (TypeError
                   "Cannot read properties of undefined (reading 'unshift')")
        | Some _ => Err (TypeError "rows[0].jobs.unshift is not a function")
        end
    end.

Definition findAll : M (list obj) :=
  let! rows := query select_users_with_jobs in
  lift (reduceRight findAll_step [] rows).

Definition get (username : string) : M obj :=
  let! rows := query (select_user_with_jobs username) in
  if (length rows =? 0)%nat
  then throw (NotFoundError ("No user: " +:+ username))
  else
    match head rows with
    | Some (user, _) => ret (user_obj user)
    | None => throw (TypeError "Cannot read properties of undefined")
    end.

(** The record [apply] returns: [username] and [jobId]. *)
Definition application_obj (a : application_row) : obj :=
  <["username" := JStr (a_username a)]> (<["jobId" := JNum (a_job_id a)]> ∅).

(** [line.username == username] and [line.id == jobId], for a column that is
    null or of the type of the argument. The job id is a number, as the
    column is; a null equals neither a string nor a number. *)
Definition loose_eq_string (x : option string) (s : string) : bool :=
  match x with Some s' => String.eqb s' s | None => false end.

Definition loose_eq_num (x : option Z) (z : Z) : bool :=
  match x with Some z' => (z' =? z)%Z | None => false end.

Definition apply (username : string) (jobId : Z) : M obj :=
  let! usersAndJobs := select_users_and_jobs username jobId in
  let userExists :=
    List.find (fun line => loose_eq_string (fst line) username) usersAndJobs in
  let jobExists :=
    List.find (fun line => loose_eq_num (snd line) jobId) usersAndJobs in
  let appliedAlready :=
    List.find
      (fun line =>
         loose_eq_string (fst line) username && loose_eq_num (snd line) jobId)
      usersAndJobs in
  if negb (is_some userExists)
  then throw (NotFoundError ("user: " +:+ username +:+ " not found"))
  else if negb (is_some jobExists)
  then throw (NotFoundError ("job ID: " +:+ pretty jobId +:+ " not found"))
  else if is_some appliedAlready
  then throw (ExpressError
                (username +:+ " has already applied to job:" +:+ pretty jobId)
                409)
  else
    let! confirmation := insert_application username jobId in
    ret (application_obj confirmation).

(** The rename mapping [update] hands to the clause builder. *)
Definition jsToSql : gmap string string :=
  <["firstName" := "first_name"]>
    (<["lastName" := "last_name"]> (<["isAdmin" := "is_admin"]> ∅)).

Definition update (username : string) (data : ordered_obj) : M obj :=
  let! data :=
    (if truthy (ordered_get "password" data)
     then
       match ordered_get "password" data with
       | JStr p =>
           ret (ordered_set "password"
                  (JStr (bcrypt_hash p BCRYPT_WORK_FACTOR)) data)
       | _ => throw (BcryptError "data must be a string or Buffer")
       end
     else ret data) in
  let! built := lift (sqlForPartialUpdate data jsToSql) in
  let usernameVarIdx := (length (values built) + 1)%nat in
  let! rows :=
    update_users (assignments built) usernameVarIdx
      (values built ++ [JStr username]) in
  match head rows with
  | None => throw (NotFoundError ("No user: " +:+ username))
  | Some user => ret (delete "password" (user_obj user))
  end.

End WithBcrypt.

(** [remove] returns [undefined]. *)
Definition remove (on_delete : fk_action) (username : string) : M unit :=
  let! rows := delete_user on_delete username in
  match head rows with
  | None => throw (NotFoundError ("No user: " +:+ username))
  | Some _ => ret tt
  end.

End User.

(** ** [models/job.js] *)

Module Job.

(** The projection [id, title, salary, equity, companyHandle]. *)
Definition job_obj (j : job_row) : obj :=
  <["id" := JNum (j_id j)]>
    (<["title" := JStr (j_title j)]>
       (<["salary" := from_option JNum JNull (j_salary j)]>
          (<["equity" := JStr (j_equity j)]>
             (<["companyHandle" := JStr (j_company_handle j)]> ∅)))).

(** The argument of [find]; a filter that is not supplied is [undefined]. *)
Record filter_bag := {
  title : jsval;
  minSalary : jsval;
  hasEquity : jsval;
  companyHandle : jsval
}.

(** The three variables [find] fills in. *)
Record search := {
  sqlComponents : list sql_component;
  sqlInputs : list jsval;
  i : nat
}.

Definition push_title (title : jsval) (s : search) : search :=
  if truthy title
  then {| sqlComponents := sqlComponents s ++ [TitleLike (i s)];
          sqlInputs :=
            sqlInputs s ++ [JStr ("%" +:+ to_js_string title +:+ "%")];
          i := S (i s) |}
  else s.

Definition push_hasEquity (hasEquity : jsval) (s : search) : search :=
  if truthy hasEquity
  then {| sqlComponents := sqlComponents s ++ [EquityPositive];
          sqlInputs := sqlInputs s;
          i := i s |}
  else s.

Definition push_minSalary (minSalary : jsval) (s : search) : search :=
  if truthy minSalary
  then {| sqlComponents := sqlComponents s ++ [SalaryAtLeast (i s)];
          sqlInputs := sqlInputs s ++ [minSalary];
          i := S (i s) |}
  else s.

Definition push_companyHandle (companyHandle : jsval) (s : search) : search :=
  if truthy companyHandle
  then {| sqlComponents := sqlComponents s ++ [CompanyHandleIs (i s)];
          sqlInputs := sqlInputs s ++ [companyHandle];
          i := S (i s) |}
  else s.

(** The body of [find] up to the query: [hasEquity] defaults to 0, and the
    four conditions are taken in the order of the source. *)
Definition find_search (f : filter_bag) : search :=
  let hasEquity := default_to (JNum 0) (hasEquity f) in
  let s := {| sqlComponents := []; sqlInputs := []; i := 1 |} in
  let s := push_title (title f) s in
  let s := push_hasEquity hasEquity s in
  let s := push_minSalary (minSalary f) s in
  push_companyHandle (companyHandle f) s.

(** [sqlComponents.join(' and ')] *)
Definition predicate (s : search) : string :=
  join " and " (List.map render (sqlComponents s)).

Definition dquote : string := String (ascii_of_nat 34) EmptyString.

(** The statement [find] sends, with the white space of the template
    literal reduced to single blanks. *)
Definition sqlSearchLine (s : search) : string :=
  "select id, title, salary, equity, company_handle as "
  +:+ dquote +:+ "companyHandle" +:+ dquote
  +:+ " from jobs where " +:+ predicate s.

Definition find (f : filter_bag) : M (list obj) :=
  let s := find_search f in
  let! jobs := select_jobs_where (sqlComponents s) (sqlInputs s) in
  ret (List.map job_obj jobs).

(** The rename mapping [update] hands to the clause builder. *)
Definition jsToSql : gmap string string :=
  <["companyHandle" := "company_handle"]> ∅.

(** [companies] are the handles of the table [companies], as for [create]
    below. *)
Definition update (companies : list string) (id : Z) (data : ordered_obj)
  : M obj :=
  let! built := lift (sqlForPartialUpdate data jsToSql) in
  let! rows :=
    update_jobs companies (assignments built) (length (values built) + 1)%nat
      (values built ++ [JNum id]) in
  match head rows with
  | None => throw (NotFoundError ("No job: " +:+ pretty id))
  | Some job => ret (job_obj job)
  end.

(** The fields [create] takes from its argument. *)
Record job_data := {
  data_title : jsval;
  data_salary : jsval;
  data_equity : jsval;
  data_companyHandle : jsval
}.

Definition create (nextval : Z) (companies : list string) (data : job_data)
  : M obj :=
  let! job :=
    insert_job nextval companies
      [data_title data; data_salary data; data_equity data;
       data_companyHandle data] in
  ret (job_obj job).

(** [array.includes(v)] for an array of strings. *)
Definition includes (l : list string) (v : jsval) : bool :=
  match v with
  | JStr s => inb s l
  | _ => false
  end.

(** [v == s] for a string [s] that is not a numeral: only the same string
    equals it. *)
Definition loose_eq_text (v : jsval) (s : string) : bool :=
  match v with
  | JStr s' => String.eqb s' s
  | _ => false
  end.

(** [findAll(sortBy = 'title', ascending = true)]; an argument that is not
    given is [undefined]. *)
Definition findAll (sortBy ascending : jsval) : M (list obj) :=
  let sortBy := default_to (JStr "title") sortBy in
  let ascending := default_to (JBool true) ascending in
  if negb (includes ["id"; "title"; "salary"; "equity"; "companyHandle"]
             sortBy)
  then throw (BadRequestError "Unknown sorting system")
  else
    let! jobs :=
      select_jobs_order_by
        (if loose_eq_text sortBy "companyHandle"
         then "company_handle"
         else to_js_string sortBy)
        (if truthy ascending then "asc" else "desc") in
    ret (List.map job_obj jobs).

Definition get (id : Z) : M obj :=
  let! rows := select_jobs_by_id id in
  match head rows with
  | None => throw (NotFoundError ("No company: " +:+ pretty id))
  | Some job => ret (job_obj job)
  end.

Definition remove (on_delete : fk_action) (id : Z) : M unit :=
  let! rows := delete_job on_delete id in
  match head rows with
  | None => throw (NotFoundError ("No job: " +:+ pretty id))
  | Some _ => ret tt
  end.

End Job.

(** ** [routes/users.js] *)

Module UsersRoutes.

(** [res.locals.user], which the authentication middleware reads from the
    token. The middleware is not among the sources: a handler takes the user
    as an argument, and is the code that runs once [ensureLoggedIn] or
    [ensureIsAdmin] has let the request through. *)
Record locals_user := {
  username : string;
  isAdmin : bool
}.

(** The objects the handlers send: [{ users }], [{ user }], [{ deleted }]. *)
Inductive json : Type :=
  | JsonUsers (users : list obj)
  | JsonUser (user : obj)
  | JsonDeleted (deleted : string).

Record response := {
  status : Z;
  body : json
}.

(** What a handler passes to [next]: an error raised by a model or by the
    handler itself, or the [BadRequestError] built on the list of the
    messages of the validator. *)
Inductive thrown : Type :=
  | Thrown (e : error)
  | BadRequestErrors (errs : list string).

Inductive outcome : Type :=
  | Sent (r : response)
  | Next (err : thrown).

Definition handler : Type := store -> outcome * store.

(** [try { const x = await m; return res.json(k x) } catch (err)
     { return next(err) }] *)
Definition respond {A} (m : M A) (k : A -> json) : handler :=
  fun st =>
    match m st with
    | (Ok a, st') => (Sent {| status := 200; body := k a |}, st')
    | (Err e, st') => (Next (Thrown e), st')
    end.

Definition pass (err : thrown) : handler := fun st => (Next err, st).

Section Handlers.

(** The message of [new UnauthorizedError()], set in [expressError.js]; the
    messages of [jsonschema.validate(body, userUpdateSchema).errors], none
    when the body is valid; the hashing of [User.update]; the action of the
    foreign key on [User.remove]. *)
Variable unauthorized_message : string.
Variable userUpdateSchema_errors : ordered_obj -> list string.
Variable bcrypt_hash : string -> Z -> string.
Variable BCRYPT_WORK_FACTOR : Z.
Variable on_delete : fk_action.

(** [GET /], behind [ensureIsAdmin]. *)
Definition get_users : handler :=
  respond User.findAll JsonUsers.

(** [GET /:username], behind [ensureLoggedIn]. *)
Definition get_user (user : locals_user) (params_username : string)
  : handler :=
  if negb (isAdmin user)
     && negb (String.eqb (username user) params_username)
  then pass (Thrown (UnauthorizedError unauthorized_message))
  else respond (User.get params_username) JsonUser.

(** [PATCH /:username], behind [ensureLoggedIn]. The right operand of its
    test reads [res.params.username], and a response has no [params]: the
    operand is evaluated when the left one is true, and throws. *)
Definition patch_user (user : locals_user) (params_username : string)
    (req_body : ordered_obj) : handler :=
  if negb (isAdmin user)
  then pass (Thrown
               (TypeError
                  "Cannot read properties of undefined (reading 'username')"))
  else
    match userUpdateSchema_errors req_body with
    | [] =>
        respond
          (User.update bcrypt_hash BCRYPT_WORK_FACTOR params_username req_body)
          JsonUser
    | errs => pass (BadRequestErrors errs)
    end.

(** [DELETE /:username], behind [ensureLoggedIn]. *)
Definition delete_user_route (user : locals_user) (params_username : string)
  : handler :=
  if negb (isAdmin user)
     && negb (String.eqb (username user) params_username)
  then pass (Thrown (UnauthorizedError unauthorized_message))
  else
    respond (User.remove on_delete params_username)
      (fun _ => JsonDeleted params_username).

End Handlers.

End UsersRoutes.

(** ** Notions of the specification *)

(** The three facts that [apply] is to establish, read off the tables. *)
Definition user_exists (username : string) (st : store) : bool :=
  List.existsb (fun u => String.eqb (u_username u) username) (users st).

Definition job_exists (jobId : Z) (st : store) : bool :=
  List.existsb (fun j => (j_id j =? jobId)%Z) (jobs st).

Definition application_exists (username : string) (jobId : Z) (st : store)
  : bool :=
  List.existsb
    (fun a => String.eqb (a_username a) username && (a_job_id a =? jobId)%Z)
    (applications st).

(** The store after the application is recorded. *)
Definition add_application (username : string) (jobId : Z) (st : store)
  : store :=
  {| users := users st;
     jobs := jobs st;
     applications :=
       applications st ++ [{| a_username := username; a_job_id := jobId |}] |}.

(** A filter is supplied when the bag gives it a value at all. *)
Definition supplied (v : jsval) : bool :=
  match v with
  | JUndefined => false
  | _ => true
  end.

Definition count_true (l : list bool) : nat :=
  length (List.filter id l).

(** The filters of a bag that are supplied, [hasEquity] counting only when
    it is [true]. *)
Definition supplied_filters (f : Job.filter_bag) : nat :=
  count_true [supplied (Job.title f);
              truthy (Job.hasEquity f);
              supplied (Job.minSalary f);
              supplied (Job.companyHandle f)].

(** The filters whose value is true in a condition. *)
Definition truthy_filters (f : Job.filter_bag) : nat :=
  count_true [truthy (Job.title f);
              truthy (Job.hasEquity f);
              truthy (Job.minSalary f);
              truthy (Job.companyHandle f)].

(** The clause a filter stands for, and the value it binds. *)
Inductive filter_name : Type :=
  | Title | HasEquity | MinSalary | CompanyHandle.

#[global] Instance filter_name_eq_dec : EqDecision filter_name.
Proof. solve_decision. Defined.

Definition filter_of (c : sql_component) : filter_name :=
  match c with
  | TitleLike _ => Title
  | EquityPositive => HasEquity
  | SalaryAtLeast _ => MinSalary
  | CompanyHandleIs _ => CompanyHandle
  end.

(** The clauses of a predicate that stand for a given filter. *)
Definition clauses_for (n : filter_name) (cs : list sql_component)
  : list sql_component :=
  List.filter (fun c => bool_decide (filter_of c = n)) cs.

Definition value_of (f : Job.filter_bag) (c : sql_component) : option jsval :=
  match c with
  | TitleLike _ => Some (JStr ("%" +:+ to_js_string (Job.title f) +:+ "%"))
  | EquityPositive => None
  | SalaryAtLeast _ => Some (Job.minSalary f)
  | CompanyHandleIs _ => Some (Job.companyHandle f)
  end.

Definition filter_value (f : Job.filter_bag) (n : filter_name) : jsval :=
  match n with
  | Title => Job.title f
  | HasEquity => Job.hasEquity f
  | MinSalary => Job.minSalary f
  | CompanyHandle => Job.companyHandle f
  end.

(** The filters of a bag whose value is true in a condition, in the order
    in which [find] takes them. *)
Definition truthy_filter_names (f : Job.filter_bag) : list filter_name :=
  List.filter (fun n => truthy (filter_value f n))
    [Title; HasEquity; MinSalary; CompanyHandle].

(** One clause per filter of the list, those with a parameter numbered from
    [i] on. *)
Fixpoint clauses_from (i : nat) (l : list filter_name) : list sql_component :=
  match l with
  | [] => []
  | Title :: l' => TitleLike i :: clauses_from (S i) l'
  | HasEquity :: l' => EquityPositive :: clauses_from i l'
  | MinSalary :: l' => SalaryAtLeast i :: clauses_from (S i) l'
  | CompanyHandle :: l' => CompanyHandleIs i :: clauses_from (S i) l'
  end.

(** A bag in which a filter whose value is not true in a condition is left
    out. *)
Definition drop_falsy (v : jsval) : jsval :=
  if truthy v then v else JUndefined.

Definition without_falsy (f : Job.filter_bag) : Job.filter_bag :=
  {| Job.title := drop_falsy (Job.title f);
     Job.minSalary := drop_falsy (Job.minSalary f);
     Job.hasEquity := Job.hasEquity f;
     Job.companyHandle := drop_falsy (Job.companyHandle f) |}.

Definition no_filter : Job.filter_bag :=
  {| Job.title := JUndefined;
     Job.minSalary := JUndefined;
     Job.hasEquity := JUndefined;
     Job.companyHandle := JUndefined |}.

(** [{ minSalary: 0 }] *)
Definition minSalary_zero : Job.filter_bag :=
  {| Job.title := JUndefined;
     Job.minSalary := JNum 0;
     Job.hasEquity := JUndefined;
     Job.companyHandle := JUndefined |}.

(** A payload of [User.update]: distinct keys among the fields the
    operation documents, each with a value of its type. *)
Definition user_field_ok (kv : string * jsval) : bool :=
  match snd kv with
  | JStr _ => inb (fst kv) ["firstName"; "lastName"; "password"; "email"]
  | JBool _ => String.eqb (fst kv) "isAdmin"
  | _ => false
  end.

Definition user_payload (data : ordered_obj) : bool :=
  distinctb (List.map fst data) && List.forallb user_field_ok data.

(** A payload of [Job.update], likewise; the salary may be null. *)
Definition job_field_ok (kv : string * jsval) : bool :=
  match snd kv with
  | JStr s =>
      inb (fst kv) ["title"; "companyHandle"]
      || String.eqb (fst kv) "equity" && is_some (parse_numeric s)
  | JNum _ => inb (fst kv) ["salary"; "equity"]
  | JNull => String.eqb (fst kv) "salary"
  | _ => false
  end.

Definition job_payload (data : ordered_obj) : bool :=
  distinctb (List.map fst data) && List.forallb job_field_ok data.

(** ** Sample data *)

(** [{ title: "a", minSalary: 3, hasEquity: true, companyHandle: "c1" }] *)
Definition all_filters : Job.filter_bag :=
  {| Job.title := JStr "a";
     Job.minSalary := JNum 3;
     Job.hasEquity := JBool true;
     Job.companyHandle := JStr "c1" |}.

(** [{ title: "", minSalary: 0, companyHandle: "" }] *)
Definition falsy_filters : Job.filter_bag :=
  {| Job.title := JStr "";
     Job.minSalary := JNum 0;
     Job.hasEquity := JUndefined;
     Job.companyHandle := JStr "" |}.

Definition sample_user (name : string) : user_row :=
  {| u_username := name;
     u_password := "hash:secret";
     u_first_name := "First";
     u_last_name := "Last";
     u_email := "user@example.com";
     u_is_admin := false |}.

Definition sample_job (id : Z) (title : string) (salary : Z) : job_row :=
  {| j_id := id;
     j_title := title;
     j_salary := Some salary;
     j_equity := "0";
     j_company_handle := "c1" |}.

(** Two users and two jobs; [u1] has applied to both jobs and [u2] to none. *)
Definition sample_store : store :=
  {| users := [sample_user "u1"; sample_user "u2"];
     jobs := [sample_job 1 "j1" 11; sample_job 2 "j2" 22];
     applications := [{| a_username := "u1"; a_job_id := 1 |};
                      {| a_username := "u1"; a_job_id := 2 |}] |}.

(** One user, one job, no application yet. *)
Definition fresh_store : store :=
  {| users := [sample_user "u1"];
     jobs := [sample_job 1 "j1" 11];
     applications := [] |}.

Definition sample_compare (password hash : string) : bool :=
  String.eqb ("hash:" +:+ password) hash.

Definition sample_hash (password : string) (rounds : Z) : string :=
  "hash:" +:+ password.

Definition sample_registration : User.registration :=
  {| User.username := "u3";
     User.password := "secret";
     User.firstName := "First";
     User.lastName := "Last";
     User.email := "u3@example.com";
     User.isAdmin := false |}.

(** The row [register] inserts for [sample_registration]. *)
Definition sample_registered : user_row :=
  {| u_username := "u3";
     u_password := "hash:secret";
     u_first_name := "First";
     u_last_name := "Last";
     u_email := "u3@example.com";
     u_is_admin := false |}.

(** The row of [u1] with another address. *)
Definition sample_updated : user_row :=
  {| u_username := "u1";
     u_password := "hash:secret";
     u_first_name := "First";
     u_last_name := "Last";
     u_email := "new@example.com";
     u_is_admin := false |}.

(** The six jobs of the fixture of [job.test.js], in the order of their ids. *)
Definition fixture_job (id : Z) (title : string) (salary : Z) (handle : string)
  : job_row :=
  {| j_id := id;
     j_title := title;
     j_salary := Some salary;
     j_equity := "0";
     j_company_handle := handle |}.

(** The handles of the companies of the fixture. *)
Definition fixture_companies : list string := ["c1"; "c2"; "c3"].

Definition fixture_store : store :=
  {| users := [];
     jobs := [fixture_job 1 "j11" 11 "c1"; fixture_job 2 "j21" 21 "c1";
              fixture_job 3 "j12" 12 "c2"; fixture_job 4 "j22" 22 "c2";
              fixture_job 5 "j13" 13 "c3"; fixture_job 6 "j23" 23 "c3"];
     applications := [] |}.

(** A job without a salary next to one with. *)
Definition null_salary_store : store :=
  {| users := [];
     jobs := [{| j_id := 1; j_title := "j1"; j_salary := None;
                 j_equity := "0.5"; j_company_handle := "c1" |};
              fixture_job 2 "j2" 0 "c1"];
     applications := [] |}.

(** [{ title: "j", minSalary: 0 }] *)
Definition title_and_zero : Job.filter_bag :=
  {| Job.title := JStr "j";
     Job.minSalary := JNum 0;
     Job.hasEquity := JUndefined;
     Job.companyHandle := JUndefined |}.

(** The ids of the jobs an operation returned. *)
Definition returned_ids (r : result (list obj) * store) : option (list jsval) :=
  match fst r with
  | Ok l => Some (List.map (fun o : obj => default JUndefined (o !! "id")) l)
  | Err _ => None
  end.

(** ** Further notions *)

(** The row [register] inserts. *)
Definition registered_row (bcrypt_hash : string -> Z -> string)
    (BCRYPT_WORK_FACTOR : Z) (r : User.registration) : user_row :=
  {| u_username := User.username r;
     u_password := bcrypt_hash (User.password r) BCRYPT_WORK_FACTOR;
     u_first_name := User.firstName r;
     u_last_name := User.lastName r;
     u_email := User.email r;
     u_is_admin := User.isAdmin r |}.

Definition add_user (u : user_row) (st : store) : store :=
  {| users := users st ++ [u];
     jobs := jobs st;
     applications := applications st |}.

Definition add_job (j : job_row) (st : store) : store :=
  {| users := users st;
     jobs := jobs st ++ [j];
     applications := applications st |}.

Definition application_key (a : application_row) : string * Z :=
  (a_username a, a_job_id a).

(** The keys are keys, and every application is of a user and to a job of
    the store. *)
Definition consistent (st : store) : Prop :=
  NoDup (List.map u_username (users st))
  /\ NoDup (List.map j_id (jobs st))
  /\ NoDup (List.map application_key (applications st))
  /\ Forall (fun a => user_exists (a_username a) st = true
                      /\ job_exists (a_job_id a) st = true)
       (applications st).

(** The assignments of a payload one after the other, each value to the
    column of its key. *)
Fixpoint assign_all {R} (assign : string -> jsval -> assignment R)
    (col : string -> string) (data : ordered_obj) : assignment R :=
  match data with
  | [] => Some Some
  | (k, v) :: data' =>
      match assign (col k) v, assign_all assign col data' with
      | Some f, Some g =>
          Some (fun r => match f r with Some r' => g r' | None => None end)
      | _, _ => None
      end
  end.

(** The payload of [User.update] once a password that is true in a
    condition has been hashed. *)
Definition hashed_payload (bcrypt_hash : string -> Z -> string)
    (BCRYPT_WORK_FACTOR : Z) (data : ordered_obj) : ordered_obj :=
  match ordered_get "password" data with
  | JStr p =>
      if String.eqb p ""
      then data
      else ordered_set "password" (JStr (bcrypt_hash p BCRYPT_WORK_FACTOR)) data
  | _ => data
  end.

(** The value a payload gives a field, or the one it had. *)
Definition text_or (k : string) (data : ordered_obj) (old : string) : string :=
  match ordered_get k data with
  | JStr s => s
  | _ => old
  end.

Definition bool_or (k : string) (data : ordered_obj) (old : bool) : bool :=
  match ordered_get k data with
  | JBool b => b
  | _ => old
  end.

(** A row of [users] with the fields of a payload in place of its own. *)
Definition updated_user (data : ordered_obj) (u : user_row) : user_row :=
  {| u_username := u_username u;
     u_password := text_or "password" data (u_password u);
     u_first_name := text_or "firstName" data (u_first_name u);
     u_last_name := text_or "lastName" data (u_last_name u);
     u_email := text_or "email" data (u_email u);
     u_is_admin := bool_or "isAdmin" data (u_is_admin u) |}.

(** The table [users] with the rows of a username replaced. *)
Definition update_user_rows (username : string) (data : ordered_obj)
    (table : list user_row) : list user_row :=
  List.map
    (fun u =>
       if String.eqb (u_username u) username then updated_user data u else u)
    table.

(** A row of [jobs] with the fields of a payload in place of its own; an
    equity is stored as the normal form of its decimal text. *)
Definition updated_job (data : ordered_obj) (j : job_row) : job_row :=
  {| j_id := j_id j;
     j_title := text_or "title" data (j_title j);
     j_salary :=
       match ordered_get "salary" data with
       | JNum z => Some z
       | JNull => None
       | _ => j_salary j
       end;
     j_equity :=
       match ordered_get "equity" data with
       | JStr s =>
           match parse_numeric s with
           | Some (num, scale) => numeric_text num scale
           | None => j_equity j
           end
       | JNum z => pretty z
       | _ => j_equity j
       end;
     j_company_handle := text_or "companyHandle" data (j_company_handle j) |}.

(** The checks of the table on the values of a payload: a salary is not
    negative, an equity is between 0 and 1. *)
Definition job_constraints (data : ordered_obj) : bool :=
  match ordered_get "salary" data with
  | JNum z => (0 <=? z)%Z
  | _ => true
  end
  && match ordered_get "equity" data with
     | JStr s => equity_in_range s
     | JNum z => (0 <=? z)%Z && (z <=? 1)%Z
     | _ => true
     end.

(** The salary of a payload, when it gives one as a number, is within the
    range of INTEGER. *)
Definition salary_field_in_integer (kv : string * jsval) : bool :=
  match snd kv with
  | JNum z => negb (String.eqb (fst kv) "salary") || in_integer z
  | _ => true
  end.

Definition salary_in_integer (data : ordered_obj) : bool :=
  List.forallb salary_field_in_integer data.

(** The company of a payload, when it gives one, is one of [companies]. *)
Definition company_known (companies : list string) (data : ordered_obj)
  : bool :=
  match ordered_get "companyHandle" data with
  | JStr h => inb h companies
  | _ => true
  end.

Definition update_job_rows (id : Z) (data : ordered_obj)
    (table : list job_row) : list job_row :=
  List.map (fun j => if (j_id j =? id)%Z then updated_job data j else j) table.

(** The store without the rows of a username; under [Cascade] without the
    applications of that user either. *)
Definition drop_user (on_delete : fk_action) (username : string) (st : store)
  : store :=
  {| users :=
       List.filter (fun u => negb (String.eqb (u_username u) username))
         (users st);
     jobs := jobs st;
     applications :=
       match on_delete with
       | Cascade =>
           List.filter (fun a => negb (String.eqb (a_username a) username))
             (applications st)
       | Restrict => applications st
       end |}.

Definition drop_job (on_delete : fk_action) (id : Z) (st : store) : store :=
  {| users := users st;
     jobs := List.filter (fun j => negb (j_id j =? id)%Z) (jobs st);
     applications :=
       match on_delete with
       | Cascade =>
           List.filter (fun a => negb (a_job_id a =? id)%Z) (applications st)
       | Restrict => applications st
       end |}.

Definition has_applications (username : string) (st : store) : bool :=
  List.existsb (fun a => String.eqb (a_username a) username) (applications st).

Definition has_applicants (id : Z) (st : store) : bool :=
  List.existsb (fun a => (a_job_id a =? id)%Z) (applications st).

(** The text under which an equity is stored, when the table takes it. *)
Definition equity_text (v : jsval) : option string :=
  match v with
  | JStr s =>
      match parse_numeric s with
      | Some (num, scale) =>
          if equity_in_range s then Some (numeric_text num scale) else None
      | None => None
      end
  | JNum z => if (0 <=? z)%Z && (z <=? 1)%Z then Some (pretty z) else None
  | _ => None
  end.

(** A salary, or null for none. *)
Definition salary_value (salary : option Z) : jsval :=
  match salary with
  | Some z => JNum z
  | None => JNull
  end.

(** The rows of a listing on which the callback of [User.findAll] never
    reaches its second branch: no row but the last is of a user called
    ["[object Object]"]. *)
Fixpoint findAll_safe (rows : list (user_row * option Z)) : bool :=
  match rows with
  | [] => true
  | row :: rest =>
      findAll_safe rest
      && (match rest with [] => true | _ => false end
          || negb (String.eqb "[object Object]" (u_username (fst row))))
  end.

(** The rows of the listing a user has: one for each application, or one
    when there is none. *)
Definition listing_rows_of (u : user_row) (st : store) : nat :=
  Nat.max 1
    (length
       (List.filter (fun a => String.eqb (a_username a) (u_username u))
          (applications st))).

(** The store with the rows of [users], or of [jobs], replaced. *)
Definition with_users (table : list user_row) (st : store) : store :=
  {| users := table; jobs := jobs st; applications := applications st |}.

Definition with_jobs (table : list job_row) (st : store) : store :=
  {| users := users st; jobs := table; applications := applications st |}.

(** What each filter of a bag asks of a job, when its value is true in a
    condition. *)
Definition title_matches (f : Job.filter_bag) (j : job_row) : bool :=
  negb (truthy (Job.title f))
  || like (lower ("%" +:+ to_js_string (Job.title f) +:+ "%"))
       (lower (j_title j)).

Definition equity_matches (f : Job.filter_bag) (j : job_row) : bool :=
  negb (truthy (Job.hasEquity f)) || numeric_positive (j_equity j).

Definition salary_matches (f : Job.filter_bag) (j : job_row) : bool :=
  match Job.minSalary f with
  | JNum m =>
      (m =? 0)%Z
      || match j_salary j with Some s => (m <=? s)%Z | None => false end
  | _ => true
  end.

Definition handle_matches (f : Job.filter_bag) (j : job_row) : bool :=
  match Job.companyHandle f with
  | JStr h => String.eqb h "" || String.eqb (j_company_handle j) h
  | _ => true
  end.

Definition job_matches (f : Job.filter_bag) (j : job_row) : bool :=
  title_matches f j && equity_matches f j && salary_matches f j
  && handle_matches f j.

(** A bag whose [title] and [companyHandle] are strings and whose
    [minSalary] is a number within the range of INTEGER, when they are
    supplied. *)
Definition typed_bag (f : Job.filter_bag) : bool :=
  match Job.title f with
  | JUndefined | JStr _ => true
  | _ => false
  end
  && (match Job.minSalary f with
      | JUndefined => true
      | JNum m => in_integer m
      | _ => false
      end
      && match Job.companyHandle f with
         | JUndefined | JStr _ => true
         | _ => false
         end).

(** A text without the characters that [LIKE] reads as a pattern. *)
Fixpoint plain (t : string) : bool :=
  match t with
  | EmptyString => true
  | String c t' =>
      negb (Ascii.eqb c "%"%char) && negb (Ascii.eqb c "_"%char)
      && negb (Ascii.eqb c "\"%char) && plain t'
  end.

(** The order [Job.findAll] asks for, by the name of the sort key. *)
Definition jobs_sort_leb (sortBy : string) (ascending : bool)
  : job_row -> job_row -> bool :=
  let le :=
    default (fun _ _ => true)
      (jobs_column_leb
         (if String.eqb sortBy "companyHandle" then "company_handle"
          else sortBy)) in
  if ascending then le else fun a b => le b a.

(** A job of the fixture of the tests and its fields as [create] takes
    them. *)
Definition sample_job_data : Job.job_data :=
  {| Job.data_title := JStr "new";
     Job.data_salary := JNum 1;
     Job.data_equity := JStr "0";
     Job.data_companyHandle := JStr "c1" |}.

Definition sample_caller : UsersRoutes.locals_user :=
  {| UsersRoutes.username := "u2"; UsersRoutes.isAdmin := false |}.

Definition sample_admin : UsersRoutes.locals_user :=
  {| UsersRoutes.username := "admin"; UsersRoutes.isAdmin := true |}.

(** A validator that asks for a body without a [username]. *)
Definition sample_schema_errors (body : ordered_obj) : list string :=
  if inb "username" (List.map fst body)
  then ["instance is not allowed to have the additional property username"]
  else [].

(** * Properties *)

Local Open Scope list_scope.

(** ** The model on the fixture of the tests

    The expectations of [job.test.js] and the statement text. *)

Example find_minSalary_20 :
  returned_ids
    (Job.find {| Job.title := JUndefined; Job.minSalary := JNum 20;
                 Job.hasEquity := JUndefined; Job.companyHandle := JUndefined |}
       fixture_store)
  = Some [JNum 2; JNum 4; JNum 6].
Proof. reflexivity. Qed.

Example find_title_1 :
  returned_ids
    (Job.find {| Job.title := JStr "1"; Job.minSalary := JUndefined;
                 Job.hasEquity := JUndefined; Job.companyHandle := JUndefined |}
       fixture_store)
  = Some [JNum 1; JNum 2; JNum 3; JNum 5].
Proof. reflexivity. Qed.

Example find_title_J :
  returned_ids
    (Job.find {| Job.title := JStr "J"; Job.minSalary := JUndefined;
                 Job.hasEquity := JUndefined; Job.companyHandle := JUndefined |}
       fixture_store)
  = Some [JNum 1; JNum 2; JNum 3; JNum 4; JNum 5; JNum 6].
Proof. reflexivity. Qed.

Example find_companyHandle_c1 :
  returned_ids
    (Job.find {| Job.title := JUndefined; Job.minSalary := JUndefined;
                 Job.hasEquity := JUndefined; Job.companyHandle := JStr "c1" |}
       fixture_store)
  = Some [JNum 1; JNum 2].
Proof. reflexivity. Qed.

Example find_all_filters_text :
  Job.predicate (Job.find_search all_filters)
  = "lower(title) like lower($1) and equity > 0 and salary >= $2 and company_handle = $3"
  /\ Job.sqlInputs (Job.find_search all_filters)
     = [JStr "%a%"; JNum 3; JStr "c1"].
Proof. split; reflexivity. Qed.

(** With [minSalary] 0 the job without a salary is returned, which
    [salary >= 0] would leave out. *)
Example find_minSalary_0_keeps_null_salary :
  returned_ids (Job.find title_and_zero null_salary_store)
  = Some [JNum 1; JNum 2]
  /\ Job.predicate (Job.find_search title_and_zero)
     = "lower(title) like lower($1)"
  /\ fst (select_jobs_where [TitleLike 1; SalaryAtLeast 2]
            [JStr "%j%"; JNum 0] null_salary_store)
     = Ok [fixture_job 2 "j2" 0 "c1"].
Proof. repeat split. Qed.

Example find_hasEquity :
  returned_ids
    (Job.find {| Job.title := JUndefined; Job.minSalary := JUndefined;
                 Job.hasEquity := JBool true; Job.companyHandle := JUndefined |}
       null_salary_store)
  = Some [JNum 1].
Proof. reflexivity. Qed.

Example update_job_salary :
  fst (Job.update fixture_companies 1 [("salary", JNum 50)] fixture_store)
  = Ok (Job.job_obj {| j_id := 1; j_title := "j11"; j_salary := Some 50;
                       j_equity := "0"; j_company_handle := "c1" |}).
Proof. reflexivity. Qed.

Example update_user_text :
  setCols {| assignments := [("first_name", 1%nat); ("password", 2%nat);
                             ("is_admin", 3%nat)];
             values := [] |}
  = "first_name = $1, password = $2, is_admin = $3".
Proof. reflexivity. Qed.

(** ** The job search *)

Lemma truthy_default_hasEquity v : truthy (default_to (JNum 0) v) = truthy v.
Proof. now destruct v. Qed.

Lemma push_title_falsy v s : truthy v = false -> Job.push_title v s = s.
Proof. intros E. unfold Job.push_title. now rewrite E. Qed.

Lemma push_minSalary_falsy v s : truthy v = false -> Job.push_minSalary v s = s.
Proof. intros E. unfold Job.push_minSalary. now rewrite E. Qed.

Lemma push_companyHandle_falsy v s :
  truthy v = false -> Job.push_companyHandle v s = s.
Proof. intros E. unfold Job.push_companyHandle. now rewrite E. Qed.

Lemma push_title_drop v s : Job.push_title (drop_falsy v) s = Job.push_title v s.
Proof.
  unfold drop_falsy. destruct (truthy v) eqn:E; [reflexivity |].
  now rewrite (push_title_falsy v s E).
Qed.

Lemma push_minSalary_drop v s :
  Job.push_minSalary (drop_falsy v) s = Job.push_minSalary v s.
Proof.
  unfold drop_falsy. destruct (truthy v) eqn:E; [reflexivity |].
  now rewrite (push_minSalary_falsy v s E).
Qed.

Lemma push_companyHandle_drop v s :
  Job.push_companyHandle (drop_falsy v) s = Job.push_companyHandle v s.
Proof.
  unfold drop_falsy. destruct (truthy v) eqn:E; [reflexivity |].
  now rewrite (push_companyHandle_falsy v s E).
Qed.

(** The sixteen combinations of the four conditions of [find]. *)
Ltac by_filters t h m c :=
  unfold Job.find_search, Job.push_title, Job.push_hasEquity,
    Job.push_minSalary, Job.push_companyHandle;
  cbn [Job.title Job.minSalary Job.hasEquity Job.companyHandle];
  rewrite ?truthy_default_hasEquity;
  destruct (truthy t) eqn:Et, (truthy h) eqn:Eh, (truthy m) eqn:Em,
    (truthy c) eqn:Ec.

(** C1, at the input [Job.find({})]: no clause is collected, the predicate
    is the empty text, the statement sent ends at [where], and the call
    fails on it instead of returning the rows of [jobs]. *)
Theorem find_empty_bag_malformed (st : store) :
  Job.sqlComponents (Job.find_search no_filter) = []
  /\ Job.predicate (Job.find_search no_filter) = ""
  /\ Job.sqlSearchLine (Job.find_search no_filter)
     = "select id, title, salary, equity, company_handle as "
       +:+ Job.dquote +:+ "companyHandle" +:+ Job.dquote +:+ " from jobs where "
  /\ Job.find_search
       {| Job.title := JUndefined; Job.minSalary := JUndefined;
          Job.hasEquity := JBool false; Job.companyHandle := JUndefined |}
     = Job.find_search no_filter
  /\ Job.find no_filter st = (Err (DbError "syntax error at end of input"), st)
  /\ Job.find no_filter fixture_store
     <> (Ok (List.map Job.job_obj (jobs fixture_store)), fixture_store).
Proof.
  repeat split; try reflexivity. discriminate.
Qed.

(** C5 as stated fails at [{ minSalary: 0 }]: the bag supplies one filter
    and the predicate has no clause. *)
Lemma find_clause_per_supplied_filter_fails :
  supplied (Job.minSalary minSalary_zero) = true
  /\ supplied_filters minSalary_zero = 1%nat
  /\ Job.sqlComponents (Job.find_search minSalary_zero) = []
  /\ length (Job.sqlComponents (Job.find_search minSalary_zero))
     <> supplied_filters minSalary_zero.
Proof. repeat split; try reflexivity. discriminate. Qed.

(** C5, amended: for every filter bag the clauses are those of the filters
    whose value is true in a condition, in the order title, hasEquity,
    minSalary, companyHandle: exactly one clause for each such filter and
    none for the others; the predicate is their conjunction by [and]; the
    clause of [hasEquity] is [equity > 0] and has no parameter; the
    parameters of the other clauses are $1, $2, ... in the order of the
    clauses, and [$i] is bound to the value of the clause that names it. *)
Theorem find_one_clause_per_truthy_filter (f : Job.filter_bag) :
  let s := Job.find_search f in
  Job.sqlComponents s = clauses_from 1 (truthy_filter_names f)
  /\ length (Job.sqlComponents s) = truthy_filters f
  /\ (forall n, length (clauses_for n (Job.sqlComponents s))
                = if truthy (filter_value f n) then 1%nat else 0%nat)
  /\ Job.predicate s = join " and " (List.map render (Job.sqlComponents s))
  /\ render EquityPositive = "equity > 0"
  /\ parameter_of EquityPositive = None
  /\ omap parameter_of (Job.sqlComponents s)
     = seq 1 (length (Job.sqlInputs s))
  /\ omap (value_of f) (Job.sqlComponents s) = Job.sqlInputs s
  /\ (forall c i, In c (Job.sqlComponents s) -> parameter_of c = Some i ->
        param (Job.sqlInputs s) i = value_of f c).
Proof.
  destruct f as [t m h c]. cbv zeta.
  unfold truthy_filters, truthy_filter_names, filter_value;
    cbn [Job.title Job.minSalary Job.hasEquity Job.companyHandle List.filter].
  split.
  { by_filters t h m c; reflexivity. }
  split.
  { by_filters t h m c; reflexivity. }
  split.
  { intros n. by_filters t h m c; destruct n; rewrite ?Et, ?Eh, ?Em, ?Ec;
      reflexivity. }
  split; [reflexivity |].
  split; [reflexivity |].
  split; [reflexivity |].
  split.
  { by_filters t h m c; reflexivity. }
  split.
  { by_filters t h m c; reflexivity. }
  intros x k. by_filters t h m c; cbn; intros Hin Hp;
    repeat (destruct Hin as [<- | Hin]); try contradiction;
    cbn in Hp; try discriminate; injection Hp as <-; reflexivity.
Qed.

Lemma find_one_clause_per_truthy_filter_witness :
  In (SalaryAtLeast 2) (Job.sqlComponents (Job.find_search all_filters))
  /\ parameter_of (SalaryAtLeast 2) = Some 2%nat
  /\ param (Job.sqlInputs (Job.find_search all_filters)) 2 = Some (JNum 3).
Proof.
  split; [cbn; tauto |]. split; [reflexivity |].
  destruct (find_one_clause_per_truthy_filter all_filters)
    as (_ & _ & _ & _ & _ & _ & _ & _ & H).
  apply (H (SalaryAtLeast 2) 2%nat); [cbn; tauto | reflexivity].
Defined.

(** C10: a filter whose value is not true in a condition is as good as not
    supplied. The search built from a bag is the one built from the bag
    without such filters, no clause stands for them, and [{ minSalary: 0 }]
    gives the statement, and the outcome, of the bag without any filter. *)
Theorem find_falsy_filter_is_absent (f : Job.filter_bag) :
  Job.find_search f = Job.find_search (without_falsy f)
  /\ (forall st, Job.find f st = Job.find (without_falsy f) st)
  /\ (truthy (Job.title f) = false ->
      ~ In Title (List.map filter_of (Job.sqlComponents (Job.find_search f))))
  /\ (truthy (Job.minSalary f) = false ->
      ~ In MinSalary
          (List.map filter_of (Job.sqlComponents (Job.find_search f))))
  /\ (truthy (Job.companyHandle f) = false ->
      ~ In CompanyHandle
          (List.map filter_of (Job.sqlComponents (Job.find_search f))))
  /\ Job.find_search minSalary_zero = Job.find_search no_filter
  /\ (forall st, Job.find minSalary_zero st = Job.find no_filter st).
Proof.
  assert (E : Job.find_search f = Job.find_search (without_falsy f)).
  { unfold Job.find_search, without_falsy;
      cbn [Job.title Job.minSalary Job.hasEquity Job.companyHandle].
    now rewrite push_title_drop, push_minSalary_drop, push_companyHandle_drop. }
  split; [exact E |].
  split; [intros st; unfold Job.find; now rewrite E |].
  destruct f as [t m h c];
    cbn [Job.title Job.minSalary Job.hasEquity Job.companyHandle].
  unfold Job.find_search, Job.push_title, Job.push_hasEquity,
    Job.push_minSalary, Job.push_companyHandle;
    cbn [Job.title Job.minSalary Job.hasEquity Job.companyHandle].
  rewrite truthy_default_hasEquity.
  split; [| split; [| split; [| split; reflexivity]]].
  - intros ->. destruct (truthy h), (truthy m), (truthy c); cbn;
      intuition discriminate.
  - intros ->. destruct (truthy t), (truthy h), (truthy c); cbn;
      intuition discriminate.
  - intros ->. destruct (truthy t), (truthy h), (truthy m); cbn;
      intuition discriminate.
Qed.

Lemma find_falsy_filter_is_absent_witness :
  truthy (JStr "") = false /\ truthy (JNum 0) = false
  /\ Job.sqlComponents (Job.find_search falsy_filters) = []
  /\ ~ In Title
        (List.map filter_of (Job.sqlComponents (Job.find_search falsy_filters)))
  /\ ~ In MinSalary
        (List.map filter_of (Job.sqlComponents (Job.find_search falsy_filters)))
  /\ ~ In CompanyHandle
        (List.map filter_of (Job.sqlComponents (Job.find_search falsy_filters))).
Proof.
  destruct (find_falsy_filter_is_absent falsy_filters)
    as (_ & _ & Ht & Hm & Hc & _).
  split; [reflexivity |]. split; [reflexivity |]. split; [reflexivity |].
  split; [apply Ht; reflexivity |].
  split; [apply Hm; reflexivity | apply Hc; reflexivity].
Defined.

(** ** Joins *)

Section Joins.
Context {A B : Type} (on : A -> B -> bool).

Lemma left_join_match (l : list A) (r : list B) a b :
  In a l -> In b r -> on a b = true -> In (a, Some b) (left_join on l r).
Proof.
  intros Ha Hb Hon. unfold left_join. apply in_flat_map. exists a. split; [exact Ha |].
  assert (Hf : In b (List.filter (on a) r)) by (apply filter_In; auto).
  destruct (List.filter (on a) r) as [| b0 ms] eqn:E; [contradiction |].
  apply in_map_iff. exists b. auto.
Qed.

Lemma left_join_total (l : list A) (r : list B) a :
  In a l -> exists ob, In (a, ob) (left_join on l r).
Proof.
  intros Ha. destruct (List.filter (on a) r) as [| b0 ms] eqn:E.
  - exists None. unfold left_join. apply in_flat_map. exists a. split; [exact Ha |].
    rewrite E. now left.
  - exists (Some b0). assert (Hf : In b0 (List.filter (on a) r)) by (rewrite E; now left).
    apply filter_In in Hf as [Hb Hon]. now apply left_join_match.
Qed.

Lemma left_join_sound (l : list A) (r : list B) a ob :
  In (a, ob) (left_join on l r) ->
  In a l /\ forall b, ob = Some b -> In b r /\ on a b = true.
Proof.
  unfold left_join. intros H. apply in_flat_map in H as [a' [Ha' H]].
  destruct (List.filter (on a') r) as [| b0 ms] eqn:E.
  - destruct H as [H | []]. injection H as -> <-. split; [exact Ha' | discriminate].
  - apply in_map_iff in H as [b [H Hb]]. injection H as -> <-.
    split; [exact Ha' |]. intros b' [= <-]. rewrite <- E in Hb.
    now apply filter_In in Hb.
Qed.

Lemma full_outer_join_match (l : list A) (r : list B) a b :
  In a l -> In b r -> on a b = true -> In (Some a, Some b) (full_outer_join on l r).
Proof.
  intros Ha Hb Hon. unfold full_outer_join. apply in_or_app. left.
  apply in_map_iff. exists (a, Some b). split; [reflexivity |].
  now apply left_join_match.
Qed.

Lemma full_outer_join_left_total (l : list A) (r : list B) a :
  In a l -> exists ob, In (Some a, ob) (full_outer_join on l r).
Proof.
  intros Ha. destruct (left_join_total l r a Ha) as [ob H]. exists ob.
  unfold full_outer_join. apply in_or_app. left.
  apply in_map_iff. now exists (a, ob).
Qed.

Lemma full_outer_join_right_total (l : list A) (r : list B) b :
  In b r -> exists oa, In (oa, Some b) (full_outer_join on l r).
Proof.
  intros Hb. destruct (List.existsb (fun a => on a b) l) eqn:E.
  - apply existsb_exists in E as [a [Ha Hon]]. exists (Some a).
    now apply full_outer_join_match.
  - exists None. unfold full_outer_join. apply in_or_app. right.
    apply in_map_iff. exists b. split; [reflexivity |].
    apply filter_In. split; [exact Hb |]. now rewrite E.
Qed.

Lemma full_outer_join_sound (l : list A) (r : list B) oa ob :
  In (oa, ob) (full_outer_join on l r) ->
  (forall a, oa = Some a -> In a l)
  /\ (forall b, ob = Some b -> In b r)
  /\ (forall a b, oa = Some a -> ob = Some b -> on a b = true).
Proof.
  unfold full_outer_join. intros H. apply in_app_or in H as [H | H].
  - apply in_map_iff in H as [[a ob'] [H Hin]]. injection H as <- <-.
    apply left_join_sound in Hin as [Ha Hb].
    split; [now intros a' [= <-] |].
    split; [intros b Eb; now apply Hb |].
    intros a' b [= <-] Eb. now apply Hb.
  - apply in_map_iff in H as [b [H Hin]]. injection H as <- <-.
    apply filter_In in Hin as [Hb _].
    split; [discriminate |]. split; [now intros b' [= <-] | discriminate].
Qed.

End Joins.

Lemma is_some_find {A} (p : A -> bool) (l : list A) :
  is_some (List.find p l) = List.existsb p l.
Proof.
  induction l as [| x l IH]; [reflexivity |]. cbn. now destruct (p x).
Qed.

(** ** The joined read of [User.apply] *)

Section UsersAndJobs.
Variables (username : string) (jobId : Z) (st : store).

Let lines := users_and_jobs_rows username jobId st.

Lemma users_and_jobs_user :
  List.existsb (fun line => User.loose_eq_string (fst line) username) lines
  = user_exists username st.
Proof.
  apply eq_iff_eq_true. unfold user_exists. rewrite !existsb_exists. split.
  - intros [[ou oj] [Hin Hl]]. cbn in Hl. destruct ou as [s |]; [| discriminate].
    apply filter_In in Hin as [Hin _].
    apply in_map_iff in Hin as [[oaj ou] [E Hin]]. injection E as Eu _.
    destruct ou as [u |]; [| discriminate]. injection Eu as <-.
    apply full_outer_join_sound in Hin as (_ & Hu & _).
    exists u. split; [now apply Hu | exact Hl].
  - intros [u [Hu Hname]].
    eapply full_outer_join_right_total in Hu as [oaj Hin].
    eexists (Some (u_username u), _). split; [| exact Hname].
    apply filter_In. split.
    + apply in_map_iff. exists (oaj, Some u). split; [reflexivity | exact Hin].
    + cbn. now rewrite Hname.
Qed.

Lemma users_and_jobs_job :
  List.existsb (fun line => User.loose_eq_num (snd line) jobId) lines
  = job_exists jobId st.
Proof.
  apply eq_iff_eq_true. unfold job_exists. rewrite !existsb_exists. split.
  - intros [[ou oj] [Hin Hl]]. cbn in Hl. destruct oj as [i |]; [| discriminate].
    apply filter_In in Hin as [Hin _].
    apply in_map_iff in Hin as [[oaj ou'] [E Hin]]. injection E as _ Ej.
    destruct oaj as [[oa oj'] |]; [| discriminate]. cbn in Ej.
    destruct oj' as [j |]; [| discriminate]. injection Ej as <-.
    apply full_outer_join_sound in Hin as (Haj & _ & _).
    specialize (Haj _ eq_refl).
    apply full_outer_join_sound in Haj as (_ & Hj & _).
    exists j. split; [now apply Hj | exact Hl].
  - intros [j [Hj Hid]].
    eapply full_outer_join_right_total in Hj as [oa Hin].
    eapply full_outer_join_left_total in Hin as [ou Hin].
    eexists (_, Some (j_id j)). split; [| exact Hid].
    apply filter_In. split.
    + apply in_map_iff. eexists (Some (oa, Some j), ou). split; [reflexivity | exact Hin].
    + cbn. rewrite Hid. apply orb_true_r.
Qed.

Lemma users_and_jobs_applied :
  List.existsb
    (fun line =>
       User.loose_eq_string (fst line) username
       && User.loose_eq_num (snd line) jobId) lines
  = user_exists username st && job_exists jobId st
    && application_exists username jobId st.
Proof.
  apply eq_iff_eq_true. rewrite !andb_true_iff.
  unfold user_exists, job_exists, application_exists. rewrite !existsb_exists. split.
  - intros [[ou oj] [Hin Hl]]. cbn in Hl. apply andb_true_iff in Hl as [Hlu Hlj].
    destruct ou as [s |]; [| discriminate]. destruct oj as [i |]; [| discriminate].
    apply filter_In in Hin as [Hin _].
    apply in_map_iff in Hin as [[oaj ou] [E Hin]]. injection E as Eu Ej.
    destruct ou as [u |]; [| discriminate]. injection Eu as <-.
    destruct oaj as [[oa oj'] |]; [| discriminate]. cbn in Ej.
    destruct oj' as [j |]; [| discriminate]. injection Ej as <-.
    apply full_outer_join_sound in Hin as (Haj & Hu & Hon).
    specialize (Haj _ eq_refl). specialize (Hu _ eq_refl).
    specialize (Hon _ _ eq_refl eq_refl). cbn in Hon.
    destruct oa as [a |]; [| discriminate].
    apply full_outer_join_sound in Haj as (Ha & Hj & Hon').
    specialize (Ha _ eq_refl). specialize (Hj _ eq_refl).
    specialize (Hon' _ _ eq_refl eq_refl). cbn in Hlu, Hlj.
    repeat split.
    + now exists u.
    + now exists j.
    + exists a. split; [exact Ha |]. apply andb_true_iff. split.
      * apply String.eqb_eq in Hon, Hlu. apply String.eqb_eq. congruence.
      * apply Z.eqb_eq in Hon', Hlj. apply Z.eqb_eq. congruence.
  - intros [[[u [Hu Hname]] [j [Hj Hid]]] [a [Ha Happ]]].
    apply andb_true_iff in Happ as [Hau Haj].
    assert (Hin1 : In (Some a, Some j)
                     (full_outer_join (fun a j => (a_job_id a =? j_id j)%Z)
                        (applications st) (jobs st))).
    { apply full_outer_join_match; auto.
      apply Z.eqb_eq in Hid, Haj. apply Z.eqb_eq. congruence. }
    assert (Hin2 : In (Some (Some a, Some j), Some u)
                     (full_outer_join
                        (fun (aj : option application_row * option job_row) u =>
                           match fst aj with
                           | Some a => String.eqb (u_username u) (a_username a)
                           | None => false
                           end)
                        (full_outer_join (fun a j => (a_job_id a =? j_id j)%Z)
                           (applications st) (jobs st))
                        (users st))).
    { apply full_outer_join_match; auto. cbn.
      apply String.eqb_eq in Hname, Hau. apply String.eqb_eq. congruence. }
    eexists (Some (u_username u), Some (j_id j)). split.
    + apply filter_In. split.
      * apply in_map_iff. eexists (Some (Some a, Some j), Some u).
        split; [reflexivity | exact Hin2].
      * cbn. now rewrite Hname.
    + cbn. now rewrite Hname, Hid.
Qed.

End UsersAndJobs.

(** ** What a message mentions *)

Lemma prefixb_app s t : prefixb s (s +:+ t) = true.
Proof.
  induction s as [| c s IH]; [reflexivity |].
  change (String c s +:+ t) with (String c (s +:+ t)).
  cbn [prefixb]. rewrite IH. now rewrite Ascii.eqb_refl.
Qed.

Lemma mentions_prefix t s : prefixb s t = true -> mentions t s = true.
Proof. intros H. destruct t; cbn in *; now rewrite H. Qed.

Lemma mentions_app a t s : mentions t s = true -> mentions (a +:+ t) s = true.
Proof.
  intros H. induction a as [| c a IH]; [exact H |].
  change (String c a +:+ t) with (String c (a +:+ t)).
  cbn [mentions]. rewrite IH. apply orb_true_r.
Qed.

Lemma mentions_infix a s b : mentions (a +:+ s +:+ b) s = true.
Proof. apply mentions_app, mentions_prefix, prefixb_app. Qed.

(** ** [User.apply] *)

Lemma apply_eq (username : string) (jobId : Z) (st : store) :
  User.apply username jobId st =
    if negb (in_integer jobId)
    then (Err out_of_range, st)
    else if negb (user_exists username st)
    then (Err (NotFoundError ("user: " +:+ username +:+ " not found")), st)
    else if negb (job_exists jobId st)
    then (Err (NotFoundError ("job ID: " +:+ pretty jobId +:+ " not found")), st)
    else if application_exists username jobId st
    then (Err (ExpressError
                 (username +:+ " has already applied to job:" +:+ pretty jobId)
                 409), st)
    else (Ok (User.application_obj
                {| a_username := username; a_job_id := jobId |}),
          add_application username jobId st).
Proof.
  unfold User.apply, bind, select_users_and_jobs.
  destruct (in_integer jobId) eqn:Ei; [| reflexivity]. cbn [negb].
  rewrite !is_some_find, users_and_jobs_user, users_and_jobs_job,
    users_and_jobs_applied.
  destruct (user_exists username st) eqn:Eu; [| reflexivity].
  destruct (job_exists jobId st) eqn:Ej; [| reflexivity].
  destruct (application_exists username jobId st) eqn:Ea; [reflexivity |].
  cbn [negb andb]. unfold insert_application, throw, ret.
  rewrite Ei. cbn [negb].
  unfold application_exists in Ea. rewrite Ea.
  unfold user_exists in Eu. unfold job_exists in Ej. rewrite Eu, Ej.
  reflexivity.
Qed.

(** C4: for a job id that is a value of the INTEGER column [jobs.id],
    [User.apply] fails with a NotFound error naming the user when no user
    has the username; with a NotFound error naming the job when the user
    exists and no job has the id; with an error of status 409, a conflict
    and not a NotFound, when both exist and so does the application; in
    these three cases the store is left as it was. When the three checks
    pass the application is inserted, and in no other case. *)
Theorem apply_checks (username : string) (jobId : Z) (st : store) :
  in_integer jobId = true ->
  (user_exists username st = false ->
   exists message,
     User.apply username jobId st = (Err (NotFoundError message), st)
     /\ mentions message username = true
     /\ mentions message "user" = true)
  /\ (user_exists username st = true -> job_exists jobId st = false ->
      exists message,
        User.apply username jobId st = (Err (NotFoundError message), st)
        /\ mentions message (pretty jobId) = true
        /\ mentions message "job" = true)
  /\ (user_exists username st = true -> job_exists jobId st = true ->
      application_exists username jobId st = true ->
      exists e,
        User.apply username jobId st = (Err e, st)
        /\ kind_of e = Conflict /\ kind_of e <> NotFound)
  /\ (user_exists username st = true -> job_exists jobId st = true ->
      application_exists username jobId st = false ->
      User.apply username jobId st
      = (Ok (User.application_obj
               {| a_username := username; a_job_id := jobId |}),
         add_application username jobId st))
  /\ (forall r st', User.apply username jobId st = (r, st') ->
      st' = st
      \/ (st' = add_application username jobId st
          /\ is_ok r = true
          /\ user_exists username st = true
          /\ job_exists jobId st = true
          /\ application_exists username jobId st = false)).
Proof.
  intros Hid. rewrite apply_eq, Hid. cbn [negb]. repeat split.
  - intros ->. eexists. split; [reflexivity |]. split.
    + apply mentions_infix.
    + reflexivity.
  - intros -> ->. eexists. split; [reflexivity |]. split.
    + apply mentions_infix.
    + reflexivity.
  - intros -> -> ->. eexists. split; [reflexivity |]. split; [reflexivity | discriminate].
  - intros -> -> ->. reflexivity.
  - intros r st'.
    destruct (user_exists username st); [| intros [= <- <-]; now left].
    destruct (job_exists jobId st); [| intros [= <- <-]; now left].
    destruct (application_exists username jobId st); intros [= <- <-];
      [now left | right; repeat split].
Qed.

Lemma apply_checks_witness :
  (exists message,
     User.apply "u9" 1 sample_store = (Err (NotFoundError message), sample_store)
     /\ mentions message "u9" = true
     /\ mentions message "user" = true)
  /\ (exists message,
        User.apply "u1" 9 sample_store
        = (Err (NotFoundError message), sample_store)
        /\ mentions message (pretty 9%Z) = true
        /\ mentions message "job" = true)
  /\ (exists e,
        User.apply "u1" 1 sample_store = (Err e, sample_store)
        /\ kind_of e = Conflict /\ kind_of e <> NotFound)
  /\ User.apply "u2" 1 sample_store
     = (Ok (User.application_obj {| a_username := "u2"; a_job_id := 1 |}),
        add_application "u2" 1 sample_store).
Proof.
  split; [| split; [| split]].
  - destruct (apply_checks "u9" 1 sample_store eq_refl) as (H & _).
    apply H. reflexivity.
  - destruct (apply_checks "u1" 9 sample_store eq_refl) as (_ & H & _).
    apply H; reflexivity.
  - destruct (apply_checks "u1" 1 sample_store eq_refl) as (_ & _ & H & _).
    apply H; reflexivity.
  - destruct (apply_checks "u2" 1 sample_store eq_refl) as (_ & _ & _ & H & _).
    apply H; reflexivity.
Defined.

(** A second [apply] of the same pair is a conflict. *)
Lemma apply_twice_conflict (username : string) (jobId : Z) (st : store) :
  in_integer jobId = true ->
  user_exists username st = true -> job_exists jobId st = true ->
  application_exists username jobId st = false ->
  exists st',
    snd (User.apply username jobId st) = st'
    /\ is_ok (fst (User.apply username jobId st)) = true
    /\ User.apply username jobId st'
       = (Err (ExpressError
                 (username +:+ " has already applied to job:" +:+ pretty jobId)
                 409), st').
Proof.
  intros Hid Hu Hj Ha. exists (add_application username jobId st).
  rewrite (apply_eq username jobId st), Hid, Hu, Hj, Ha.
  cbn [negb fst snd is_ok].
  split; [reflexivity |]. split; [reflexivity |].
  rewrite apply_eq.
  change (user_exists username (add_application username jobId st))
    with (user_exists username st).
  change (job_exists jobId (add_application username jobId st))
    with (job_exists jobId st).
  rewrite Hid, Hu, Hj. cbn [negb].
  assert (E : application_exists username jobId
                (add_application username jobId st) = true).
  { unfold application_exists, add_application. cbn [applications].
    rewrite existsb_app. cbn. rewrite String.eqb_refl, Z.eqb_refl.
    cbn. apply orb_true_iff. right. reflexivity. }
  now rewrite E.
Qed.

(** ** Records handed back *)

Lemma user_obj_no_password u : User.user_obj u !! "password" = None.
Proof. reflexivity. Qed.

Lemma user_obj_no_jobs u : User.user_obj u !! "jobs" = None.
Proof. reflexivity. Qed.

Lemma user_obj_strip_password u :
  delete "password" (User.user_obj_with_password u) = User.user_obj u.
Proof. reflexivity. Qed.

Lemma filter_none {A} (p : A -> bool) (l : list A) :
  List.existsb p l = false -> List.filter p l = [].
Proof.
  induction l as [| x l IH]; [reflexivity |]. cbn.
  destruct (p x); [discriminate | exact IH].
Qed.

Lemma head_filter_exists {A} (p : A -> bool) (l : list A) x :
  head (List.filter p l) = Some x -> List.existsb p l = true.
Proof.
  intros H. apply existsb_exists. exists x.
  apply filter_In. destruct (List.filter p l) as [| y l'] eqn:E;
    cbn in H; [discriminate H |].
  injection H as ->. now left.
Qed.

Lemma no_user_no_row username st :
  user_exists username st = false -> select_users_by_username username st = [].
Proof. apply filter_none. Qed.

(** ** [User.authenticate] *)

Section Authenticate.
Variable bcrypt_compare : string -> string -> bool.

Let invalid : error := UnauthorizedError "Invalid username/password".

Lemma authenticate_eq username password st :
  User.authenticate bcrypt_compare username password st =
    match head (select_users_by_username username st) with
    | Some user =>
        if bcrypt_compare password (u_password user)
        then (Ok (User.user_obj user), st)
        else (Err invalid, st)
    | None => (Err invalid, st)
    end.
Proof.
  unfold User.authenticate, bind, query.
  destruct (head (select_users_by_username username st)) as [user |]; [| reflexivity].
  destruct (bcrypt_compare password (u_password user)); reflexivity.
Qed.

(** C7: [User.authenticate] fails with one and the same Unauthorized error
    when no user has the username and when the password does not match the
    stored hash, never with a NotFound error; when the password matches it
    returns the record of the user without its [password] property. *)
Theorem authenticate_same_error username password st :
  (user_exists username st = false ->
   User.authenticate bcrypt_compare username password st
   = (Err (UnauthorizedError "Invalid username/password"), st))
  /\ (forall user,
        head (select_users_by_username username st) = Some user ->
        bcrypt_compare password (u_password user) = false ->
        User.authenticate bcrypt_compare username password st
        = (Err (UnauthorizedError "Invalid username/password"), st))
  /\ (forall user,
        head (select_users_by_username username st) = Some user ->
        bcrypt_compare password (u_password user) = true ->
        exists o,
          User.authenticate bcrypt_compare username password st = (Ok o, st)
          /\ o = delete "password" (User.user_obj_with_password user)
          /\ o !! "password" = None
          /\ o !! "username" = Some (JStr username))
  /\ (forall e st',
        User.authenticate bcrypt_compare username password st = (Err e, st') ->
        e = UnauthorizedError "Invalid username/password"
        /\ kind_of e = Unauthorized
        /\ kind_of e <> NotFound).
Proof.
  rewrite authenticate_eq. split; [| split; [| split]].
  - intros H. now rewrite (no_user_no_row _ _ H).
  - intros user -> ->. reflexivity.
  - intros user E Hc. rewrite E, Hc. exists (User.user_obj user). repeat split.
    unfold select_users_by_username in E.
    destruct (List.filter _ (users st)) as [| y l'] eqn:F; [discriminate |].
    injection E as ->.
    assert (H : In user (List.filter
                 (fun u => String.eqb (u_username u) username) (users st)))
      by (rewrite F; now left).
    apply filter_In in H as [_ H]. apply String.eqb_eq in H. now rewrite <- H.
  - intros e st'.
    destruct (head _) as [user |]; [destruct (bcrypt_compare _ _) |];
      intros [= <- _]; repeat split; discriminate.
Qed.

End Authenticate.

Lemma authenticate_same_error_witness :
  User.authenticate sample_compare "u9" "secret" sample_store
  = (Err (UnauthorizedError "Invalid username/password"), sample_store)
  /\ User.authenticate sample_compare "u1" "wrong" sample_store
     = (Err (UnauthorizedError "Invalid username/password"), sample_store)
  /\ (exists o,
        User.authenticate sample_compare "u1" "secret" sample_store
        = (Ok o, sample_store)
        /\ o = delete "password" (User.user_obj_with_password (sample_user "u1"))
        /\ o !! "password" = None
        /\ o !! "username" = Some (JStr "u1")).
Proof.
  destruct (authenticate_same_error sample_compare "u9" "secret" sample_store)
    as (H1 & _).
  destruct (authenticate_same_error sample_compare "u1" "wrong" sample_store)
    as (_ & H2 & _).
  destruct (authenticate_same_error sample_compare "u1" "secret" sample_store)
    as (_ & _ & H3 & _).
  split; [apply H1; reflexivity |].
  split; [apply (H2 (sample_user "u1")); reflexivity |].
  apply (H3 (sample_user "u1")); reflexivity.
Defined.

(** ** [User.findAll] and [User.get] *)

Lemma reduceRight_findAll_step (rows : list (user_row * option Z)) :
  Forall (fun row => u_username (fst row) <> "[object Object]") rows ->
  User.reduceRight User.findAll_step [] rows
  = Ok (List.map (fun row => User.user_obj (fst row)) rows).
Proof.
  induction 1 as [| row rows Hrow _ IH]; [reflexivity |].
  cbn [User.reduceRight List.map]. rewrite IH. unfold User.findAll_step.
  assert (E : User.loose_neq_string
                (head (List.map (fun row => User.user_obj (fst row)) rows))
                (u_username (fst row)) = true).
  { unfold User.loose_neq_string. destruct (head _); [| reflexivity].
    apply negb_true_iff, String.eqb_neq. congruence. }
  now rewrite E.
Qed.

Lemma findAll_step_records rows row acc :
  User.findAll_step rows row = Ok acc -> acc = User.user_obj (fst row) :: rows.
Proof.
  unfold User.findAll_step. destruct (true && _);
    [now intros [= <-] |].
  destruct (head rows) as [first |]; [destruct (first !! "jobs") |]; discriminate.
Qed.

Lemma reduceRight_findAll_records (rows : list (user_row * option Z)) acc :
  User.reduceRight User.findAll_step [] rows = Ok acc ->
  acc = List.map (fun row => User.user_obj (fst row)) rows.
Proof.
  revert acc. induction rows as [| row rows IH]; intros acc.
  - now intros [= <-].
  - cbn [User.reduceRight List.map].
    destruct (User.reduceRight User.findAll_step [] rows) as [acc' |]; [| discriminate].
    intros H. apply findAll_step_records in H. now rewrite H, (IH acc' eq_refl).
Qed.

Lemma get_not_found username st :
  user_exists username st = false ->
  User.get username st = (Err (NotFoundError ("No user: " +:+ username)), st).
Proof.
  intros H. unfold User.get, bind, query, select_user_with_jobs.
  assert (E : List.filter
                (fun r : user_row * option Z =>
                   String.eqb (u_username (fst r)) username)
                (users_left_join_applications st) = []).
  { apply filter_none. apply not_true_iff_false. intros C.
    apply existsb_exists in C as [[u oz] [Hin Hu]].
    unfold users_left_join_applications in Hin.
    apply in_map_iff in Hin as [[u' oa] [F Hin]]. injection F as -> _.
    revert Hin. unfold left_join. rewrite in_flat_map. intros [a [Ha Hin]].
    assert (a = u) as ->.
    { destruct (List.filter _ (applications st)); [destruct Hin as [[= ->] | []]; reflexivity |].
      apply in_map_iff in Hin as [b [[= ->] _]]. reflexivity. }
    unfold user_exists in H. apply not_true_iff_false in H. apply H.
    apply existsb_exists. now exists u. }
  rewrite E. reflexivity.
Qed.

Lemma in_insert_by {A} (key : A -> string) (x y : A) (l : list A) :
  In y (insert_by key x l) <-> y = x \/ In y l.
Proof.
  induction l as [| z l IH]; cbn; [intuition |].
  destruct (String.leb (key x) (key z)); cbn; [intuition |].
  rewrite IH. intuition.
Qed.

Lemma in_order_by {A} (key : A -> string) (y : A) (l : list A) :
  In y (order_by key l) <-> In y l.
Proof.
  induction l as [| x l IH]; cbn; [reflexivity |].
  rewrite in_insert_by, IH. intuition.
Qed.

Lemma select_users_with_jobs_sound st row :
  In row (select_users_with_jobs st) -> In (fst row) (users st).
Proof.
  unfold select_users_with_jobs, users_left_join_applications.
  rewrite in_order_by, in_map_iff. intros [[u oa] [<- H]].
  now apply left_join_sound in H.
Qed.

(** Whatever the store, one record per row of the join, none with a [jobs]
    property: the comparison of the callback holds for every row, unless a
    user is called ["[object Object]"]. *)
Lemma findAll_records st :
  Forall (fun u => u_username u <> "[object Object]") (users st) ->
  User.findAll st
  = (Ok (List.map (fun row => User.user_obj (fst row))
           (select_users_with_jobs st)), st).
Proof.
  intros H. unfold User.findAll, bind, query, lift.
  rewrite reduceRight_findAll_step; [reflexivity |].
  apply List.Forall_forall. intros row Hrow.
  rewrite List.Forall_forall in H. now apply H, select_users_with_jobs_sound.
Qed.

(** C2, at a store where [u1] has applied to the jobs 1 and 2 and [u2] to
    none: [User.findAll] returns two records for [u1], one per application,
    and no record has a [jobs] property. *)
Theorem findAll_one_record_per_application :
  User.findAll sample_store
  = (Ok [User.user_obj (sample_user "u1");
         User.user_obj (sample_user "u1");
         User.user_obj (sample_user "u2")], sample_store)
  /\ List.map a_job_id
       (List.filter (fun a => String.eqb (a_username a) "u1")
          (applications sample_store)) = [1%Z; 2%Z]
  /\ List.map u_username (users sample_store) = ["u1"; "u2"]
  /\ User.user_obj (sample_user "u1") !! "jobs" = None
  /\ User.user_obj (sample_user "u2") !! "jobs" = None.
Proof. repeat split. Qed.

(** C3, at a store with the user [u1], the job 1 and no application:
    [User.apply("u1", 1)] succeeds and records the application, and the
    record that [User.get("u1")] and [User.findAll()] then return has the
    five properties of the user and no list of job identifiers. *)
Theorem apply_then_get_without_jobs :
  User.apply "u1" 1 fresh_store
  = (Ok (User.application_obj {| a_username := "u1"; a_job_id := 1 |}),
     add_application "u1" 1 fresh_store)
  /\ User.get "u1" (add_application "u1" 1 fresh_store)
     = (Ok (User.user_obj (sample_user "u1")),
        add_application "u1" 1 fresh_store)
  /\ User.findAll (add_application "u1" 1 fresh_store)
     = (Ok [User.user_obj (sample_user "u1")],
        add_application "u1" 1 fresh_store)
  /\ User.user_obj (sample_user "u1") !! "jobs" = None
  /\ map_to_list (User.user_obj (sample_user "u1"))
     = [("username", JStr "u1"); ("email", JStr "user@example.com");
        ("isAdmin", JBool false); ("firstName", JStr "First");
        ("lastName", JStr "Last")].
Proof. repeat split. Qed.

(** ** The clause builder *)

Section Builder.
Context {A B : Type} (g : A -> B).

Lemma imap_columns (h : nat -> nat) (l : list A) :
  List.map fst (imap (fun idx x => (g x, h idx)) l) = List.map g l.
Proof.
  revert h. induction l as [| x l IH]; intros h; [reflexivity |].
  cbn. f_equal. apply (IH (h ∘ S)).
Qed.

Lemma imap_indices (n : nat) (l : list A) :
  List.map snd (imap (fun idx x => (g x, S (n + idx))) l) = seq (S n) (length l).
Proof.
  revert n. induction l as [| x l IH]; intros n; [reflexivity |].
  cbn. rewrite Nat.add_0_r. f_equal.
  rewrite <- (IH (S n)). f_equal. apply imap_ext. intros i y _. cbn.
  f_equal. f_equal. lia.
Qed.

End Builder.

Lemma sqlForPartialUpdate_ok (data : ordered_obj) (jsToSql : gmap string string) :
  data <> [] ->
  sqlForPartialUpdate data jsToSql
  = Ok {| assignments :=
            imap (fun idx kv => (column_of jsToSql (fst kv), S idx)) data;
          values := List.map snd data |}.
Proof. destruct data; [congruence | reflexivity]. Qed.

(** C6: for a non-empty field mapping the builder yields one assignment per
    key, in the order of the keys, under the column the rename mapping gives
    the key when it has one and under the key itself otherwise, with the
    parameters $1, $2, ... in that order, and as many values in the same
    order, [$n] being bound to the value of the n-th key. For the empty
    mapping it fails with the validation error "No data", and so do
    [User.update] and [Job.update], before any statement is sent. *)
Theorem sqlForPartialUpdate_clauses
    (data : ordered_obj) (jsToSql : gmap string string) :
  (data <> [] ->
   exists p,
     sqlForPartialUpdate data jsToSql = Ok p
     /\ length (assignments p) = length data
     /\ List.map fst (assignments p)
        = List.map (fun kv => column_of jsToSql (fst kv)) data
     /\ List.map snd (assignments p) = seq 1 (length data)
     /\ values p = List.map snd data
     /\ length (values p) = length (assignments p)
     /\ (forall n k v, data !! n = Some (k, v) ->
           assignments p !! n = Some (column_of jsToSql k, S n)
           /\ param (values p) (S n) = Some v)
     /\ setCols p
        = join ", "
            (List.map (fun a => fst a +:+ " = $" +:+ pretty (snd a))
               (assignments p)))
  /\ (forall k c, jsToSql !! k = Some c -> column_of jsToSql k = c)
  /\ (forall k, jsToSql !! k = None -> column_of jsToSql k = k)
  /\ sqlForPartialUpdate [] jsToSql = Err (BadRequestError "No data")
  /\ kind_of (BadRequestError "No data") = Validation
  /\ (forall bcrypt_hash rounds username st,
        User.update bcrypt_hash rounds username [] st
        = (Err (BadRequestError "No data"), st))
  /\ (forall companies id st,
        Job.update companies id [] st
        = (Err (BadRequestError "No data"), st)).
Proof.
  split; [| split; [| split; [| repeat split]]].
  - intros Hne. eexists. split; [now apply sqlForPartialUpdate_ok |].
    cbn [assignments values].
    split; [apply length_imap |].
    split; [apply (imap_columns (fun kv => column_of jsToSql (fst kv)) S) |].
    split; [apply (imap_indices (fun kv => column_of jsToSql (fst kv)) 0) |].
    split; [reflexivity |].
    split; [now rewrite length_map, length_imap |].
    split; [| reflexivity].
    intros n k v Hn. split.
    + rewrite list_lookup_imap, Hn. reflexivity.
    + cbn [param]. change (List.map snd data) with (snd <$> data).
      rewrite list_lookup_fmap, Hn. reflexivity.
  - intros k c H. unfold column_of. now rewrite H.
  - intros k H. unfold column_of. now rewrite H.
Qed.

Lemma sqlForPartialUpdate_clauses_witness :
  exists p,
    sqlForPartialUpdate [("firstName", JStr "N"); ("email", JStr "n@x.org")]
      User.jsToSql = Ok p
    /\ assignments p = [("first_name", 1%nat); ("email", 2%nat)]
    /\ values p = [JStr "N"; JStr "n@x.org"]
    /\ setCols p = "first_name = $1, email = $2".
Proof.
  destruct (sqlForPartialUpdate_clauses
              [("firstName", JStr "N"); ("email", JStr "n@x.org")] User.jsToSql)
    as (H & _).
  destruct H as (p & Hp & _); [discriminate |].
  exists p. split; [exact Hp |].
  injection Hp as <-. repeat split.
Defined.

(** ** [UPDATE] on a key that no row has *)

Lemma store_eta st :
  {| users := users st; jobs := jobs st; applications := applications st |} = st.
Proof. now destruct st. Qed.

Lemma update_rows_no_hit {R} (hit : R -> bool) (f : R -> option R) rows :
  List.existsb hit rows = false -> update_rows hit f rows = Some (rows, []).
Proof.
  induction rows as [| r rows IH]; [reflexivity |]. intros H.
  cbn in H. apply orb_false_elim in H as [E H].
  cbn [update_rows]. rewrite (IH H). cbn. now rewrite E.
Qed.

Lemma inb_In c l : inb c l = true <-> In c l.
Proof.
  unfold inb. rewrite existsb_exists. split.
  - intros [x [Hx E]]. apply String.eqb_eq in E. now subst.
  - intros H. exists c. split; [exact H | apply String.eqb_refl].
Qed.

Lemma distinctb_map (g : string -> string) (l : list string) :
  (forall x y, In x l -> In y l -> g x = g y -> x = y) ->
  distinctb l = true -> distinctb (List.map g l) = true.
Proof.
  induction l as [| x l IH]; [reflexivity |]. intros Hinj. cbn.
  rewrite !andb_true_iff, !negb_true_iff. intros [Hx Hl]. split.
  - apply not_true_iff_false. intros C. apply inb_In in C.
    apply in_map_iff in C as [y [E Hy]].
    assert (y = x) as -> by (apply Hinj; [now right | now left | exact E]).
    apply not_true_iff_false in Hx. apply Hx. now apply inb_In.
  - apply IH; [| exact Hl]. intros a b Ha Hb. apply Hinj; now right.
Qed.

(** The whole [SET] list is accepted when each of its values is. *)
Lemma resolve_sets_accepts {R} (assign : string -> jsval -> assignment R)
    (col : string -> string) (data : ordered_obj) :
  Forall (fun kv => is_some (assign (col (fst kv)) (snd kv)) = true) data ->
  forall (n : nat) (pre post : list jsval),
    length pre = n ->
    is_some
      (resolve_sets assign
         (imap (fun idx kv => (col (fst kv), S (n + idx))) data)
         (pre ++ List.map snd data ++ post)) = true.
Proof.
  induction 1 as [| [k v] data Hkv _ IH]; intros n pre post Hn; [reflexivity |].
  cbn [imap resolve_sets fst snd List.map]. rewrite Nat.add_0_r.
  assert (Hp : param (pre ++ (v :: List.map snd data) ++ post) (S n) = Some v).
  { cbn [param]. rewrite lookup_app_r by lia.
    replace (n - length pre)%nat with 0%nat by lia. reflexivity. }
  rewrite Hp. cbn in Hkv.
  destruct (assign (col k) v) as [f |]; [| discriminate].
  specialize (IH (S n) (pre ++ [v])%list post).
  rewrite length_app in IH. cbn [length] in IH.
  specialize (IH ltac:(lia)).
  rewrite <- app_assoc in IH. cbn [app] in IH.
  rewrite (imap_ext _ (fun idx kv => (col (fst kv), S (S n + idx)))).
  2:{ intros i x _. cbn. do 2 f_equal. lia. }
  change ((v :: List.map snd data) ++ post)%list with (v :: List.map snd data ++ post)%list.
  destruct (resolve_sets _ _ _); [reflexivity | discriminate].
Qed.

Lemma param_last (vs : list jsval) (v : jsval) :
  param (vs ++ [v]) (length vs + 1) = Some v.
Proof.
  rewrite Nat.add_1_r. cbn [param]. rewrite lookup_app_r by lia.
  now rewrite Nat.sub_diag.
Qed.

Section Accepted.
Variables (data : ordered_obj) (jsToSql : gmap string string) (key : jsval).
Hypothesis nonempty : data <> [].
Hypothesis distinct :
  distinctb (List.map (fun kv => column_of jsToSql (fst kv)) data) = true.

Let sets := imap (fun idx kv => (column_of jsToSql (fst kv), S idx)) data.
Let params := List.map snd data ++ [key].

Lemma sets_nonempty : sets <> [].
Proof. subst sets. destruct data; [congruence | discriminate]. Qed.

Lemma sets_distinct : distinctb (List.map fst sets) = true.
Proof.
  subst sets.
  now rewrite (imap_columns (fun kv => column_of jsToSql (fst kv)) S).
Qed.

Lemma sets_resolved {R} (assign : string -> jsval -> assignment R) :
  Forall (fun kv =>
            is_some (assign (column_of jsToSql (fst kv)) (snd kv)) = true) data ->
  is_some (resolve_sets assign sets params) = true.
Proof.
  intros H. exact (resolve_sets_accepts assign (column_of jsToSql) data H 0 [] [key] eq_refl).
Qed.

Lemma update_users_no_row (username : string) (st : store) :
  key = JStr username ->
  Forall (fun kv =>
            is_some (assign_user (column_of jsToSql (fst kv)) (snd kv)) = true)
    data ->
  user_exists username st = false ->
  update_users sets (length (List.map snd data) + 1) params st = (Ok [], st).
Proof.
  intros Hkey Hdata Hnone. unfold update_users.
  pose proof sets_nonempty as Hne. pose proof sets_distinct as Hd.
  pose proof (sets_resolved assign_user Hdata) as Hr.
  destruct sets as [| s0 sets'] eqn:E; [congruence |].
  rewrite Hd. cbn [negb].
  destruct (resolve_sets assign_user (s0 :: sets') params) as [f |];
    [| discriminate].
  subst params. rewrite param_last, Hkey.
  rewrite update_rows_no_hit by exact Hnone.
  now rewrite store_eta.
Qed.

Lemma update_jobs_no_row (companies : list string) (id : Z) (st : store) :
  key = JNum id -> in_integer id = true ->
  Forall (fun kv =>
            is_some (assign_job (column_of jsToSql (fst kv)) (snd kv)) = true)
    data ->
  job_exists id st = false ->
  update_jobs companies sets (length (List.map snd data) + 1) params st
  = (Ok [], st).
Proof.
  intros Hkey Hid Hdata Hnone. unfold update_jobs.
  pose proof sets_nonempty as Hne. pose proof sets_distinct as Hd.
  pose proof (sets_resolved assign_job Hdata) as Hr.
  destruct sets as [| s0 sets'] eqn:E; [congruence |].
  rewrite Hd. cbn [negb].
  destruct (resolve_sets assign_job (s0 :: sets') params) as [f |];
    [| discriminate].
  subst params. rewrite param_last, Hkey, Hid. cbn [negb].
  rewrite update_rows_no_hit by exact Hnone.
  cbn [List.forallb negb]. rewrite andb_false_r.
  now rewrite store_eta.
Qed.

End Accepted.

(** ** Payloads *)

Lemma user_field_accepted kv :
  user_field_ok kv = true ->
  In (fst kv) ["firstName"; "lastName"; "password"; "email"; "isAdmin"]
  /\ is_some (assign_user (column_of User.jsToSql (fst kv)) (snd kv)) = true.
Proof.
  destruct kv as [k v]. unfold user_field_ok. cbn [fst snd].
  destruct v as [| | b | z | s]; try discriminate.
  - intros H. apply String.eqb_eq in H as ->. split; [cbn; tauto | reflexivity].
  - intros H. apply inb_In in H. split; [cbn in *; tauto |].
    cbn in H. destruct H as [<- | [<- | [<- | [<- | []]]]]; reflexivity.
Qed.

Lemma job_field_accepted kv :
  job_field_ok kv && salary_field_in_integer kv = true ->
  In (fst kv) ["title"; "salary"; "equity"; "companyHandle"]
  /\ is_some (assign_job (column_of Job.jsToSql (fst kv)) (snd kv)) = true.
Proof.
  destruct kv as [k v]. unfold job_field_ok, salary_field_in_integer.
  cbn [fst snd]. rewrite andb_true_iff. intros [H Hr]. revert H.
  destruct v as [| | b | z | s]; try discriminate.
  - intros H. apply String.eqb_eq in H as ->. split; [cbn; tauto | reflexivity].
  - intros H. apply inb_In in H. split; [cbn in *; tauto |].
    cbn in H. destruct H as [<- | [<- | []]]; [| reflexivity].
    cbn in Hr. change (column_of Job.jsToSql "salary") with "salary".
    unfold assign_job. cbn [String.eqb Ascii.eqb Bool.eqb]. now rewrite Hr.
  - intros H. apply orb_true_iff in H as [H | H].
    + apply inb_In in H. split; [cbn in *; tauto |].
      cbn in H. destruct H as [<- | [<- | []]]; reflexivity.
    + apply andb_true_iff in H as [Hk Hs]. apply String.eqb_eq in Hk as ->.
      split; [cbn; tauto |].
      change (column_of Job.jsToSql "equity") with "equity".
      unfold assign_job. cbn [String.eqb Ascii.eqb Bool.eqb].
      destruct (parse_numeric s) as [[num scale] |]; [reflexivity |].
      discriminate Hs.
Qed.

(** A payload of job fields whose salary is a value of the column. *)
Lemma job_payload_typed (data : ordered_obj) :
  job_payload data = true -> salary_in_integer data = true ->
  distinctb (List.map fst data)
  && List.forallb (fun kv => job_field_ok kv && salary_field_in_integer kv)
       data = true.
Proof.
  unfold job_payload, salary_in_integer. rewrite !andb_true_iff.
  intros [Hd Hok] Hr. split; [exact Hd |].
  rewrite forallb_forall in *. intros kv Hkv.
  now rewrite (Hok kv Hkv), (Hr kv Hkv).
Qed.

Lemma user_columns_injective x y :
  In x ["firstName"; "lastName"; "password"; "email"; "isAdmin"] ->
  In y ["firstName"; "lastName"; "password"; "email"; "isAdmin"] ->
  column_of User.jsToSql x = column_of User.jsToSql y -> x = y.
Proof.
  cbn. intros Hx Hy.
  repeat (destruct Hx as [<- | Hx]); try contradiction;
    repeat (destruct Hy as [<- | Hy]); try contradiction;
    vm_compute; congruence.
Qed.

Lemma job_columns_injective x y :
  In x ["title"; "salary"; "equity"; "companyHandle"] ->
  In y ["title"; "salary"; "equity"; "companyHandle"] ->
  column_of Job.jsToSql x = column_of Job.jsToSql y -> x = y.
Proof.
  cbn. intros Hx Hy.
  repeat (destruct Hx as [<- | Hx]); try contradiction;
    repeat (destruct Hy as [<- | Hy]); try contradiction;
    vm_compute; congruence.
Qed.

Section Payload.
Variables (ok : string * jsval -> bool) (keys : list string)
  (jsToSql : gmap string string) (R : Type)
  (assign : string -> jsval -> assignment R).
Hypothesis accepted : forall kv, ok kv = true ->
  In (fst kv) keys
  /\ is_some (assign (column_of jsToSql (fst kv)) (snd kv)) = true.
Hypothesis injective : forall x y, In x keys -> In y keys ->
  column_of jsToSql x = column_of jsToSql y -> x = y.

Lemma payload_accepted (data : ordered_obj) :
  distinctb (List.map fst data) && List.forallb ok data = true ->
  distinctb (List.map (fun kv => column_of jsToSql (fst kv)) data) = true
  /\ Forall (fun kv =>
               is_some (assign (column_of jsToSql (fst kv)) (snd kv)) = true)
       data.
Proof.
  intros H. apply andb_true_iff in H as [Hd Hok].
  rewrite forallb_forall in Hok. split.
  - rewrite <- (List.map_map fst (column_of jsToSql)).
    apply distinctb_map; [| exact Hd].
    intros x y Hx Hy. apply in_map_iff in Hx as [kx [<- Hx]].
    apply in_map_iff in Hy as [ky [<- Hy]].
    apply injective; now apply accepted, Hok.
  - apply List.Forall_forall. intros kv Hkv. now apply accepted, Hok.
Qed.

End Payload.

(** Hashing the password of a payload leaves its keys as they are. *)
Lemma ordered_set_password (data : ordered_obj) (p h : string) :
  ordered_get "password" data = JStr p ->
  List.map fst (ordered_set "password" (JStr h) data) = List.map fst data
  /\ (List.forallb user_field_ok data = true ->
      List.forallb user_field_ok (ordered_set "password" (JStr h) data) = true).
Proof.
  induction data as [| [k v] data IH]; [discriminate |].
  cbn [ordered_get ordered_set]. destruct (String.eqb "password" k) eqn:E.
  - intros _. split; [reflexivity |]. cbn [List.forallb].
    rewrite !andb_true_iff. intros [_ H]. split; [| exact H].
    apply String.eqb_eq in E as <-. reflexivity.
  - intros H. destruct (IH H) as [IH1 IH2]. split.
    + cbn. now rewrite IH1.
    + cbn [List.forallb]. rewrite !andb_true_iff. intros [H1 H2]. auto.
Qed.

Lemma payload_password (data : ordered_obj) :
  List.forallb user_field_ok data = true ->
  truthy (ordered_get "password" data) = true ->
  exists p, ordered_get "password" data = JStr p.
Proof.
  induction data as [| [k v] data IH]; [discriminate |].
  cbn [List.forallb ordered_get]. rewrite andb_true_iff. intros [Hkv H].
  destruct (String.eqb "password" k) eqn:E; [| now apply IH].
  apply String.eqb_eq in E as <-. intros _.
  destruct v; try discriminate. now eexists.
Qed.

Lemma ordered_set_nonempty k v (data : ordered_obj) : ordered_set k v data <> [].
Proof. destruct data as [| [k' v'] data]; cbn; [| destruct (String.eqb k k')]; discriminate. Qed.

(** ** [User.update] and [Job.update] *)

Lemma user_update_built username (data : ordered_obj) st :
  data <> [] -> user_payload data = true ->
  user_exists username st = false ->
  (let! built := lift (sqlForPartialUpdate data User.jsToSql) in
   let usernameVarIdx := (length (values built) + 1)%nat in
   let! rows :=
     update_users (assignments built) usernameVarIdx
       (values built ++ [JStr username]) in
   match head rows with
   | None => throw (NotFoundError ("No user: " +:+ username))
   | Some user => ret (delete "password" (User.user_obj user))
   end) st
  = (Err (NotFoundError ("No user: " +:+ username)), st).
Proof.
  intros Hne Hp Hnone.
  destruct (payload_accepted user_field_ok _ User.jsToSql _ assign_user
              user_field_accepted user_columns_injective data Hp) as [Hd Ha].
  unfold bind, lift. rewrite (sqlForPartialUpdate_ok data _ Hne).
  cbn [assignments values].
  rewrite (update_users_no_row data User.jsToSql (JStr username) Hne Hd
             username st eq_refl Ha Hnone).
  reflexivity.
Qed.

(** C8: for a key that no row has and a non-empty payload of fields of the
    entity, each with a value of its column, [User.update] and [Job.update]
    fail with a NotFound error and return the store they were given. The
    key of a job and a salary are values of their columns when they are
    within the range of INTEGER. *)
Theorem update_missing_key_not_found :
  (forall bcrypt_hash rounds username (data : ordered_obj) st,
     data <> [] -> user_payload data = true ->
     user_exists username st = false ->
     User.update bcrypt_hash rounds username data st
     = (Err (NotFoundError ("No user: " +:+ username)), st))
  /\ (forall companies id (data : ordered_obj) st,
        data <> [] -> job_payload data = true ->
        in_integer id = true -> salary_in_integer data = true ->
        job_exists id st = false ->
        Job.update companies id data st
        = (Err (NotFoundError ("No job: " +:+ pretty id)), st)).
Proof.
  split.
  - intros bcrypt_hash rounds username data st Hne Hp Hnone.
    unfold User.update. unfold bind at 1.
    destruct (truthy (ordered_get "password" data)) eqn:Et.
    + pose proof Hp as Hp'. apply andb_true_iff in Hp' as [Hd Hok].
      destruct (payload_password data Hok Et) as [p Ep]. rewrite Ep.
      destruct (ordered_set_password data p (bcrypt_hash p rounds) Ep)
        as [Hkeys Hvals].
      unfold ret. apply user_update_built; [apply ordered_set_nonempty | | exact Hnone].
      unfold user_payload. rewrite Hkeys, Hd. now apply Hvals.
    + unfold ret. now apply user_update_built.
  - intros companies id data st Hne Hp Hid Hs Hnone.
    destruct (payload_accepted _ _ Job.jsToSql _ assign_job
                job_field_accepted job_columns_injective data
                (job_payload_typed data Hp Hs)) as [Hd Ha].
    unfold Job.update, bind, lift. rewrite (sqlForPartialUpdate_ok data _ Hne).
    cbn [assignments values].
    rewrite (update_jobs_no_row data Job.jsToSql (JNum id) Hne Hd
               companies id st eq_refl Hid Ha Hnone).
    reflexivity.
Qed.

Lemma update_missing_key_not_found_witness :
  User.update sample_hash 12 "u9"
    [("firstName", JStr "N"); ("password", JStr "new")] sample_store
  = (Err (NotFoundError "No user: u9"), sample_store)
  /\ Job.update fixture_companies 9
       [("salary", JNum 50); ("companyHandle", JStr "c2")] sample_store
     = (Err (NotFoundError "No job: 9"), sample_store).
Proof.
  destruct update_missing_key_not_found as (Hu & Hj).
  split.
  - apply (Hu sample_hash 12%Z "u9"); [discriminate | reflexivity | reflexivity].
  - apply (Hj fixture_companies 9%Z);
      [discriminate | reflexivity | reflexivity | reflexivity | reflexivity].
Defined.

(** ** The password is not handed back *)

(** C9: whenever [authenticate], [register], [findAll], [get] or [update]
    succeeds, no record it returns has a [password] property. *)
Theorem password_never_returned :
  (forall bcrypt_compare username password st o st',
     User.authenticate bcrypt_compare username password st = (Ok o, st') ->
     o !! "password" = None)
  /\ (forall bcrypt_hash rounds r st o st',
        User.register bcrypt_hash rounds r st = (Ok o, st') ->
        o !! "password" = None)
  /\ (forall st l st',
        User.findAll st = (Ok l, st') ->
        Forall (fun o : obj => o !! "password" = None) l)
  /\ (forall username st o st',
        User.get username st = (Ok o, st') -> o !! "password" = None)
  /\ (forall bcrypt_hash rounds username data st o st',
        User.update bcrypt_hash rounds username data st = (Ok o, st') ->
        o !! "password" = None).
Proof.
  split; [| split; [| split; [| split]]].
  - intros bcrypt_compare username password st o st'. rewrite authenticate_eq.
    destruct (head _) as [user |]; [destruct (bcrypt_compare _ _) |];
      intros [= <- _]. apply user_obj_no_password.
  - intros bcrypt_hash rounds r st o st'. unfold User.register, bind, query.
    destruct (head _); [discriminate |]. unfold insert_user.
    destruct (List.existsb _ _); [discriminate |].
    intros [= <- _]. apply user_obj_no_password.
  - intros st l st'. unfold User.findAll, bind, query, lift.
    destruct (User.reduceRight _ _ _) as [acc |] eqn:E; [| discriminate].
    intros [= <- _]. apply reduceRight_findAll_records in E as ->.
    apply List.Forall_forall. intros o Ho.
    apply in_map_iff in Ho as [row [<- _]]. apply user_obj_no_password.
  - intros username st o st'. unfold User.get, bind, query.
    destruct (length _ =? 0)%nat; [discriminate |].
    destruct (head _) as [[user oz] |]; [| discriminate].
    intros [= <- _]. apply user_obj_no_password.
  - intros bcrypt_hash rounds username data st o st'.
    unfold User.update, bind, lift, ret, throw.
    repeat case_match; try discriminate; intros [= <- _];
      apply lookup_delete_eq.
Qed.

Lemma password_never_returned_witness :
  (fst (User.authenticate sample_compare "u1" "secret" sample_store)
   = Ok (User.user_obj (sample_user "u1"))
   /\ User.user_obj (sample_user "u1") !! "password" = None)
  /\ (fst (User.register sample_hash 12 sample_registration sample_store)
      = Ok (User.user_obj sample_registered)
      /\ User.user_obj sample_registered !! "password" = None)
  /\ (fst (User.findAll fresh_store) = Ok [User.user_obj (sample_user "u1")]
      /\ Forall (fun o : obj => o !! "password" = None)
           [User.user_obj (sample_user "u1")])
  /\ (fst (User.get "u1" sample_store) = Ok (User.user_obj (sample_user "u1"))
      /\ User.user_obj (sample_user "u1") !! "password" = None)
  /\ (fst (User.update sample_hash 12 "u1" [("email", JStr "new@example.com")]
             sample_store)
      = Ok (User.user_obj sample_updated)
      /\ User.user_obj sample_updated !! "password" = None).
Proof.
  destruct password_never_returned as (Ha & Hr & Hf & Hg & Hu).
  split; [| split; [| split; [| split]]]; (split; [reflexivity |]).
  - apply (Ha sample_compare "u1" "secret" sample_store _
             (snd (User.authenticate sample_compare "u1" "secret"
                     sample_store))).
    reflexivity.
  - apply (Hr sample_hash 12%Z sample_registration sample_store _
             (snd (User.register sample_hash 12 sample_registration
                     sample_store))).
    reflexivity.
  - apply (Hf fresh_store _ (snd (User.findAll fresh_store))). reflexivity.
  - apply (Hg "u1" sample_store _ (snd (User.get "u1" sample_store))).
    reflexivity.
  - apply (Hu sample_hash 12%Z "u1" [("email", JStr "new@example.com")]
             sample_store _
             (snd (User.update sample_hash 12 "u1"
                     [("email", JStr "new@example.com")] sample_store))).
    reflexivity.
Defined.

(** * Further properties of the operations

    What the operations of the two models and the handlers of
    [routes/users.js] do on any store: what a call writes, what is read
    after it, and what it leaves alone. *)

Local Close Scope Z_scope.

(** ** [User.register] *)

Lemma head_filter_is_some {A} (p : A -> bool) (l : list A) :
  is_some (head (List.filter p l)) = List.existsb p l.
Proof.
  induction l as [| x l IH]; [reflexivity |]. cbn. now destruct (p x).
Qed.

Lemma select_added_user u st :
  user_exists (u_username u) st = false ->
  select_users_by_username (u_username u) (add_user u st) = [u].
Proof.
  intros H. unfold select_users_by_username, add_user. cbn [users].
  rewrite List.filter_app, (filter_none _ _ H). cbn.
  now rewrite String.eqb_refl.
Qed.

Lemma user_exists_added u st : user_exists (u_username u) (add_user u st) = true.
Proof.
  unfold user_exists, add_user. cbn [users]. rewrite existsb_app. cbn.
  rewrite String.eqb_refl. apply orb_true_iff. right. reflexivity.
Qed.

Section Register.
Variables (bcrypt_compare : string -> string -> bool)
  (bcrypt_hash : string -> Z -> string) (BCRYPT_WORK_FACTOR : Z).

Lemma register_eq r st :
  User.register bcrypt_hash BCRYPT_WORK_FACTOR r st =
    if user_exists (User.username r) st
    then (Err (BadRequestError ("Duplicate username: " +:+ User.username r)), st)
    else (Ok (User.user_obj (registered_row bcrypt_hash BCRYPT_WORK_FACTOR r)),
          add_user (registered_row bcrypt_hash BCRYPT_WORK_FACTOR r) st).
Proof.
  unfold User.register, bind, query.
  pose proof (head_filter_is_some
                (fun u => String.eqb (u_username u) (User.username r)) (users st)) as H.
  fold (select_users_by_username (User.username r) st) in H.
  fold (user_exists (User.username r) st) in H.
  destruct (head (select_users_by_username (User.username r) st)) as [u |];
    cbn in H; rewrite <- H; [reflexivity |].
  unfold insert_user. cbn [u_username].
  unfold user_exists in H. rewrite <- H. reflexivity.
Qed.

End Register.

(** ** [User.get] *)

Lemma left_join_cons {A B} (on : A -> B -> bool) a (l : list A) (r : list B) :
  exists ob obs,
    left_join on (a :: l) r
    = (a, ob) :: List.map (fun ob => (a, ob)) obs ++ left_join on l r.
Proof.
  unfold left_join. cbn [List.flat_map].
  destruct (List.filter (on a) r) as [| b ms].
  - exists None, []. reflexivity.
  - exists (Some b), (List.map Some ms). cbn. now rewrite List.map_map.
Qed.

Lemma filter_same_left {A B} (p : A -> bool) (a : A) (obs : list B) :
  List.filter (fun x : A * B => p (fst x)) (List.map (fun ob => (a, ob)) obs)
  = if p a then List.map (fun ob => (a, ob)) obs else [].
Proof.
  induction obs as [| ob obs IH]; cbn; [now destruct (p a) |].
  rewrite IH. now destruct (p a).
Qed.

Lemma head_left_join_filter {A B} (on : A -> B -> bool) (p : A -> bool)
    (l : list A) (r : list B) :
  fst <$> head (List.filter (fun x => p (fst x)) (left_join on l r))
  = head (List.filter p l).
Proof.
  induction l as [| a l IH]; [reflexivity |].
  destruct (left_join_cons on a l r) as (ob & obs & ->).
  cbn [List.filter fst]. destruct (p a) eqn:E; [reflexivity |].
  rewrite List.filter_app, filter_same_left, E. exact IH.
Qed.

Lemma head_select_user_with_jobs username st :
  fst <$> head (select_user_with_jobs username st)
  = head (select_users_by_username username st).
Proof.
  unfold select_user_with_jobs, users_left_join_applications,
    select_users_by_username.
  rewrite <- (head_left_join_filter
                (fun u a => String.eqb (a_username a) (u_username u))
                (fun u => String.eqb (u_username u) username)
                (users st) (applications st)).
  generalize (left_join (fun u a => String.eqb (a_username a) (u_username u))
                (users st) (applications st)).
  induction l as [| [u oa] l IH]; [reflexivity |].
  cbn. destruct (String.eqb (u_username u) username); [reflexivity | exact IH].
Qed.

Lemma get_eq username st :
  User.get username st =
    match head (select_users_by_username username st) with
    | Some user => (Ok (User.user_obj user), st)
    | None => (Err (NotFoundError ("No user: " +:+ username)), st)
    end.
Proof.
  rewrite <- head_select_user_with_jobs.
  unfold User.get, bind, query.
  destruct (select_user_with_jobs username st) as [| [u oz] rows]; reflexivity.
Qed.

(** ** What an update writes *)

Lemma resolve_sets_assign_all {R} (assign : string -> jsval -> assignment R)
    (col : string -> string) (data : ordered_obj) :
  forall (n : nat) (pre post : list jsval),
    length pre = n ->
    resolve_sets assign
      (imap (fun idx kv => (col (fst kv), S (n + idx))) data)
      (pre ++ List.map snd data ++ post)
    = assign_all assign col data.
Proof.
  induction data as [| [k v] data IH]; intros n pre post Hn; [reflexivity |].
  cbn [imap resolve_sets assign_all fst snd List.map]. rewrite Nat.add_0_r.
  assert (Hp : param (pre ++ (v :: List.map snd data) ++ post) (S n) = Some v).
  { cbn [param]. rewrite lookup_app_r by lia.
    replace (n - length pre)%nat with 0%nat by lia. reflexivity. }
  rewrite Hp.
  specialize (IH (S n) (pre ++ [v]) post).
  rewrite length_app in IH. cbn [length] in IH.
  specialize (IH ltac:(lia)).
  rewrite <- app_assoc in IH. cbn [app] in IH.
  rewrite (imap_ext _ (fun idx kv => (col (fst kv), S (S n + idx)))).
  2:{ intros i x _. cbn. do 2 f_equal. lia. }
  change ((v :: List.map snd data) ++ post) with (v :: List.map snd data ++ post).
  now rewrite IH.
Qed.

Lemma built_sets_assign_all {R} (assign : string -> jsval -> assignment R)
    (jsToSql : gmap string string) (data : ordered_obj) (key : jsval) :
  resolve_sets assign
    (imap (fun idx kv => (column_of jsToSql (fst kv), S idx)) data)
    (List.map snd data ++ [key])
  = assign_all assign (column_of jsToSql) data.
Proof.
  exact (resolve_sets_assign_all assign (column_of jsToSql) data 0 [] [key] eq_refl).
Qed.

(** The rows of a table after [update_rows]. *)
Lemma update_rows_spec {R} (hit : R -> bool) (f : R -> option R) rows table returned :
  update_rows hit f rows = Some (table, returned) ->
  Forall2 (fun r r' => if hit r then f r = Some r' else r' = r) rows table
  /\ returned
     = List.map snd
         (List.filter (fun rr => hit (fst rr)) (combine rows table)).
Proof.
  revert table returned. induction rows as [| r rows IH]; intros table returned.
  - intros [= <- <-]. split; [constructor | reflexivity].
  - cbn [update_rows].
    destruct (update_rows hit f rows) as [[t ret] |]; [| discriminate].
    destruct (IH t ret eq_refl) as [IH1 IH2]. cbn.
    destruct (hit r) eqn:E.
    + destruct (f r) as [r' |] eqn:F; [| discriminate]. cbn.
      intros [= <- <-]. split.
      * constructor; [now rewrite E | exact IH1].
      * cbn. rewrite E. cbn. now rewrite IH2.
    + intros [= <- <-]. split.
      * constructor; [now rewrite E | exact IH1].
      * cbn. now rewrite E.
Qed.

Lemma update_rows_total {R} (hit : R -> bool) (f : R -> option R) rows :
  (forall r, In r rows -> hit r = true -> is_some (f r) = true) ->
  is_some (update_rows hit f rows) = true.
Proof.
  induction rows as [| r rows IH]; intros H; [reflexivity |].
  cbn [update_rows].
  destruct (update_rows hit f rows) as [[t ret] |];
    [| now discriminate IH; intros; apply H; [right |]].
  cbn. destruct (hit r) eqn:E; [| reflexivity].
  specialize (H r (or_introl eq_refl) E). now destruct (f r).
Qed.

(** When the assignment keeps what [hit] looks at, the rows handed back are
    the rows of the new table that [hit] holds of, and a key of the rows
    that it keeps is a key of the table as before. *)
Lemma update_rows_keeps {R K} (key : R -> K) (hit : R -> bool)
    (f : R -> option R) rows table returned :
  (forall r r', f r = Some r' -> key r' = key r) ->
  update_rows hit f rows = Some (table, returned) ->
  List.map key table = List.map key rows.
Proof.
  intros Hk H. apply update_rows_spec in H as [H _].
  induction H as [| r r' rows table Hr _ IH]; [reflexivity |].
  cbn. rewrite IH. f_equal. destruct (hit r); [now apply Hk | now subst].
Qed.

Lemma update_rows_returned {R} (hit : R -> bool) (f : R -> option R)
    rows table returned :
  (forall r r', f r = Some r' -> hit r' = hit r) ->
  update_rows hit f rows = Some (table, returned) ->
  returned = List.filter hit table.
Proof.
  intros Hk H. apply update_rows_spec in H as [H ->].
  induction H as [| r r' rows table Hr _ IH]; [reflexivity |].
  cbn. destruct (hit r) eqn:E.
  - rewrite (Hk _ _ Hr), E. cbn. now rewrite IH.
  - subst r'. now rewrite E.
Qed.
Lemma ordered_get_absent k (data : ordered_obj) :
  inb k (List.map fst data) = false -> ordered_get k data = JUndefined.
Proof.
  induction data as [| [k' v] data IH]; [reflexivity |].
  cbn. intros H. apply orb_false_elim in H as [E H].
  rewrite E. now apply IH.
Qed.

Lemma updated_user_nil u : updated_user [] u = u.
Proof. now destruct u. Qed.

(** One assignment of a valid payload, then the rest. *)
Lemma updated_user_cons k v (data : ordered_obj) u f :
  user_field_ok (k, v) = true ->
  inb k (List.map fst data) = false ->
  assign_user (column_of User.jsToSql k) v = Some f ->
  exists u', f u = Some u' /\ updated_user data u' = updated_user ((k, v) :: data) u.
Proof.
  intros Hok Hk Hf. pose proof (ordered_get_absent k data Hk) as Hg.
  unfold user_field_ok in Hok. cbn [fst snd] in Hok.
  destruct v as [| | b | z | s]; try discriminate.
  - apply String.eqb_eq in Hok as ->. vm_compute in Hf. injection Hf as <-.
    eexists. split; [reflexivity |].
    unfold updated_user, text_or, bool_or. cbn [ordered_get].
    cbn [u_username u_password u_first_name u_last_name u_email u_is_admin].
    rewrite Hg. reflexivity.
  - apply inb_In in Hok. cbn in Hok.
    destruct Hok as [<- | [<- | [<- | [<- | []]]]]; vm_compute in Hf; injection Hf as <-;
      (eexists; split; [reflexivity |]);
      unfold updated_user, text_or, bool_or, set_user_text; cbn [ordered_get];
      cbn [u_username u_password u_first_name u_last_name u_email u_is_admin];
      rewrite Hg; reflexivity.
Qed.

Lemma assign_all_user (data : ordered_obj) :
  user_payload data = true ->
  exists f,
    assign_all assign_user (column_of User.jsToSql) data = Some f
    /\ forall u, f u = Some (updated_user data u).
Proof.
  unfold user_payload. induction data as [| [k v] data IH].
  - intros _. exists Some. split; [reflexivity |]. intros u.
    now rewrite updated_user_nil.
  - cbn [List.map fst distinctb List.forallb].
    rewrite !andb_true_iff, negb_true_iff. intros [[Hk Hd] [Hok Hall]].
    destruct IH as (g & Hg & Hgu); [now rewrite Hd, Hall |].
    destruct (user_field_accepted (k, v) Hok) as [_ Hs]. cbn [fst snd] in Hs.
    destruct (assign_user (column_of User.jsToSql k) v) as [f1 |] eqn:E;
      [| discriminate].
    cbn [assign_all]. rewrite E, Hg. eexists. split; [reflexivity |].
    intros u. destruct (updated_user_cons k v data u f1 Hok Hk E) as (u' & -> & <-).
    apply Hgu.
Qed.

Lemma update_rows_map {R} (hit : R -> bool) (g : R -> R) rows :
  update_rows hit (fun r => Some (g r)) rows
  = Some (List.map (fun r => if hit r then g r else r) rows,
          List.map g (List.filter hit rows)).
Proof.
  induction rows as [| r rows IH]; [reflexivity |].
  cbn [update_rows]. rewrite IH. cbn. now destruct (hit r).
Qed.

Lemma update_rows_ext {R} (hit : R -> bool) (f g : R -> option R) rows :
  (forall r, f r = g r) -> update_rows hit f rows = update_rows hit g rows.
Proof.
  intros H. induction rows as [| r rows IH]; [reflexivity |].
  cbn [update_rows]. now rewrite IH, H.
Qed.

(** The payload after the hashing step is a payload with the same keys. *)
Lemma hashed_payload_valid bcrypt_hash rounds (data : ordered_obj) :
  data <> [] -> user_payload data = true ->
  hashed_payload bcrypt_hash rounds data <> []
  /\ user_payload (hashed_payload bcrypt_hash rounds data) = true.
Proof.
  intros Hne Hp. unfold hashed_payload.
  destruct (ordered_get "password" data) as [| | b | z | p] eqn:E; try (now split).
  destruct (String.eqb p ""); [now split |].
  split; [apply ordered_set_nonempty |].
  apply andb_true_iff in Hp as [Hd Hok].
  destruct (ordered_set_password data p (bcrypt_hash p rounds) E) as [Hkeys Hvals].
  unfold user_payload. rewrite Hkeys, Hd. now apply Hvals.
Qed.

Section UserUpdate.
Variables (bcrypt_hash : string -> Z -> string) (BCRYPT_WORK_FACTOR : Z).

Lemma user_update_eq username (data : ordered_obj) st :
  data <> [] -> user_payload data = true ->
  User.update bcrypt_hash BCRYPT_WORK_FACTOR username data st =
    let data' := hashed_payload bcrypt_hash BCRYPT_WORK_FACTOR data in
    match head (select_users_by_username username st) with
    | Some user =>
        (Ok (User.user_obj (updated_user data' user)),
         with_users (update_user_rows username data' (users st)) st)
    | None => (Err (NotFoundError ("No user: " +:+ username)), st)
    end.
Proof.
  intros Hne Hp. cbv zeta.
  destruct (hashed_payload_valid bcrypt_hash BCRYPT_WORK_FACTOR data Hne Hp)
    as [Hne' Hp'].
  destruct (assign_all_user _ Hp') as (f & Hf & Hfu).
  destruct (payload_accepted user_field_ok _ User.jsToSql _ assign_user
              user_field_accepted user_columns_injective _ Hp') as [Hd _].
  assert (Hstep :
    (if truthy (ordered_get "password" data)
     then
       match ordered_get "password" data with
       | JStr p =>
           ret (ordered_set "password"
                  (JStr (bcrypt_hash p BCRYPT_WORK_FACTOR)) data)
       | _ => throw (BcryptError "data must be a string or Buffer")
       end
     else ret data) st
    = (Ok (hashed_payload bcrypt_hash BCRYPT_WORK_FACTOR data), st)).
  { unfold hashed_payload.
    destruct (truthy (ordered_get "password" data)) eqn:Et.
    - apply andb_true_iff in Hp as [_ Hok].
      destruct (payload_password data Hok Et) as [p Ep]. rewrite Ep in Et |- *.
      cbn in Et. apply negb_true_iff in Et. now rewrite Et.
    - destruct (ordered_get "password" data) as [| | b | z | p]; try reflexivity.
      cbn in Et. apply negb_false_iff in Et. now rewrite Et. }
  unfold User.update. unfold bind at 1. rewrite Hstep.
  set (data' := hashed_payload bcrypt_hash BCRYPT_WORK_FACTOR data) in *.
  unfold bind, lift. rewrite (sqlForPartialUpdate_ok data' _ Hne').
  cbn [assignments values]. unfold update_users.
  assert (Hs : imap (fun idx kv => (column_of User.jsToSql (fst kv), S idx))
                 data' <> []).
  { intros C. apply (f_equal length) in C. rewrite length_imap in C.
    destruct data'; [congruence | discriminate]. }
  pose proof (sets_distinct data' User.jsToSql Hd) as Hsd.
  pose proof (built_sets_assign_all assign_user User.jsToSql data' (JStr username))
    as Hr.
  destruct (imap _ data') as [| s0 sets']; [congruence |].
  rewrite Hsd, Hr, Hf. cbn [negb]. rewrite param_last.
  rewrite (update_rows_ext _ f (fun r => Some (updated_user data' r)) _ Hfu).
  rewrite update_rows_map.
  unfold select_users_by_username.
  destruct (List.filter _ (users st)) as [| user rows] eqn:E.
  - assert (Hmap : List.map
                     (fun r => if String.eqb (u_username r) username
                               then updated_user data' r else r) (users st)
                   = users st).
    { rewrite <- (List.map_id (users st)) at 2. apply List.map_ext_in.
      intros u Hu. destruct (String.eqb (u_username u) username) eqn:Eu;
        [| reflexivity].
      exfalso.
      assert (H : In u (List.filter
                          (fun u => String.eqb (u_username u) username)
                          (users st)))
        by (apply filter_In; auto).
      rewrite E in H. exact H. }
    cbn. rewrite Hmap, store_eta. reflexivity.
  - reflexivity.
Qed.

End UserUpdate.

(** ** What [Job.update] writes *)

Lemma updated_job_nil j : updated_job [] j = j.
Proof. now destruct j. Qed.

Ltac constraints_split Hg :=
  unfold job_constraints; cbn [ordered_get]; cbn; rewrite ?Hg; cbn;
  try reflexivity; btauto.

Ltac updated_fields Hg :=
  eexists; split; [reflexivity |];
  unfold updated_job, text_or; cbn [ordered_get];
  cbn [j_id j_title j_salary j_equity j_company_handle];
  now rewrite Hg.

Lemma updated_job_cons k v (data : ordered_obj) j f :
  job_field_ok (k, v) = true ->
  inb k (List.map fst data) = false ->
  assign_job (column_of Job.jsToSql k) v = Some f ->
  job_constraints ((k, v) :: data)
  = job_constraints [(k, v)] && job_constraints data
  /\ if job_constraints [(k, v)]
     then exists j', f j = Some j'
                     /\ updated_job data j' = updated_job ((k, v) :: data) j
     else f j = None.
Proof.
  intros Hok Hk Hf. pose proof (ordered_get_absent k data Hk) as Hg.
  unfold job_field_ok in Hok. cbn [fst snd] in Hok.
  destruct v as [| | b | z | s]; try discriminate.
  - apply String.eqb_eq in Hok as ->. vm_compute in Hf. injection Hf as <-.
    split; [constraints_split Hg |]. cbn. updated_fields Hg.
  - apply inb_In in Hok. cbn in Hok. destruct Hok as [<- | [<- | []]].
    + change (column_of Job.jsToSql "salary") with "salary" in Hf.
      unfold assign_job in Hf. cbn [String.eqb Ascii.eqb Bool.eqb] in Hf.
      destruct (in_integer z); [| discriminate Hf].
      injection Hf as <-. split; [constraints_split Hg |].
      unfold job_constraints at 1. cbn [ordered_get]. cbn.
      rewrite andb_true_r. destruct (0 <=? z)%Z; [| reflexivity].
      updated_fields Hg.
    + change (column_of Job.jsToSql "equity") with "equity" in Hf.
      unfold assign_job in Hf. cbn [String.eqb Ascii.eqb Bool.eqb] in Hf.
      injection Hf as <-. split; [constraints_split Hg |].
      unfold job_constraints at 1. cbn [ordered_get]. cbn.
      destruct ((0 <=? z)%Z && (z <=? 1)%Z); [| reflexivity].
      updated_fields Hg.
  - apply orb_true_iff in Hok as [Hok | Hok].
    + apply inb_In in Hok. cbn in Hok. destruct Hok as [<- | [<- | []]];
        vm_compute in Hf; injection Hf as <-;
        (split; [constraints_split Hg | cbn; updated_fields Hg]).
    + apply andb_true_iff in Hok as [Hk' Hs]. apply String.eqb_eq in Hk' as ->.
      change (column_of Job.jsToSql "equity") with "equity" in Hf.
      unfold assign_job in Hf. cbn [String.eqb Ascii.eqb Bool.eqb] in Hf.
      destruct (parse_numeric s) as [[num scale] |] eqn:Ep; [| discriminate Hf].
      injection Hf as <-. split; [constraints_split Hg |].
      unfold job_constraints at 1. cbn [ordered_get]. cbn.
      destruct (equity_in_range s); [| reflexivity].
      eexists. split; [reflexivity |].
      unfold updated_job, text_or. cbn [ordered_get].
      cbn [j_id j_title j_salary j_equity j_company_handle].
      cbn [String.eqb Ascii.eqb Bool.eqb]. now rewrite Hg, Ep.
Qed.

Lemma assign_all_job (data : ordered_obj) :
  job_payload data = true -> salary_in_integer data = true ->
  exists f,
    assign_all assign_job (column_of Job.jsToSql) data = Some f
    /\ forall j, f j = if job_constraints data
                       then Some (updated_job data j) else None.
Proof.
  intros Hp Hs. pose proof (job_payload_typed data Hp Hs) as H.
  clear Hp Hs. revert H. induction data as [| [k v] data IH].
  - intros _. exists Some. split; [reflexivity |]. intros j.
    now rewrite updated_job_nil.
  - cbn [List.map fst distinctb List.forallb].
    rewrite !andb_true_iff, negb_true_iff. intros [[Hk Hd] [Hok Hall]].
    destruct IH as (g & Hg & Hgj); [now rewrite Hd, Hall |].
    destruct Hok as [Hok Hrange].
    destruct (job_field_accepted (k, v)) as [_ Hs]; [now rewrite Hok, Hrange |].
    cbn [fst snd] in Hs.
    destruct (assign_job (column_of Job.jsToSql k) v) as [f1 |] eqn:E;
      [| discriminate].
    cbn [assign_all]. rewrite E, Hg. eexists. split; [reflexivity |].
    intros j. destruct (updated_job_cons k v data j f1 Hok Hk E) as [-> H].
    destruct (job_constraints [(k, v)]).
    + destruct H as (j' & -> & <-). cbn [andb]. apply Hgj.
    + now rewrite H.
Qed.

Lemma update_rows_none {R} (hit : R -> bool) rows :
  update_rows hit (fun _ => None) rows
  = if List.existsb hit rows then None else Some (rows, []).
Proof.
  induction rows as [| r rows IH]; [reflexivity |].
  cbn [update_rows List.existsb]. rewrite IH.
  destruct (hit r) eqn:E; cbn; destruct (List.existsb hit rows); cbn;
    rewrite ?E; reflexivity.
Qed.

Lemma map_no_hit {R} (hit : R -> bool) (g : R -> R) rows :
  List.filter hit rows = [] ->
  List.map (fun r => if hit r then g r else r) rows = rows.
Proof.
  intros E. rewrite <- (List.map_id rows) at 2. apply List.map_ext_in.
  intros r Hr. destruct (hit r) eqn:Eh; [| reflexivity]. exfalso.
  assert (H : In r (List.filter hit rows)) by (apply filter_In; auto).
  rewrite E in H. exact H.
Qed.

(** The assignment to [company_handle] of a payload. *)
Lemma company_assigned (data : ordered_obj) :
  List.forallb job_field_ok data = true ->
  inb "company_handle"
    (List.map (fun kv => column_of Job.jsToSql (fst kv)) data)
  = match ordered_get "companyHandle" data with
    | JStr _ => true
    | _ => false
    end.
Proof.
  induction data as [| [k v] data IH]; [reflexivity |].
  cbn [List.forallb]. rewrite andb_true_iff. intros [Hok Hall].
  specialize (IH Hall). cbn [List.map fst ordered_get].
  unfold inb in *. cbn [List.existsb]. rewrite IH.
  unfold job_field_ok in Hok. cbn [fst snd] in Hok.
  destruct (String.eqb "companyHandle" k) eqn:E.
  - apply String.eqb_eq in E as <-.
    destruct v as [| | b | z | h]; try discriminate Hok. reflexivity.
  - assert (Hin : In k ["title"; "salary"; "equity"; "companyHandle"]).
    { destruct v as [| | b | z | h]; try discriminate Hok.
      - apply String.eqb_eq in Hok as ->. cbn. tauto.
      - apply inb_In in Hok. cbn in *. tauto.
      - apply orb_true_iff in Hok as [Hok | Hok].
        + apply inb_In in Hok. cbn in *. tauto.
        + apply andb_true_iff in Hok as [Hok _].
          apply String.eqb_eq in Hok as ->. cbn. tauto. }
    cbn in Hin.
    destruct Hin as [<- | [<- | [<- | [<- | []]]]];
      try reflexivity. discriminate E.
Qed.

(** The foreign key on the rows a statement rewrote. *)
Lemma company_check (companies : list string) (data : ordered_obj)
    (job : job_row) (rows : list job_row) :
  List.forallb job_field_ok data = true ->
  inb "company_handle"
    (List.map (fun kv => column_of Job.jsToSql (fst kv)) data)
  && negb (List.forallb (fun j => inb (j_company_handle j) companies)
             (List.map (updated_job data) (job :: rows)))
  = negb (company_known companies data).
Proof.
  intros Hok. rewrite (company_assigned data Hok). unfold company_known.
  destruct (ordered_get "companyHandle" data) as [| | b | z | h] eqn:E;
    try reflexivity.
  cbn [andb]. f_equal.
  assert (H : forall l,
             List.forallb (fun j => inb (j_company_handle j) companies)
               (List.map (updated_job data) l)
             = match l with [] => true | _ => inb h companies end).
  { induction l as [| j l IHl]; [reflexivity |].
    cbn [List.map List.forallb]. rewrite IHl.
    unfold updated_job at 1. cbn [j_company_handle]. unfold text_or.
    rewrite E. destruct l; [apply andb_true_r | apply andb_diag]. }
  apply H.
Qed.

Lemma job_update_eq companies id (data : ordered_obj) st :
  data <> [] -> job_payload data = true ->
  in_integer id = true -> salary_in_integer data = true ->
  Job.update companies id data st =
    match head (jobs_by_id id st) with
    | Some job =>
        if job_constraints data
        then
          if company_known companies data
          then (Ok (Job.job_obj (updated_job data job)),
                with_jobs (update_job_rows id data (jobs st)) st)
          else (Err (DbError "update violates foreign key constraint"), st)
        else (Err (DbError "row violates a constraint"), st)
    | None => (Err (NotFoundError ("No job: " +:+ pretty id)), st)
    end.
Proof.
  intros Hne Hp Hid Hsal.
  destruct (assign_all_job _ Hp Hsal) as (f & Hf & Hfj).
  destruct (payload_accepted _ _ Job.jsToSql _ assign_job
              job_field_accepted job_columns_injective _
              (job_payload_typed data Hp Hsal)) as [Hd _].
  assert (Hok : List.forallb job_field_ok data = true)
    by (unfold job_payload in Hp; now apply andb_true_iff in Hp as [_ Hp]).
  unfold Job.update, bind, lift. rewrite (sqlForPartialUpdate_ok data _ Hne).
  cbn [assignments values]. unfold update_jobs.
  assert (Hs : imap (fun idx kv => (column_of Job.jsToSql (fst kv), S idx))
                 data <> []).
  { intros C. apply (f_equal length) in C. rewrite length_imap in C.
    destruct data; [congruence | discriminate]. }
  pose proof (sets_distinct data Job.jsToSql Hd) as Hsd.
  pose proof (built_sets_assign_all assign_job Job.jsToSql data (JNum id)) as Hr.
  pose proof (imap_columns (fun kv => column_of Job.jsToSql (fst kv)) S data)
    as Hcols.
  destruct (imap _ data) as [| s0 sets']; [congruence |].
  rewrite Hsd, Hr, Hf. cbn [negb]. rewrite param_last, Hid. cbn [negb].
  rewrite Hcols. unfold jobs_by_id.
  destruct (job_constraints data).
  - rewrite (update_rows_ext _ f (fun r => Some (updated_job data r)) _ Hfj).
    rewrite update_rows_map.
    destruct (List.filter _ (jobs st)) as [| job rows] eqn:E.
    + cbn [List.map List.forallb negb]. rewrite andb_false_r.
      cbn. rewrite (map_no_hit _ _ _ E), store_eta. reflexivity.
    + rewrite (company_check companies data job rows Hok).
      destruct (company_known companies data); reflexivity.
  - rewrite (update_rows_ext _ f (fun _ => None) _ Hfj), update_rows_none.
    destruct (List.filter _ (jobs st)) as [| job rows] eqn:E.
    + assert (Hn : List.existsb (fun j => (j_id j =? id)%Z) (jobs st) = false).
      { apply not_true_iff_false. intros C. apply existsb_exists in C as [j [Hj Hi]].
        assert (H : In j (List.filter (fun j => (j_id j =? id)%Z) (jobs st)))
          by (apply filter_In; auto).
        rewrite E in H. exact H. }
      rewrite Hn. cbn [List.forallb negb]. rewrite andb_false_r.
      cbn. now rewrite store_eta.
    + assert (Hn : List.existsb (fun j => (j_id j =? id)%Z) (jobs st) = true).
      { apply existsb_exists. exists job.
        assert (H : In job (List.filter (fun j => (j_id j =? id)%Z) (jobs st)))
          by (rewrite E; now left).
        now apply filter_In in H. }
      now rewrite Hn.
Qed.

(** ** Reading after an update *)

Lemma job_get_eq id st :
  Job.get id st =
    if in_integer id
    then
      match head (jobs_by_id id st) with
      | Some job => (Ok (Job.job_obj job), st)
      | None => (Err (NotFoundError ("No company: " +:+ pretty id)), st)
      end
    else (Err out_of_range, st).
Proof.
  unfold Job.get, bind, select_jobs_by_id.
  destruct (in_integer id); [| reflexivity].
  now destruct (head (jobs_by_id id st)).
Qed.

(** A key or a salary outside the range of INTEGER: no statement is
    carried out. *)
Lemma assign_all_rejects {R} (assign : string -> jsval -> assignment R)
    (col : string -> string) (data : ordered_obj) kv :
  In kv data -> assign (col (fst kv)) (snd kv) = None ->
  assign_all assign col data = None.
Proof.
  induction data as [| [k v] data IH]; [intros [] |].
  intros [<- | Hin] Hnone; cbn [assign_all fst snd] in *.
  - now rewrite Hnone.
  - rewrite (IH Hin Hnone). now destruct (assign (col k) v).
Qed.

Lemma job_update_rejected companies id (data : ordered_obj) st :
  in_integer id && salary_in_integer data = false ->
  exists e, Job.update companies id data st = (Err e, st).
Proof.
  intros H. unfold Job.update, bind, lift.
  destruct data as [| kv0 data0] eqn:Ed; [eexists; reflexivity |].
  rewrite <- Ed in *. assert (Hne : data <> []) by (rewrite Ed; discriminate).
  clear Ed. rewrite (sqlForPartialUpdate_ok data _ Hne).
  cbn [assignments values]. unfold update_jobs.
  destruct (imap _ data) as [| s0 sets'] eqn:Es; [eexists; reflexivity |].
  destruct (negb (distinctb _)); [eexists; reflexivity |].
  rewrite <- Es, built_sets_assign_all, param_last.
  apply andb_false_iff in H as [H | H].
  - rewrite H. cbn [negb].
    destruct (assign_all _ _ data); eexists; reflexivity.
  - unfold salary_in_integer in H.
    assert (Hex : exists kv, In kv data /\ salary_field_in_integer kv = false).
    { clear -H. induction data as [| kv data IH]; [discriminate |].
      cbn [List.forallb] in H. apply andb_false_iff in H as [H | H].
      - exists kv. split; [now left | exact H].
      - destruct (IH H) as (kv' & Hin & Hkv'). exists kv'. split; [now right | exact Hkv']. }
    destruct Hex as ([k v] & Hin & Hkv).
    unfold salary_field_in_integer in Hkv. cbn [fst snd] in Hkv.
    destruct v as [| | b | z | h]; try discriminate Hkv.
    apply orb_false_iff in Hkv as [Hk Hz]. apply negb_false_iff in Hk.
    apply String.eqb_eq in Hk as ->.
    rewrite (assign_all_rejects assign_job (column_of Job.jsToSql) data
               ("salary", JNum z) Hin).
    + eexists. reflexivity.
    + cbn [fst snd]. change (column_of Job.jsToSql "salary") with "salary".
      unfold assign_job. cbn [String.eqb Ascii.eqb Bool.eqb]. now rewrite Hz.
Qed.

Lemma job_update_ok_in_range companies id (data : ordered_obj) st o st' :
  Job.update companies id data st = (Ok o, st') ->
  in_integer id = true /\ salary_in_integer data = true.
Proof.
  intros H.
  destruct (in_integer id && salary_in_integer data) eqn:E;
    [now apply andb_true_iff in E |].
  destruct (job_update_rejected companies id data st E) as [e He].
  rewrite He in H. discriminate H.
Qed.

Lemma filter_map_hit {R} (hit : R -> bool) (g : R -> R) rows :
  (forall r, hit (g r) = hit r) ->
  List.filter hit (List.map (fun r => if hit r then g r else r) rows)
  = List.map g (List.filter hit rows).
Proof.
  intros H. induction rows as [| r rows IH]; [reflexivity |].
  cbn. destruct (hit r) eqn:E.
  - rewrite H, E. cbn. now rewrite IH.
  - now rewrite E.
Qed.

Lemma head_map {A B} (g : A -> B) (l : list A) : head (List.map g l) = g <$> head l.
Proof. now destruct l. Qed.

Lemma select_updated_users username data st :
  select_users_by_username username
    (with_users (update_user_rows username data (users st)) st)
  = List.map (updated_user data) (select_users_by_username username st).
Proof.
  unfold select_users_by_username, with_users, update_user_rows. cbn [users].
  now apply (filter_map_hit (fun u => String.eqb (u_username u) username)).
Qed.

Lemma select_updated_jobs id data st :
  jobs_by_id id (with_jobs (update_job_rows id data (jobs st)) st)
  = List.map (updated_job data) (jobs_by_id id st).
Proof.
  unfold jobs_by_id, with_jobs, update_job_rows. cbn [jobs].
  now apply (filter_map_hit (fun j => (j_id j =? id)%Z)).
Qed.

Lemma ordered_get_set k v (data : ordered_obj) :
  ordered_get k (ordered_set k v data) = v.
Proof.
  induction data as [| [k' v'] data IH]; cbn; [now rewrite String.eqb_refl |].
  destruct (String.eqb k k') eqn:E; cbn; now rewrite E.
Qed.

Lemma hashed_password bcrypt_hash rounds (data : ordered_obj) p :
  ordered_get "password" data = JStr p ->
  ordered_get "password" (hashed_payload bcrypt_hash rounds data)
  = JStr (if String.eqb p "" then "" else bcrypt_hash p rounds).
Proof.
  intros E. unfold hashed_payload. rewrite E.
  destruct (String.eqb p "") eqn:Ep.
  - rewrite E. apply String.eqb_eq in Ep. now subst.
  - apply ordered_get_set.
Qed.

Section UpdateThen.
Variables (bcrypt_compare : string -> string -> bool)
  (bcrypt_hash : string -> Z -> string) (BCRYPT_WORK_FACTOR : Z).

(** X7: for a payload that is not empty and gives fields among [firstName],
    [lastName], [password], [email] and [isAdmin], each once and with a
    value of its type (so not the username): after a [User.update] that
    succeeds, [User.get] of the username hands back the record that the
    update handed back, which carries the username; and when the payload
    had a password that is not empty, [User.authenticate] with that
    password succeeds with the same record, provided bcrypt accepts a
    password against its own hash. *)
Theorem user_update_then_get username (data : ordered_obj) st o st' :
  data <> [] -> user_payload data = true ->
  User.update bcrypt_hash BCRYPT_WORK_FACTOR username data st = (Ok o, st') ->
  User.get username st' = (Ok o, st')
  /\ o !! "username" = Some (JStr username)
  /\ (forall p, ordered_get "password" data = JStr p -> p <> "" ->
      bcrypt_compare p (bcrypt_hash p BCRYPT_WORK_FACTOR) = true ->
      User.authenticate bcrypt_compare username p st' = (Ok o, st')).
Proof.
  intros Hne Hp. rewrite (user_update_eq _ _ _ _ _ Hne Hp). cbv zeta.
  destruct (head (select_users_by_username username st)) as [user |] eqn:E;
    [| discriminate].
  intros [= <- <-].
  assert (Hsel : head (select_users_by_username username
                         (with_users
                            (update_user_rows username
                               (hashed_payload bcrypt_hash BCRYPT_WORK_FACTOR data)
                               (users st)) st))
                 = Some (updated_user
                           (hashed_payload bcrypt_hash BCRYPT_WORK_FACTOR data)
                           user)).
  { now rewrite select_updated_users, head_map, E. }
  split; [| split].
  - now rewrite get_eq, Hsel.
  - change ((User.user_obj (updated_user
               (hashed_payload bcrypt_hash BCRYPT_WORK_FACTOR data) user))
            !! "username") with (Some (JStr (u_username user))).
    do 2 f_equal. unfold select_users_by_username in E.
    destruct (List.filter _ (users st)) as [| y l] eqn:F; [discriminate |].
    injection E as ->.
    assert (H : In user (List.filter
                 (fun u => String.eqb (u_username u) username) (users st)))
      by (rewrite F; now left).
    apply filter_In in H as [_ H]. now apply String.eqb_eq in H.
  - intros p Hpw Hnz Hc. rewrite authenticate_eq, Hsel.
    cbn [updated_user u_password]. unfold text_or.
    rewrite (hashed_password _ _ _ _ Hpw).
    apply String.eqb_neq in Hnz. rewrite Hnz, Hc. reflexivity.
Qed.

End UpdateThen.

Lemma user_update_then_get_witness :
  let st' :=
    snd (User.update sample_hash 12 "u1" [("password", JStr "new")]
           sample_store) in
  let o := User.user_obj (sample_user "u1") in
  User.get "u1" st' = (Ok o, st')
  /\ User.authenticate sample_compare "u1" "new" st' = (Ok o, st').
Proof.
  cbv zeta.
  destruct (user_update_then_get sample_compare sample_hash 12 "u1"
              [("password", JStr "new")] sample_store
              (User.user_obj (sample_user "u1"))
              (snd (User.update sample_hash 12 "u1" [("password", JStr "new")]
                      sample_store)))
    as (Hg & _ & Ha); [discriminate | reflexivity | vm_compute; reflexivity |].
  split; [exact Hg |].
  apply Ha; [reflexivity | discriminate | reflexivity].
Defined.

(** X16: after a [Job.update] that succeeds, [Job.get] of the id hands back
    the record that the update handed back, and that record carries the
    id. *)
Theorem job_update_then_get companies id (data : ordered_obj) st o st' :
  data <> [] -> job_payload data = true ->
  Job.update companies id data st = (Ok o, st') ->
  Job.get id st' = (Ok o, st') /\ o !! "id" = Some (JNum id).
Proof.
  intros Hne Hp H.
  destruct (job_update_ok_in_range _ _ _ _ _ _ H) as [Hid Hs]. revert H.
  rewrite (job_update_eq _ _ _ _ Hne Hp Hid Hs).
  destruct (head (jobs_by_id id st)) as [job |] eqn:E; [| discriminate].
  destruct (job_constraints data); [| discriminate].
  destruct (company_known companies data); [| discriminate].
  intros [= <- <-]. split.
  - now rewrite job_get_eq, Hid, select_updated_jobs, head_map, E.
  - change (Job.job_obj (updated_job data job) !! "id")
      with (Some (JNum (j_id job))).
    do 2 f_equal. unfold jobs_by_id in E.
    destruct (List.filter _ (jobs st)) as [| y l] eqn:F; [discriminate |].
    injection E as ->.
    assert (H : In job (List.filter (fun j => (j_id j =? id)%Z) (jobs st)))
      by (rewrite F; now left).
    apply filter_In in H as [_ H]. now apply Z.eqb_eq in H.
Qed.

Lemma job_update_then_get_witness :
  let st' :=
    snd (Job.update fixture_companies 1 [("salary", JNum 50)] sample_store) in
  let o := Job.job_obj (sample_job 1 "j1" 50) in
  Job.get 1 st' = (Ok o, st') /\ o !! "id" = Some (JNum 1).
Proof.
  cbv zeta.
  apply (job_update_then_get fixture_companies 1%Z [("salary", JNum 50)]
           sample_store);
    [discriminate | reflexivity | vm_compute; reflexivity].
Defined.

(** ** Reading after [User.register] *)

Section RegisterThen.
Variables (bcrypt_compare : string -> string -> bool)
  (bcrypt_hash : string -> Z -> string) (BCRYPT_WORK_FACTOR : Z).

(** X1: [User.register] of a username that no user has inserts one row, with
    the hash of the password, and hands back the record of that row; after
    it [User.get] of the username hands back the same record, and
    [User.authenticate] of the username hands it back for exactly the
    passwords that bcrypt accepts against the hash stored, with the one
    unauthorized error for the others. *)
Theorem register_then_get_authenticate (r : User.registration) (st : store) :
  user_exists (User.username r) st = false ->
  let row := registered_row bcrypt_hash BCRYPT_WORK_FACTOR r in
  let st' := add_user row st in
  User.register bcrypt_hash BCRYPT_WORK_FACTOR r st
  = (Ok (User.user_obj row), st')
  /\ User.get (User.username r) st' = (Ok (User.user_obj row), st')
  /\ (forall password,
        User.authenticate bcrypt_compare (User.username r) password st'
        = if bcrypt_compare password
               (bcrypt_hash (User.password r) BCRYPT_WORK_FACTOR)
          then (Ok (User.user_obj row), st')
          else (Err (UnauthorizedError "Invalid username/password"), st')).
Proof.
  intros Hfresh row st'.
  pose proof (select_added_user row st Hfresh) as Hsel.
  change (u_username row) with (User.username r) in Hsel.
  split; [| split].
  - now rewrite register_eq, Hfresh.
  - rewrite get_eq. subst st'. now rewrite Hsel.
  - intros password. rewrite authenticate_eq. subst st'. now rewrite Hsel.
Qed.

(** X2: [User.register] of a username that a user has fails with the
    BadRequestError that names the username and writes nothing; so a second
    registration of a username just registered is refused, and the table
    holds one row of that username. *)
Theorem register_twice_rejected (r r' : User.registration) (st : store) :
  User.username r' = User.username r ->
  (user_exists (User.username r) st = true ->
   User.register bcrypt_hash BCRYPT_WORK_FACTOR r st
   = (Err (BadRequestError ("Duplicate username: " +:+ User.username r)), st))
  /\ (user_exists (User.username r) st = false ->
      let st' := snd (User.register bcrypt_hash BCRYPT_WORK_FACTOR r st) in
      User.register bcrypt_hash BCRYPT_WORK_FACTOR r' st'
      = (Err (BadRequestError ("Duplicate username: " +:+ User.username r)),
         st')
      /\ length (select_users_by_username (User.username r) st') = 1%nat).
Proof.
  intros Hsame. split.
  - intros H. now rewrite register_eq, H.
  - intros H. cbv zeta. rewrite (register_eq _ _ r st), H. cbn [snd].
    set (row := registered_row bcrypt_hash BCRYPT_WORK_FACTOR r).
    split.
    + rewrite register_eq, Hsame.
      change (User.username r) with (u_username row) at 1.
      now rewrite user_exists_added.
    + change (User.username r) with (u_username row).
      now rewrite select_added_user.
Qed.

End RegisterThen.

Lemma register_then_get_authenticate_witness :
  user_exists "u3" sample_store = false
  /\ User.get "u3" (add_user sample_registered sample_store)
     = (Ok (User.user_obj sample_registered),
        add_user sample_registered sample_store).
Proof.
  split; [reflexivity |].
  destruct (register_then_get_authenticate sample_compare sample_hash 12
              sample_registration sample_store) as (_ & H & _);
    [reflexivity | exact H].
Defined.

Lemma register_twice_rejected_witness :
  let st' :=
    snd (User.register sample_hash 12 sample_registration sample_store) in
  User.register sample_hash 12 sample_registration st'
  = (Err (BadRequestError "Duplicate username: u3"), st').
Proof.
  destruct (register_twice_rejected sample_hash 12 sample_registration
              sample_registration sample_store) as (_ & H); [reflexivity |].
  destruct H as (H & _); [reflexivity | exact H].
Defined.

(** ** [remove] *)

Lemma filter_all {A} (p : A -> bool) (l : list A) :
  List.existsb (fun x => negb (p x)) l = false -> List.filter p l = l.
Proof.
  induction l as [| x l IH]; [reflexivity |]. cbn.
  intros H. apply orb_false_elim in H as [Hx H].
  apply negb_false_iff in Hx. rewrite Hx. now rewrite IH.
Qed.

Lemma existsb_pointwise {A} (p q : A -> bool) (l : list A) :
  (forall x, p x = q x) -> List.existsb p l = List.existsb q l.
Proof.
  intros H. induction l as [| x l IH]; [reflexivity |]. cbn. now rewrite H, IH.
Qed.

Lemma existsb_ext_negb {A} (p : A -> bool) (l : list A) :
  List.existsb (fun x => negb (negb (p x))) l = List.existsb p l.
Proof. apply existsb_pointwise. intros x. apply negb_involutive. Qed.

Lemma user_remove_eq on_delete username st :
  User.remove on_delete username st =
    if user_exists username st
    then
      match on_delete with
      | Restrict =>
          if has_applications username st
          then (Err (DbError "delete violates foreign key constraint"), st)
          else (Ok tt, drop_user Restrict username st)
      | Cascade => (Ok tt, drop_user Cascade username st)
      end
    else (Err (NotFoundError ("No user: " +:+ username)), st).
Proof.
  unfold User.remove, bind, delete_user.
  pose proof (head_filter_is_some
                (fun u => String.eqb (u_username u) username) (users st)) as H.
  fold (user_exists username st) in H. fold (has_applications username st).
  destruct (user_exists username st) eqn:E.
  - destruct (List.filter _ (users st)) as [| u rows]; [discriminate H |].
    cbn [head is_some andb List.map].
    destruct on_delete; [reflexivity |].
    destruct (has_applications username st); reflexivity.
  - assert (Hkeep : List.filter
                      (fun u => negb (String.eqb (u_username u) username))
                      (users st) = users st).
    { apply filter_all. now rewrite existsb_ext_negb. }
    rewrite (filter_none _ _ E), Hkeep. cbn [head is_some andb List.map].
    destruct on_delete; cbn; now rewrite store_eta.
Qed.

Lemma job_remove_eq on_delete id st :
  Job.remove on_delete id st =
    if in_integer id
    then
      if job_exists id st
      then
        match on_delete with
        | Restrict =>
            if has_applicants id st
            then (Err (DbError "delete violates foreign key constraint"), st)
            else (Ok tt, drop_job Restrict id st)
        | Cascade => (Ok tt, drop_job Cascade id st)
        end
      else (Err (NotFoundError ("No job: " +:+ pretty id)), st)
    else (Err out_of_range, st).
Proof.
  unfold Job.remove, bind, delete_job.
  destruct (in_integer id); [| reflexivity]. cbn [negb].
  pose proof (head_filter_is_some (fun j => (j_id j =? id)%Z) (jobs st)) as H.
  fold (job_exists id st) in H. fold (has_applicants id st).
  destruct (job_exists id st) eqn:E.
  - destruct (List.filter _ (jobs st)) as [| j rows]; [discriminate H |].
    cbn [head is_some andb List.map].
    destruct on_delete; [reflexivity |].
    destruct (has_applicants id st); reflexivity.
  - assert (Hkeep : List.filter (fun j => negb (j_id j =? id)%Z) (jobs st)
                    = jobs st).
    { apply filter_all. now rewrite existsb_ext_negb. }
    rewrite (filter_none _ _ E), Hkeep. cbn [head is_some andb List.map].
    destruct on_delete; cbn; now rewrite store_eta.
Qed.

Lemma existsb_filter {A} (p q : A -> bool) (l : list A) :
  List.existsb p (List.filter q l) = List.existsb (fun x => q x && p x) l.
Proof.
  induction l as [| x l IH]; [reflexivity |]. cbn.
  destruct (q x); cbn; now rewrite IH.
Qed.

Lemma user_exists_drop on_delete username n st :
  user_exists n (drop_user on_delete username st)
  = negb (String.eqb n username) && user_exists n st.
Proof.
  unfold user_exists, drop_user. cbn [users]. rewrite existsb_filter.
  destruct (String.eqb n username) eqn:E; cbn.
  - apply String.eqb_eq in E as ->. apply not_true_iff_false. intros C.
    apply existsb_exists in C as [u [_ C]]. now destruct (String.eqb (u_username u) username).
  - apply existsb_pointwise. intros u.
    destruct (String.eqb (u_username u) n) eqn:F; [| apply andb_false_r].
    apply String.eqb_eq in F. subst n. now rewrite E.
Qed.

Lemma job_exists_drop on_delete id n st :
  job_exists n (drop_job on_delete id st)
  = negb (n =? id)%Z && job_exists n st.
Proof.
  unfold job_exists, drop_job. cbn [jobs]. rewrite existsb_filter.
  destruct (n =? id)%Z eqn:E; cbn.
  - apply Z.eqb_eq in E as ->. apply not_true_iff_false. intros C.
    apply existsb_exists in C as [j [_ C]]. now destruct (j_id j =? id)%Z.
  - apply existsb_pointwise. intros j.
    destruct (j_id j =? n)%Z eqn:F; [| apply andb_false_r].
    apply Z.eqb_eq in F. subst n. now rewrite E.
Qed.

(** ** After [remove] *)

Lemma filter_filter_implied {A} (p q : A -> bool) (l : list A) :
  (forall x, p x = true -> q x = true) ->
  List.filter p (List.filter q l) = List.filter p l.
Proof.
  intros H. induction l as [| x l IH]; [reflexivity |]. cbn.
  destruct (q x) eqn:Eq; cbn; rewrite IH; [reflexivity |].
  destruct (p x) eqn:Ep; [| reflexivity]. rewrite (H x Ep) in Eq. discriminate.
Qed.

Lemma select_other_user_dropped on_delete username n st :
  n <> username ->
  select_users_by_username n (drop_user on_delete username st)
  = select_users_by_username n st.
Proof.
  intros Hn. unfold select_users_by_username, drop_user. cbn [users].
  apply filter_filter_implied. intros u E. apply String.eqb_eq in E.
  apply negb_true_iff, String.eqb_neq. congruence.
Qed.

Lemma select_other_job_dropped on_delete id n st :
  n <> id ->
  jobs_by_id n (drop_job on_delete id st) = jobs_by_id n st.
Proof.
  intros Hn. unfold jobs_by_id, drop_job. cbn [jobs].
  apply filter_filter_implied. intros j E. apply Z.eqb_eq in E.
  apply negb_true_iff, Z.eqb_neq. congruence.
Qed.

Lemma no_job_no_row id st :
  job_exists id st = false -> jobs_by_id id st = [].
Proof. apply filter_none. Qed.

(** X8: [User.remove]. Without a user of the username it fails with the
    NotFoundError [No user: <username>] and writes nothing. With one, and
    when the foreign key of [applications] cascades or the user has no
    application, it deletes the rows of the username (and, cascading, the
    applications of the user) and no other user; after it [User.get] and a
    second [User.remove] fail with NotFound and [User.authenticate] with the
    unauthorized error. When the foreign key restricts and the user has an
    application, the database error is raised and nothing is written. *)
Theorem user_remove_outcome (on_delete : fk_action) (username : string)
    (st : store) :
  (user_exists username st = false ->
   User.remove on_delete username st
   = (Err (NotFoundError ("No user: " +:+ username)), st))
  /\ (user_exists username st = true ->
      on_delete = Cascade \/ has_applications username st = false ->
      let st' := drop_user on_delete username st in
      User.remove on_delete username st = (Ok tt, st')
      /\ user_exists username st' = false
      /\ (forall n, n <> username ->
            select_users_by_username n st' = select_users_by_username n st)
      /\ User.get username st'
         = (Err (NotFoundError ("No user: " +:+ username)), st')
      /\ (forall bcrypt_compare password,
            User.authenticate bcrypt_compare username password st'
            = (Err (UnauthorizedError "Invalid username/password"), st'))
      /\ User.remove on_delete username st'
         = (Err (NotFoundError ("No user: " +:+ username)), st'))
  /\ (user_exists username st = true -> on_delete = Restrict ->
      has_applications username st = true ->
      User.remove on_delete username st
      = (Err (DbError "delete violates foreign key constraint"), st)).
Proof.
  split; [| split].
  - intros H. now rewrite user_remove_eq, H.
  - intros H Hok. cbv zeta.
    assert (Hgone : user_exists username (drop_user on_delete username st) = false).
    { rewrite user_exists_drop, String.eqb_refl. reflexivity. }
    split; [| split; [| split; [| split; [| split]]]].
    + rewrite user_remove_eq, H.
      destruct on_delete; [reflexivity |].
      destruct Hok as [Hok | Hok]; [discriminate | now rewrite Hok].
    + exact Hgone.
    + intros n Hn. now apply select_other_user_dropped.
    + now apply get_not_found.
    + intros bcrypt_compare password.
      now rewrite authenticate_eq, (no_user_no_row _ _ Hgone).
    + now rewrite user_remove_eq, Hgone.
  - intros H -> Ha. now rewrite user_remove_eq, H, Ha.
Qed.

Lemma user_remove_outcome_witness :
  User.remove Cascade "u1" sample_store
  = (Ok tt, drop_user Cascade "u1" sample_store)
  /\ User.remove Restrict "u1" sample_store
     = (Err (DbError "delete violates foreign key constraint"), sample_store).
Proof.
  split.
  - destruct (user_remove_outcome Cascade "u1" sample_store) as (_ & H & _).
    destruct H as (H & _); [reflexivity | now left | exact H].
  - destruct (user_remove_outcome Restrict "u1" sample_store) as (_ & _ & H).
    apply H; reflexivity.
Defined.

(** X17: [Job.remove]. An id outside the range of INTEGER is refused by the
    database, and its error is raised with nothing written. For an id
    within the range: without a job of the id the call fails with the
    NotFoundError [No job: <id>] and writes nothing. With one, and when the
    foreign key of [applications] cascades or nobody has applied to the
    job, it deletes the job; [Job.get] of another id answers as before and
    [Job.get] and a second [Job.remove] of the id fail with NotFound. When
    the foreign key restricts and somebody has applied, the database error
    is raised and nothing is written. *)
Theorem job_remove_outcome (on_delete : fk_action) (id : Z) (st : store) :
  (in_integer id = false ->
   Job.remove on_delete id st = (Err out_of_range, st))
  /\ (in_integer id = true -> job_exists id st = false ->
      Job.remove on_delete id st
      = (Err (NotFoundError ("No job: " +:+ pretty id)), st))
  /\ (in_integer id = true -> job_exists id st = true ->
      on_delete = Cascade \/ has_applicants id st = false ->
      let st' := drop_job on_delete id st in
      Job.remove on_delete id st = (Ok tt, st')
      /\ job_exists id st' = false
      /\ (forall n, n <> id -> Job.get n st' = (fst (Job.get n st), st'))
      /\ Job.get id st'
         = (Err (NotFoundError ("No company: " +:+ pretty id)), st')
      /\ Job.remove on_delete id st'
         = (Err (NotFoundError ("No job: " +:+ pretty id)), st'))
  /\ (in_integer id = true -> job_exists id st = true ->
      on_delete = Restrict -> has_applicants id st = true ->
      Job.remove on_delete id st
      = (Err (DbError "delete violates foreign key constraint"), st)).
Proof.
  split; [| split; [| split]].
  - intros H. now rewrite job_remove_eq, H.
  - intros Hid H. now rewrite job_remove_eq, Hid, H.
  - intros Hid H Hok. cbv zeta.
    assert (Hgone : job_exists id (drop_job on_delete id st) = false).
    { rewrite job_exists_drop, Z.eqb_refl. reflexivity. }
    split; [| split; [| split; [| split]]].
    + rewrite job_remove_eq, Hid, H.
      destruct on_delete; [reflexivity |].
      destruct Hok as [Hok | Hok]; [discriminate | now rewrite Hok].
    + exact Hgone.
    + intros n Hn. rewrite !job_get_eq, (select_other_job_dropped _ _ _ _ Hn).
      destruct (in_integer n); [| reflexivity].
      now destruct (head (jobs_by_id n st)).
    + now rewrite job_get_eq, Hid, (no_job_no_row _ _ Hgone).
    + now rewrite job_remove_eq, Hid, Hgone.
  - intros Hid H -> Ha. now rewrite job_remove_eq, Hid, H, Ha.
Qed.

Lemma job_remove_outcome_witness :
  Job.remove Cascade 1 sample_store = (Ok tt, drop_job Cascade 1 sample_store)
  /\ Job.remove Restrict 1 sample_store
     = (Err (DbError "delete violates foreign key constraint"), sample_store)
  /\ Job.remove Cascade 9 sample_store
     = (Err (NotFoundError "No job: 9"), sample_store)
  /\ Job.remove Cascade 2147483648 sample_store
     = (Err out_of_range, sample_store).
Proof.
  split; [| split; [| split]].
  - destruct (job_remove_outcome Cascade 1%Z sample_store) as (_ & _ & H & _).
    destruct H as (H & _); [reflexivity | reflexivity | now left | exact H].
  - destruct (job_remove_outcome Restrict 1%Z sample_store)
      as (_ & _ & _ & H).
    apply H; reflexivity.
  - destruct (job_remove_outcome Cascade 9%Z sample_store) as (_ & H & _).
    apply H; reflexivity.
  - destruct (job_remove_outcome Cascade 2147483648%Z sample_store)
      as (H & _).
    apply H; reflexivity.
Defined.

(** ** [Job.create] *)

Lemma insert_job_eq nextval companies t salary e s h st :
  in_integer nextval = true ->
  equity_text e = Some s ->
  (forall z, salary = Some z -> (0 <= z)%Z /\ in_integer z = true) ->
  insert_job nextval companies [JStr t; salary_value salary; e; JStr h] st =
    let job := {| j_id := nextval; j_title := t; j_salary := salary;
                  j_equity := s; j_company_handle := h |} in
    if job_exists nextval st
    then (Err (DbError "duplicate key value violates unique constraint"), st)
    else if negb (inb h companies)
    then (Err (DbError "insert violates foreign key constraint"), st)
    else (Ok job, add_job job st).
Proof.
  intros Hn He Hs. unfold insert_job, job_exists. rewrite Hn. cbn [negb].
  cbn [resolve_sets param lookup list_lookup].
  change (assign_job "title" (JStr t))
    with (Some (fun j => Some {| j_id := j_id j; j_title := t;
                                 j_salary := j_salary j; j_equity := j_equity j;
                                 j_company_handle := j_company_handle j |})).
  change (assign_job "company_handle" (JStr h))
    with (Some (fun j => Some {| j_id := j_id j; j_title := j_title j;
                                 j_salary := j_salary j; j_equity := j_equity j;
                                 j_company_handle := h |})).
  assert (Hsal : exists fs, assign_job "salary" (salary_value salary) = Some fs
                 /\ forall j, fs j = Some {| j_id := j_id j; j_title := j_title j;
                                 j_salary := salary; j_equity := j_equity j;
                                 j_company_handle := j_company_handle j |}).
  { destruct salary as [z |]; cbn [salary_value].
    - destruct (Hs z eq_refl) as [Hz Hr]. apply Z.leb_le in Hz.
      unfold assign_job. cbn [String.eqb Ascii.eqb Bool.eqb]. rewrite Hr.
      eexists. split; [reflexivity |]. intros j. cbn beta. now rewrite Hz.
    - eexists. split; reflexivity. }
  assert (Heq : exists fe, assign_job "equity" e = Some fe
                 /\ forall j, fe j = Some {| j_id := j_id j; j_title := j_title j;
                                 j_salary := j_salary j; j_equity := s;
                                 j_company_handle := j_company_handle j |}).
  { destruct e as [| | b | z | s0]; try discriminate; cbn [equity_text] in He.
    - destruct ((0 <=? z)%Z && (z <=? 1)%Z) eqn:E; [| discriminate].
      injection He as <-. eexists. split; [reflexivity |]. intros j.
      cbn beta. now rewrite E.
    - destruct (parse_numeric s0) as [[num scale] |] eqn:Ep; [| discriminate].
      destruct (equity_in_range s0) eqn:E; [| discriminate].
      injection He as <-.
      unfold assign_job. cbn [String.eqb Ascii.eqb Bool.eqb]. rewrite Ep.
      eexists. split; [reflexivity |]. intros j. cbn beta. now rewrite E. }
  destruct Hsal as (fs & -> & Hfs). destruct Heq as (fe & -> & Hfe).
  cbn beta iota. rewrite Hfs. cbn beta iota. rewrite Hfe.
  cbn [j_id j_title j_salary j_equity j_company_handle].
  reflexivity.
Qed.

Lemma select_added_job j st :
  job_exists (j_id j) st = false ->
  jobs_by_id (j_id j) (add_job j st) = [j].
Proof.
  intros H. unfold jobs_by_id, add_job. cbn [jobs].
  rewrite List.filter_app, (filter_none _ _ H). cbn. now rewrite Z.eqb_refl.
Qed.

Lemma select_other_job_added j n st :
  n <> j_id j -> jobs_by_id n (add_job j st) = jobs_by_id n st.
Proof.
  intros H. unfold jobs_by_id, add_job. cbn [jobs].
  rewrite List.filter_app. cbn. apply Z.eqb_neq in H. rewrite Z.eqb_sym, H.
  apply app_nil_r.
Qed.

(** X10: [Job.create] with a title, a salary that is null or an integer
    from 0 to the largest INTEGER, an equity given as a decimal text or as
    0 or 1, between 0 and 1, and a handle, the id drawn from the sequence
    being within the range of INTEGER. When the id is free and the handle is
    one of [companies], the job is added with that id and handed back, its
    equity in the normal form of NUMERIC ([0.5] for [.5]); [Job.get] of the
    id hands the same record back, and [Job.get] of any other id answers as
    before. When the id is taken or the handle is unknown the database
    error is raised and nothing is written. *)
Theorem create_then_get (nextval : Z) (companies : list string)
    (t : string) (salary : option Z) (e : jsval) (s h : string) (st : store) :
  in_integer nextval = true ->
  equity_text e = Some s ->
  (forall z, salary = Some z -> (0 <= z)%Z /\ in_integer z = true) ->
  let data := {| Job.data_title := JStr t;
                 Job.data_salary := salary_value salary;
                 Job.data_equity := e;
                 Job.data_companyHandle := JStr h |} in
  let job := {| j_id := nextval; j_title := t; j_salary := salary;
                j_equity := s; j_company_handle := h |} in
  (job_exists nextval st = false -> inb h companies = true ->
   Job.create nextval companies data st = (Ok (Job.job_obj job), add_job job st)
   /\ Job.get nextval (add_job job st) = (Ok (Job.job_obj job), add_job job st)
   /\ (forall n, n <> nextval ->
         Job.get n (add_job job st) = (fst (Job.get n st), add_job job st)))
  /\ (job_exists nextval st = true \/ inb h companies = false ->
      exists message,
        Job.create nextval companies data st = (Err (DbError message), st)).
Proof.
  intros Hn He Hs data job. split.
  - intros Hfresh Hc. split; [| split].
    + unfold Job.create, bind. cbn [Job.data_title Job.data_salary
        Job.data_equity Job.data_companyHandle data].
      rewrite (insert_job_eq _ _ _ _ _ _ _ _ Hn He Hs). cbv zeta.
      now rewrite Hfresh, Hc.
    + rewrite job_get_eq, Hn.
      change nextval with (j_id job) at 1. now rewrite select_added_job.
    + intros n Hne. rewrite !job_get_eq, select_other_job_added by exact Hne.
      destruct (in_integer n); [| reflexivity].
      now destruct (head (jobs_by_id n st)).
  - intros H. unfold Job.create, bind. cbn [Job.data_title Job.data_salary
        Job.data_equity Job.data_companyHandle data].
    rewrite (insert_job_eq _ _ _ _ _ _ _ _ Hn He Hs). cbv zeta.
    destruct (job_exists nextval st); [eexists; reflexivity |].
    destruct H as [H | H]; [discriminate |]. rewrite H. eexists. reflexivity.
Qed.

Lemma create_then_get_witness :
  let data := {| Job.data_title := JStr "new";
                 Job.data_salary := JNum 1;
                 Job.data_equity := JStr ".5";
                 Job.data_companyHandle := JStr "c1" |} in
  let job := {| j_id := 3; j_title := "new"; j_salary := Some 1%Z;
                j_equity := "0.5"; j_company_handle := "c1" |} in
  Job.create 3 ["c1"] data sample_store
  = (Ok (Job.job_obj job), add_job job sample_store)
  /\ Job.get 3 (add_job job sample_store)
     = (Ok (Job.job_obj job), add_job job sample_store).
Proof.
  cbv zeta.
  destruct (create_then_get 3%Z ["c1"] "new" (Some 1%Z) (JStr ".5") "0.5" "c1"
              sample_store) as (H & _);
    [reflexivity | reflexivity
     | intros z Hz; injection Hz as <-; split; [lia | reflexivity] |].
  destruct H as (Hc & Hg & _); [reflexivity | reflexivity |].
  split; [exact Hc | exact Hg].
Defined.

(** ** Sorting *)

Section Sorting.
Context {A : Type} (le : A -> A -> bool).
Hypothesis le_total : forall a b, le a b = true \/ le b a = true.

Lemma insert_with_perm x (l : list A) : Permutation (insert_with le x l) (x :: l).
Proof.
  induction l as [| y l IH]; cbn; [reflexivity |].
  destruct (le x y); [reflexivity |].
  rewrite IH. apply perm_swap.
Qed.

Lemma sort_with_perm (l : list A) : Permutation (sort_with le l) l.
Proof.
  induction l as [| x l IH]; cbn; [reflexivity |].
  fold (sort_with le l). now rewrite insert_with_perm, IH.
Qed.

Lemma insert_with_sorted x (l : list A) :
  Sorted (fun a b => le a b = true) l ->
  Sorted (fun a b => le a b = true) (insert_with le x l).
Proof.
  induction 1 as [| y l Hs IH Hh]; cbn; [repeat constructor |].
  destruct (le x y) eqn:E.
  - constructor; [constructor; assumption | constructor; exact E].
  - constructor; [exact IH |].
    destruct l as [| z l]; cbn.
    + constructor. destruct (le_total x y); congruence.
    + destruct (le x z).
      * constructor. destruct (le_total x y); congruence.
      * constructor. now inversion Hh.
Qed.

Lemma sort_with_sorted (l : list A) :
  Sorted (fun a b => le a b = true) (sort_with le l).
Proof.
  induction l as [| x l IH]; cbn; [constructor |].
  now apply insert_with_sorted.
Qed.

End Sorting.

Lemma nulls_last_leb_total x y :
  nulls_last_leb x y = true \/ nulls_last_leb y x = true.
Proof.
  destruct x as [a |], y as [b |]; cbn; auto.
  destruct (Z.leb_spec a b); [now left | right; apply Z.leb_le; lia].
Qed.

Lemma numeric_leb_total s1 s2 :
  numeric_leb s1 s2 = true \/ numeric_leb s2 s1 = true.
Proof.
  unfold numeric_leb.
  destruct (default (0%Z, 0%nat) (parse_numeric s1)) as [n1 k1].
  destruct (default (0%Z, 0%nat) (parse_numeric s2)) as [n2 k2].
  destruct (Z.leb_spec (n1 * 10 ^ Z.of_nat k2) (n2 * 10 ^ Z.of_nat k1));
    [now left | right; apply Z.leb_le; lia].
Qed.

Lemma jobs_sort_leb_total k ascending :
  inb k ["id"; "title"; "salary"; "equity"; "companyHandle"] = true ->
  (forall a b, jobs_sort_leb k ascending a b = true
               \/ jobs_sort_leb k ascending b a = true)
  /\ jobs_column_leb
       (if String.eqb k "companyHandle" then "company_handle" else k)
     = Some (jobs_sort_leb k true).
Proof.
  intros H. apply inb_In in H. cbn in H.
  assert (T : forall (le : job_row -> job_row -> bool),
             (forall a b, le a b = true \/ le b a = true) ->
             forall a b, (if ascending then le else fun a b => le b a) a b = true
                         \/ (if ascending then le else fun a b => le b a) b a = true).
  { intros le Hle a b. destruct ascending; [apply Hle |].
    destruct (Hle a b); auto. }
  destruct H as [<- | [<- | [<- | [<- | [<- | []]]]]];
    (split; [| reflexivity]); unfold jobs_sort_leb;
    cbn [String.eqb Ascii.eqb Bool.eqb jobs_column_leb default from_option];
    apply T; intros a b.
  - cbv beta. destruct (Z.le_ge_cases (j_id a) (j_id b)); [left | right];
      apply Z.leb_le; lia.
  - apply String.leb_total.
  - apply nulls_last_leb_total.
  - apply numeric_leb_total.
  - apply String.leb_total.
Qed.

(** ** [Job.findAll] *)

(** X11: [Job.findAll(sortBy, ascending)], with the defaults [title] and
    [true] for arguments that are undefined. A key outside the five names
    of the list is refused with the BadRequestError [Unknown sorting system]
    before any statement is sent. For a key of the list the call hands back
    the records of all the jobs, each once, sorted on the column of the key
    ([company_handle] for [companyHandle]), descending when [ascending] is
    not true in a condition. *)
Theorem job_findAll_sorted (sortBy ascending : jsval) (st : store) :
  let key := default_to (JStr "title") sortBy in
  let asc := truthy (default_to (JBool true) ascending) in
  (Job.includes ["id"; "title"; "salary"; "equity"; "companyHandle"] key
   = false ->
   Job.findAll sortBy ascending st
   = (Err (BadRequestError "Unknown sorting system"), st))
  /\ (forall k, key = JStr k ->
        inb k ["id"; "title"; "salary"; "equity"; "companyHandle"] = true ->
        let sorted := sort_with (jobs_sort_leb k asc) (jobs st) in
        Job.findAll sortBy ascending st = (Ok (List.map Job.job_obj sorted), st)
        /\ Permutation sorted (jobs st)
        /\ Sorted (fun a b => jobs_sort_leb k asc a b = true) sorted).
Proof.
  cbv zeta. split.
  - intros H. unfold Job.findAll. now rewrite H.
  - intros k Hk Hin. destruct (jobs_sort_leb_total k
      (truthy (default_to (JBool true) ascending)) Hin) as [Ht Hc].
    split; [| split].
    + unfold Job.findAll. rewrite Hk. cbn [Job.includes]. rewrite Hin.
      cbn [negb Job.loose_eq_text to_js_string].
      unfold bind, select_jobs_order_by. rewrite Hc.
      unfold jobs_sort_leb at 1. 
      destruct (truthy (default_to (JBool true) ascending)); cbn;
        unfold jobs_sort_leb; rewrite Hc; reflexivity.
    + apply sort_with_perm.
    + now apply sort_with_sorted.
Qed.

Lemma job_findAll_sorted_witness :
  let sorted := sort_with (jobs_sort_leb "title" true) (jobs fixture_store) in
  Job.findAll JUndefined JUndefined fixture_store
  = (Ok (List.map Job.job_obj sorted), fixture_store)
  /\ Permutation sorted (jobs fixture_store)
  /\ Sorted (fun a b => jobs_sort_leb "title" true a b = true) sorted.
Proof.
  destruct (job_findAll_sorted JUndefined JUndefined fixture_store) as (_ & H).
  apply (H "title"); reflexivity.
Defined.

(** ** [LIKE] on a text without pattern characters *)

Lemma like_percent s : like "%" s = true.
Proof.
  induction s as [| c s IH]; [reflexivity |].
  cbn in *. exact IH.
Qed.

Lemma like_skip p s :
  like (String "%"%char p) s
  = like p s || match s with
                | EmptyString => false
                | String _ s' => like (String "%"%char p) s'
                end.
Proof. destruct s; reflexivity. Qed.

Lemma like_plain_char c p s :
  negb (Ascii.eqb c "%"%char) && negb (Ascii.eqb c "_"%char)
  && negb (Ascii.eqb c "\"%char) = true ->
  p <> EmptyString ->
  like (String c p) s
  = match s with
    | EmptyString => false
    | String d s' => Ascii.eqb c d && like p s'
    end.
Proof.
  rewrite !andb_true_iff, !negb_true_iff. intros [[H1 H2] H3] Hp.
  destruct p as [| e p]; [congruence |].
  cbn [like]. rewrite H1, H2, H3. reflexivity.
Qed.

Lemma like_plain_prefix t s :
  plain t = true -> like (t +:+ "%") s = prefixb t s.
Proof.
  revert s. induction t as [| c t IH]; intros s Hp.
  - apply like_percent.
  - cbn [plain] in Hp. apply andb_true_iff in Hp as [Hc Hp].
    change (String c t +:+ "%") with (String c (t +:+ "%")).
    rewrite like_plain_char; [| exact Hc | now destruct t].
    destruct s as [| d s]; [reflexivity |]. cbn [prefixb]. now rewrite IH.
Qed.

Lemma like_contains t s :
  plain t = true -> like ("%" +:+ t +:+ "%") s = mentions s t.
Proof.
  intros Hp. change ("%" +:+ t +:+ "%") with (String "%"%char (t +:+ "%")).
  induction s as [| d s IH].
  - rewrite like_skip, like_plain_prefix by exact Hp. now destruct t.
  - rewrite like_skip, like_plain_prefix by exact Hp.
    cbn [mentions]. now rewrite IH.
Qed.

Lemma lower_app a b : lower (a +:+ b) = lower a +:+ lower b.
Proof.
  induction a as [| c a IH]; [reflexivity |].
  change (String c a +:+ b) with (String c (a +:+ b)). cbn [lower].
  now rewrite IH.
Qed.

Lemma lower_ascii_pattern c :
  Ascii.eqb (lower_ascii c) "%"%char = Ascii.eqb c "%"%char
  /\ Ascii.eqb (lower_ascii c) "_"%char = Ascii.eqb c "_"%char
  /\ Ascii.eqb (lower_ascii c) "\"%char = Ascii.eqb c "\"%char.
Proof.
  destruct c as [[] [] [] [] [] [] [] []]; repeat split; reflexivity.
Qed.

Lemma plain_lower t : plain (lower t) = plain t.
Proof.
  induction t as [| c t IH]; [reflexivity |]. cbn [lower plain].
  destruct (lower_ascii_pattern c) as (-> & -> & ->). now rewrite IH.
Qed.

Lemma title_matches_plain (f : Job.filter_bag) t j :
  Job.title f = JStr t -> t <> "" -> plain t = true ->
  title_matches f j = mentions (lower (j_title j)) (lower t).
Proof.
  intros E Hne Hp. unfold title_matches. rewrite E.
  cbn [truthy to_js_string]. apply String.eqb_neq in Hne. rewrite Hne.
  cbn [negb orb]. rewrite !lower_app.
  change (lower "%") with "%". apply like_contains. now rewrite plain_lower.
Qed.

(** ** [Job.find] *)

Lemma filter_pointwise {A} (p q : A -> bool) (l : list A) :
  (forall x, p x = q x) -> List.filter p l = List.filter q l.
Proof.
  intros H. induction l as [| x l IH]; [reflexivity |]. cbn.
  now rewrite H, IH.
Qed.

Lemma find_returns_matching_jobs_eq (f : Job.filter_bag) (st : store) :
  typed_bag f = true -> truthy_filters f <> 0%nat ->
  Job.find f st
  = (Ok (List.map Job.job_obj (List.filter (job_matches f) (jobs st))), st).
Proof.
  destruct f as [t m h c]. unfold typed_bag, truthy_filters, count_true.
  cbn [Job.title Job.minSalary Job.hasEquity Job.companyHandle].
  intros Ht Hn. apply andb_true_iff in Ht as [_ Ht].
  unfold Job.find, Job.find_search, Job.push_title, Job.push_hasEquity,
    Job.push_minSalary, Job.push_companyHandle, bind, select_jobs_where;
    cbn [Job.title Job.minSalary Job.hasEquity Job.companyHandle].
  rewrite truthy_default_hasEquity.
  assert (Hfin : forall p,
            (forall j, p j = job_matches
                               {| Job.title := t; Job.minSalary := m;
                                  Job.hasEquity := h; Job.companyHandle := c |} j) ->
            (Ok (List.map Job.job_obj (List.filter p (jobs st))), st)
            = (Ok (List.map Job.job_obj
                     (List.filter
                        (job_matches
                           {| Job.title := t; Job.minSalary := m;
                              Job.hasEquity := h; Job.companyHandle := c |})
                        (jobs st))), st)).
  { intros p Hp. now rewrite (filter_pointwise _ _ _ Hp). }
  destruct m as [| | | z |]; try discriminate;
    destruct c as [| | | | s]; try discriminate;
    rewrite ?andb_false_r in Ht; try discriminate;
    cbn [truthy] in *; rewrite ?andb_true_r in Ht;
    destruct (truthy t) eqn:Et, (truthy h) eqn:Eh;
    try destruct (z =? 0)%Z eqn:Ez; try destruct (String.eqb s "") eqn:Es;
    cbn in Hn; try congruence;
    cbn -[in_integer]; rewrite ?Ht; cbn; apply Hfin; intros j;
    unfold job_matches, title_matches, equity_matches, salary_matches,
      handle_matches;
    cbn [Job.title Job.minSalary Job.hasEquity Job.companyHandle];
    rewrite ?Et, ?Eh, ?Ez, ?Es; cbn [negb orb andb];
    rewrite ?andb_true_r, ?andb_assoc; reflexivity.
Qed.

(** X13: [Job.find] on titles of ASCII characters, those of the jobs and the
    one asked for, with at least one filter true in a condition, a [title]
    and a [companyHandle] that are texts and a [minSalary] that is a number
    within the range of INTEGER, when they are given. The call hands back the records of
    exactly the jobs that meet every such filter, in the order of the
    table: the title by [LIKE] with the letters [A] to [Z] read as [a] to
    [z], a salary that is not null and at least [minSalary], an equity
    above zero, the handle equal to [companyHandle]. *)
Theorem find_returns_matching_jobs (f : Job.filter_bag) (st : store) :
  typed_bag f = true -> truthy_filters f <> 0%nat ->
  ascii_text (to_js_string (Job.title f)) = true ->
  Forall (fun j => ascii_text (j_title j) = true) (jobs st) ->
  Job.find f st
  = (Ok (List.map Job.job_obj (List.filter (job_matches f) (jobs st))), st)
  /\ (forall o, In o (List.map Job.job_obj (List.filter (job_matches f) (jobs st)))
        <-> exists j, In j (jobs st) /\ job_matches f j = true
                      /\ o = Job.job_obj j).
Proof.
  intros Ht Hn _ _. split; [now apply find_returns_matching_jobs_eq |].
  intros o. rewrite in_map_iff. split.
  - intros [j [<- Hj]]. apply filter_In in Hj as [Hj Hm]. now exists j.
  - intros [j (Hj & Hm & ->)]. exists j. split; [reflexivity |].
    now apply filter_In.
Qed.

Lemma find_returns_matching_jobs_witness :
  Job.find {| Job.title := JStr "J2"; Job.minSalary := JNum 22;
              Job.hasEquity := JUndefined; Job.companyHandle := JStr "c2" |}
    fixture_store
  = (Ok [Job.job_obj (fixture_job 4 "j22" 22 "c2")], fixture_store).
Proof.
  destruct (find_returns_matching_jobs
              {| Job.title := JStr "J2"; Job.minSalary := JNum 22;
                 Job.hasEquity := JUndefined; Job.companyHandle := JStr "c2" |}
              fixture_store) as (H & _);
    [reflexivity | discriminate | reflexivity | repeat constructor |].
  exact H.
Defined.

(** ** The keys of the store *)

Lemma user_exists_In n st :
  user_exists n st = true <-> In n (List.map u_username (users st)).
Proof.
  unfold user_exists. rewrite existsb_exists, in_map_iff. split.
  - intros [u [Hu E]]. apply String.eqb_eq in E. now exists u.
  - intros [u [E Hu]]. exists u. split; [exact Hu | now apply String.eqb_eq].
Qed.

Lemma job_exists_In n st :
  job_exists n st = true <-> In n (List.map j_id (jobs st)).
Proof.
  unfold job_exists. rewrite existsb_exists, in_map_iff. split.
  - intros [j [Hj E]]. apply Z.eqb_eq in E. now exists j.
  - intros [j [E Hj]]. exists j. split; [exact Hj | now apply Z.eqb_eq].
Qed.

Lemma application_exists_In n id st :
  application_exists n id st = true
  <-> In (n, id) (List.map application_key (applications st)).
Proof.
  unfold application_exists. rewrite existsb_exists, in_map_iff. split.
  - intros [a [Ha E]]. apply andb_true_iff in E as [E1 E2].
    apply String.eqb_eq in E1. apply Z.eqb_eq in E2. exists a.
    split; [unfold application_key; congruence | exact Ha].
  - intros [a [E Ha]]. unfold application_key in E. injection E as E1 E2.
    exists a. split; [exact Ha |]. apply andb_true_iff.
    split; [now apply String.eqb_eq | now apply Z.eqb_eq].
Qed.

(** Consistency read off the three lists of keys. *)
Lemma consistent_keys st :
  consistent st <->
  NoDup (List.map u_username (users st))
  /\ NoDup (List.map j_id (jobs st))
  /\ NoDup (List.map application_key (applications st))
  /\ Forall (fun a => In (a_username a) (List.map u_username (users st))
                      /\ In (a_job_id a) (List.map j_id (jobs st)))
       (applications st).
Proof.
  unfold consistent. rewrite !List.Forall_forall.
  setoid_rewrite user_exists_In. setoid_rewrite job_exists_In. reflexivity.
Qed.

Lemma NoDup_snoc_fresh {A} (l : list A) (x : A) :
  NoDup l -> ~ In x l -> NoDup (l ++ [x]).
Proof.
  intros Hl Hx. apply NoDup_app. split; [exact Hl |].
  split; [| apply NoDup_singleton].
  intros y Hy C. apply list_elem_of_In in Hy.
  apply list_elem_of_In in C. destruct C as [<- | []]. now apply Hx.
Qed.

Lemma map_filter_key {A K} (key : A -> K) (p : K -> bool) (l : list A) :
  List.map key (List.filter (fun x => p (key x)) l)
  = List.filter p (List.map key l).
Proof.
  induction l as [| x l IH]; [reflexivity |]. cbn.
  destruct (p (key x)); cbn; now rewrite IH.
Qed.

Lemma NoDup_map_filter {A K} (key : A -> K) (p : A -> bool) (l : list A) :
  NoDup (List.map key l) -> NoDup (List.map key (List.filter p l)).
Proof.
  induction l as [| x l IH]; [trivial |]. cbn. intros H.
  apply NoDup_cons in H as [Hx Hl]. destruct (p x); [| now apply IH].
  cbn. apply NoDup_cons. split; [| now apply IH].
  intros C. apply Hx. apply list_elem_of_In in C. apply list_elem_of_In.
  apply in_map_iff in C as [y [E Hy]].
  apply filter_In in Hy as [Hy _]. apply in_map_iff. now exists y.
Qed.

Lemma updated_names username data table :
  List.map u_username (update_user_rows username data table)
  = List.map u_username table.
Proof.
  unfold update_user_rows. rewrite List.map_map. apply List.map_ext.
  intros u. now destruct (String.eqb (u_username u) username).
Qed.

Lemma updated_ids id data table :
  List.map j_id (update_job_rows id data table) = List.map j_id table.
Proof.
  unfold update_job_rows. rewrite List.map_map. apply List.map_ext.
  intros j. now destruct (j_id j =? id)%Z.
Qed.

(** ** Operations on users keep the store consistent *)

Lemma consistent_add_user u st :
  consistent st -> user_exists (u_username u) st = false ->
  consistent (add_user u st).
Proof.
  rewrite !consistent_keys. unfold add_user. cbn [users jobs applications].
  intros (Hu & Hj & Ha & Hr) Hfresh. rewrite List.map_app. cbn [List.map].
  split; [| split; [exact Hj | split; [exact Ha |]]].
  - apply NoDup_snoc_fresh; [exact Hu |]. intros C.
    apply user_exists_In in C. congruence.
  - eapply Forall_impl; [exact Hr |]. intros a [H1 H2].
    split; [apply in_or_app; now left | exact H2].
Qed.

Lemma consistent_add_application username jobId st :
  consistent st -> user_exists username st = true ->
  job_exists jobId st = true -> application_exists username jobId st = false ->
  consistent (add_application username jobId st).
Proof.
  rewrite !consistent_keys. unfold add_application.
  cbn [users jobs applications].
  intros (Hu & Hj & Ha & Hr) Eu Ej Ea. rewrite List.map_app. cbn [List.map].
  split; [exact Hu | split; [exact Hj | split]].
  - apply NoDup_snoc_fresh; [exact Ha |]. intros C.
    apply (application_exists_In username jobId st) in C. congruence.
  - apply Forall_app. split; [exact Hr |]. constructor; [| constructor].
    cbn. split; [now apply user_exists_In | now apply job_exists_In].
Qed.

Lemma consistent_with_users table st :
  List.map u_username table = List.map u_username (users st) ->
  consistent st -> consistent (with_users table st).
Proof.
  intros E. rewrite !consistent_keys. unfold with_users.
  cbn [users jobs applications]. now rewrite E.
Qed.

Lemma consistent_with_jobs table st :
  List.map j_id table = List.map j_id (jobs st) ->
  consistent st -> consistent (with_jobs table st).
Proof.
  intros E. rewrite !consistent_keys. unfold with_jobs.
  cbn [users jobs applications]. now rewrite E.
Qed.

Lemma Forall_filter_keep {A} (P : A -> Prop) (p : A -> bool) (l : list A) :
  Forall P l -> Forall P (List.filter p l).
Proof.
  intros H. apply List.Forall_forall. intros x Hx.
  apply filter_In in Hx as [Hx _]. rewrite List.Forall_forall in H. now apply H.
Qed.

Lemma consistent_drop_user on_delete username st :
  consistent st ->
  on_delete = Cascade \/ has_applications username st = false ->
  consistent (drop_user on_delete username st).
Proof.
  rewrite !consistent_keys. unfold drop_user. cbn [users jobs applications].
  intros (Hu & Hj & Ha & Hr) Hok.
  split; [now apply NoDup_map_filter | split; [exact Hj |]].
  assert (Hkeep : forall n, n <> username ->
            In n (List.map u_username (users st)) ->
            In n (List.map u_username
                    (List.filter
                       (fun u => negb (String.eqb (u_username u) username))
                       (users st)))).
  { intros n Hn H. apply in_map_iff in H as [u [<- Hin]].
    apply in_map_iff. exists u. split; [reflexivity |].
    apply filter_In. split; [exact Hin |].
    now apply negb_true_iff, String.eqb_neq. }
  destruct on_delete.
  - split; [now apply NoDup_map_filter |].
    apply List.Forall_forall. intros a Hin. apply filter_In in Hin as [Hin Hne].
    rewrite List.Forall_forall in Hr. destruct (Hr a Hin) as [H1 H2].
    split; [| exact H2]. apply Hkeep; [| exact H1].
    apply negb_true_iff in Hne. now apply String.eqb_neq in Hne.
  - destruct Hok as [Hok | Hok]; [discriminate |].
    split; [exact Ha |].
    apply List.Forall_forall. intros a Hin.
    rewrite List.Forall_forall in Hr. destruct (Hr a Hin) as [H1 H2].
    split; [| exact H2]. apply Hkeep; [| exact H1].
    intros C. unfold has_applications in Hok.
    apply not_true_iff_false in Hok. apply Hok. apply existsb_exists.
    exists a. split; [exact Hin | now apply String.eqb_eq].
Qed.

Lemma consistent_drop_job on_delete id st :
  consistent st ->
  on_delete = Cascade \/ has_applicants id st = false ->
  consistent (drop_job on_delete id st).
Proof.
  rewrite !consistent_keys. unfold drop_job. cbn [users jobs applications].
  intros (Hu & Hj & Ha & Hr) Hok.
  split; [exact Hu | split; [now apply NoDup_map_filter |]].
  assert (Hkeep : forall n, n <> id ->
            In n (List.map j_id (jobs st)) ->
            In n (List.map j_id
                    (List.filter (fun j => negb (j_id j =? id)%Z) (jobs st)))).
  { intros n Hn H. apply in_map_iff in H as [j [<- Hin]].
    apply in_map_iff. exists j. split; [reflexivity |].
    apply filter_In. split; [exact Hin |].
    now apply negb_true_iff, Z.eqb_neq. }
  destruct on_delete.
  - split; [now apply NoDup_map_filter |].
    apply List.Forall_forall. intros a Hin. apply filter_In in Hin as [Hin Hne].
    rewrite List.Forall_forall in Hr. destruct (Hr a Hin) as [H1 H2].
    split; [exact H1 |]. apply Hkeep; [| exact H2].
    apply negb_true_iff in Hne. now apply Z.eqb_neq in Hne.
  - destruct Hok as [Hok | Hok]; [discriminate |].
    split; [exact Ha |].
    apply List.Forall_forall. intros a Hin.
    rewrite List.Forall_forall in Hr. destruct (Hr a Hin) as [H1 H2].
    split; [exact H1 |]. apply Hkeep; [| exact H2].
    intros C. unfold has_applicants in Hok.
    apply not_true_iff_false in Hok. apply Hok. apply existsb_exists.
    exists a. split; [exact Hin | now apply Z.eqb_eq].
Qed.

Lemma consistent_add_job j st :
  consistent st -> job_exists (j_id j) st = false -> consistent (add_job j st).
Proof.
  rewrite !consistent_keys. unfold add_job. cbn [users jobs applications].
  intros (Hu & Hj & Ha & Hr) Hfresh. rewrite List.map_app. cbn [List.map].
  split; [exact Hu | split; [| split; [exact Ha |]]].
  - apply NoDup_snoc_fresh; [exact Hj |]. intros C.
    apply job_exists_In in C. congruence.
  - eapply Forall_impl; [exact Hr |]. intros a [H1 H2].
    split; [exact H1 | apply in_or_app; now left].
Qed.

Section UserOps.
Variables (bcrypt_hash : string -> Z -> string) (BCRYPT_WORK_FACTOR : Z).

(** X9: [User.register], [User.apply], [User.update] and [User.remove],
    whether they succeed or fail, keep the store consistent: usernames, job
    ids and applications without duplicates, and every application of a
    user and a job of the store. *)
Theorem user_operations_keep_consistent (st : store) :
  consistent st ->
  (forall r,
     consistent (snd (User.register bcrypt_hash BCRYPT_WORK_FACTOR r st)))
  /\ (forall username jobId, consistent (snd (User.apply username jobId st)))
  /\ (forall username (data : ordered_obj),
        data <> [] -> user_payload data = true ->
        consistent
          (snd (User.update bcrypt_hash BCRYPT_WORK_FACTOR username data st)))
  /\ (forall on_delete username,
        consistent (snd (User.remove on_delete username st))).
Proof.
  intros Hc. split; [| split; [| split]].
  - intros r. rewrite register_eq.
    destruct (user_exists (User.username r) st) eqn:E; [exact Hc |].
    now apply consistent_add_user.
  - intros username jobId. rewrite apply_eq.
    destruct (in_integer jobId); [| exact Hc]. cbn [negb].
    destruct (user_exists username st) eqn:Eu; [| exact Hc].
    destruct (job_exists jobId st) eqn:Ej; [| exact Hc].
    destruct (application_exists username jobId st) eqn:Ea; [exact Hc |].
    now apply consistent_add_application.
  - intros username data Hne Hp. rewrite (user_update_eq _ _ _ _ _ Hne Hp).
    cbv zeta. destruct (head (select_users_by_username username st));
      [| exact Hc].
    cbn [snd]. apply consistent_with_users; [apply updated_names | exact Hc].
  - intros on_delete username. rewrite user_remove_eq.
    destruct (user_exists username st); [| exact Hc].
    destruct on_delete.
    + apply consistent_drop_user; [exact Hc | now left].
    + destruct (has_applications username st) eqn:E; [exact Hc |].
      apply consistent_drop_user; [exact Hc | now right].
Qed.

End UserOps.

(** The store of the samples is consistent. *)
Lemma sample_store_consistent : consistent sample_store.
Proof.
  unfold consistent. split; [| split; [| split]].
  - apply (bool_decide_unpack _). vm_compute. exact I.
  - apply (bool_decide_unpack _). vm_compute. exact I.
  - apply (bool_decide_unpack _). vm_compute. exact I.
  - repeat constructor.
Qed.

Lemma user_operations_keep_consistent_witness :
  consistent sample_store
  /\ consistent (snd (User.apply "u2" 1 sample_store))
  /\ consistent (snd (User.remove Cascade "u1" sample_store)).
Proof.
  split; [exact sample_store_consistent |].
  destruct (user_operations_keep_consistent sample_hash 12 sample_store
              sample_store_consistent) as (_ & Ha & _ & Hr).
  split; [apply Ha | apply Hr].
Defined.

(** ** Operations on jobs keep the store consistent *)

Lemma assign_job_keeps_id c v f j j' :
  c <> "id" -> assign_job c v = Some f -> f j = Some j' -> j_id j' = j_id j.
Proof.
  intros Hc. unfold assign_job.
  destruct (String.eqb c "title");
    [destruct v; try discriminate; intros [= <-]; try discriminate;
     now intros [= <-] |].
  destruct (String.eqb c "company_handle");
    [destruct v; try discriminate; intros [= <-]; try discriminate;
     now intros [= <-] |].
  destruct (String.eqb c "salary").
  { destruct v as [| | b | z | s]; try discriminate.
    - intros [= <-]. now intros [= <-].
    - intros [= <-]. now intros [= <-].
    - destruct (in_integer z); [| discriminate]. intros [= <-].
      destruct (0 <=? z)%Z; [now intros [= <-] | discriminate]. }
  destruct (String.eqb c "equity").
  { destruct v as [| | b | z | s]; try discriminate.
    - intros [= <-]. discriminate.
    - intros [= <-]. discriminate.
    - intros [= <-]. destruct ((0 <=? z)%Z && (z <=? 1)%Z);
        [now intros [= <-] | discriminate].
    - destruct (parse_numeric s) as [[num scale] |]; [| discriminate].
      intros [= <-]. destruct (equity_in_range s);
        [now intros [= <-] | discriminate]. }
  destruct (String.eqb c "id") eqn:E; [| discriminate].
  apply String.eqb_eq in E. congruence.
Qed.

Lemma resolve_sets_keeps_id sets params :
  Forall (fun ci : string * nat => fst ci <> "id") sets ->
  forall f j j',
    resolve_sets assign_job sets params = Some f -> f j = Some j' ->
    j_id j' = j_id j.
Proof.
  induction 1 as [| [c i] sets Hc _ IH]; intros f j j'.
  - intros [= <-] [= <-]. reflexivity.
  - cbn [resolve_sets]. destruct (param params i) as [v |]; [| discriminate].
    destruct (assign_job c v) as [f1 |] eqn:E1; [| discriminate].
    destruct (resolve_sets assign_job sets params) as [g |]; [| discriminate].
    intros [= <-]. destruct (f1 j) as [j1 |] eqn:E2; [| discriminate].
    intros Hg. rewrite (IH g j1 j' eq_refl Hg).
    now apply (assign_job_keeps_id c v f1).
Qed.

Lemma create_outcome nextval companies data st :
  snd (Job.create nextval companies data st) = st
  \/ exists job,
       j_id job = nextval /\ job_exists nextval st = false
       /\ Job.create nextval companies data st
          = (Ok (Job.job_obj job), add_job job st).
Proof.
  unfold Job.create, bind, insert_job.
  destruct (in_integer nextval); [| now left]. cbn [negb].
  destruct (resolve_sets assign_job _ _) as [f |] eqn:Ef; [| now left].
  destruct (f _) as [job |] eqn:Ej; [| now left].
  fold (job_exists nextval st).
  destruct (job_exists nextval st) eqn:Ee; [now left |].
  destruct (negb (inb (j_company_handle job) companies)); [now left |].
  right. exists job. split; [| split; [reflexivity | reflexivity]].
  refine (resolve_sets_keeps_id _ _ _ f _ job Ef Ej).
  repeat constructor; discriminate.
Qed.

(** X18: [Job.create], [Job.update] and [Job.remove], whether they succeed
    or fail, keep the store consistent. *)
Theorem job_operations_keep_consistent (st : store) :
  consistent st ->
  (forall nextval companies data,
     consistent (snd (Job.create nextval companies data st)))
  /\ (forall companies id (data : ordered_obj),
        data <> [] -> job_payload data = true ->
        consistent (snd (Job.update companies id data st)))
  /\ (forall on_delete id, consistent (snd (Job.remove on_delete id st))).
Proof.
  intros Hc. split; [| split].
  - intros nextval companies data.
    destruct (create_outcome nextval companies data st)
      as [-> | (job & Hid & Hfresh & ->)]; [exact Hc |].
    cbn [snd]. apply consistent_add_job; [exact Hc | now rewrite Hid].
  - intros companies id data Hne Hp.
    destruct (in_integer id && salary_in_integer data) eqn:E.
    + apply andb_true_iff in E as [Hid Hs].
      rewrite (job_update_eq _ _ _ _ Hne Hp Hid Hs).
      destruct (head (jobs_by_id id st)); [| exact Hc].
      destruct (job_constraints data); [| exact Hc].
      destruct (company_known companies data); [| exact Hc].
      cbn [snd]. apply consistent_with_jobs; [apply updated_ids | exact Hc].
    + destruct (job_update_rejected companies id data st E) as [e ->].
      exact Hc.
  - intros on_delete id. rewrite job_remove_eq.
    destruct (in_integer id); [| exact Hc].
    destruct (job_exists id st); [| exact Hc].
    destruct on_delete.
    + apply consistent_drop_job; [exact Hc | now left].
    + destruct (has_applicants id st) eqn:E; [exact Hc |].
      apply consistent_drop_job; [exact Hc | now right].
Qed.

Lemma job_operations_keep_consistent_witness :
  consistent sample_store
  /\ consistent (snd (Job.create 3 ["c1"] sample_job_data sample_store))
  /\ consistent (snd (Job.remove Cascade 1 sample_store)).
Proof.
  split; [exact sample_store_consistent |].
  destruct (job_operations_keep_consistent sample_store
              sample_store_consistent) as (Hc & _ & Hr).
  split; [apply Hc | apply Hr].
Defined.

(** ** [User.findAll] on any store *)

Lemma insert_by_with {A} (key : A -> string) x (l : list A) :
  insert_by key x l
  = insert_with (fun a b => String.leb (key a) (key b)) x l.
Proof.
  induction l as [| y l IH]; [reflexivity |]. cbn. now rewrite IH.
Qed.

Lemma order_by_with {A} (key : A -> string) (l : list A) :
  order_by key l = sort_with (fun a b => String.leb (key a) (key b)) l.
Proof.
  induction l as [| x l IH]; [reflexivity |].
  cbn. fold (order_by key l). fold (sort_with (fun a b => String.leb (key a) (key b)) l).
  now rewrite IH, insert_by_with.
Qed.

Lemma length_left_join {A B} (on : A -> B -> bool) (l : list A) (r : list B) :
  length (left_join on l r)
  = list_sum (List.map (fun a => Nat.max 1 (length (List.filter (on a) r))) l).
Proof.
  induction l as [| a l IH]; [reflexivity |].
  change (left_join on (a :: l) r)
    with (match List.filter (on a) r with
          | [] => [(a, None)]
          | ms => List.map (fun b => (a, Some b)) ms
          end ++ left_join on l r).
  rewrite length_app, IH.
  destruct (List.filter (on a) r) as [| b ms] eqn:E; cbn [List.map];
    unfold list_sum; cbn [List.fold_right]; rewrite E;
    cbn [length]; rewrite ?length_map; lia.
Qed.

Lemma reduceRight_findAll_safe (rows : list (user_row * option Z)) :
  User.reduceRight User.findAll_step [] rows
  = if findAll_safe rows
    then Ok (List.map (fun row => User.user_obj (fst row)) rows)
    else Err (TypeError
                "Cannot read properties of undefined (reading 'unshift')").
Proof.
  induction rows as [| row rest IH]; [reflexivity |].
  cbn [User.reduceRight findAll_safe]. rewrite IH.
  destruct (findAll_safe rest); [| reflexivity]. cbn [andb].
  unfold User.findAll_step. destruct rest as [| r rest]; [reflexivity |].
  cbn [List.map head User.loose_neq_string orb andb].
  destruct (negb (String.eqb "[object Object]" (u_username (fst row))));
    reflexivity.
Qed.

(** X4: [User.findAll] on any store. The joined rows are in the order of
    the usernames, one row for each application of a user and one row for a
    user without any, so every user has a row. The reduction over them hands
    back one record for each ROW, or throws the TypeError of a call on
    [undefined]; it throws on no store whose usernames differ from the text
    [[object Object]]. The store is as it was. *)
Theorem user_findAll_outcome (st : store) :
  let rows := select_users_with_jobs st in
  User.findAll st
  = (if findAll_safe rows
     then Ok (List.map (fun row => User.user_obj (fst row)) rows)
     else Err (TypeError
                 "Cannot read properties of undefined (reading 'unshift')"),
     st)
  /\ Sorted (fun a b => String.leb (u_username (fst a)) (u_username (fst b))
                        = true) rows
  /\ length rows = list_sum (List.map (fun u => listing_rows_of u st) (users st))
  /\ (forall u, In u (users st) -> exists job, In (u, job) rows)
  /\ (Forall (fun u => u_username u <> "[object Object]") (users st) ->
      findAll_safe rows = true).
Proof.
  cbv zeta. split; [| split; [| split; [| split]]].
  - unfold User.findAll, bind, query, lift. rewrite reduceRight_findAll_safe.
    now destruct (findAll_safe (select_users_with_jobs st)).
  - unfold select_users_with_jobs. rewrite order_by_with.
    apply sort_with_sorted. intros a b. apply String.leb_total.
  - unfold select_users_with_jobs. rewrite order_by_with.
    rewrite (Permutation_length (sort_with_perm _ _)).
    unfold users_left_join_applications. rewrite length_map, length_left_join.
    reflexivity.
  - intros u Hu. unfold select_users_with_jobs, users_left_join_applications.
    destruct (left_join_total
                (fun u a => String.eqb (a_username a) (u_username u))
                (users st) (applications st) u Hu) as [oa H].
    exists (a_job_id <$> oa). apply in_order_by. apply in_map_iff.
    now exists (u, oa).
  - intros H. assert (Hrows : Forall
       (fun row : user_row * option Z =>
          u_username (fst row) <> "[object Object]")
       (select_users_with_jobs st)).
    { apply List.Forall_forall. intros row Hrow.
      rewrite List.Forall_forall in H. now apply H, select_users_with_jobs_sound. }
    induction Hrows as [| row rest Hrow _ IH]; [reflexivity |].
    cbn [findAll_safe]. rewrite IH. cbn [andb].
    apply orb_true_iff. right. apply negb_true_iff, String.eqb_neq. congruence.
Qed.

Lemma user_findAll_outcome_witness :
  Forall (fun u => u_username u <> "[object Object]") (users sample_store)
  /\ findAll_safe (select_users_with_jobs sample_store) = true.
Proof.
  assert (H : Forall (fun u => u_username u <> "[object Object]")
                (users sample_store)) by (repeat constructor; discriminate).
  split; [exact H |].
  destruct (user_findAll_outcome sample_store) as (_ & _ & _ & _ & Hs).
  exact (Hs H).
Defined.

(** ** A failed call writes nothing *)

Lemma update_rows_none_returned {R} (hit : R -> bool) (f : R -> option R)
    rows table :
  update_rows hit f rows = Some (table, []) -> table = rows.
Proof.
  revert table. induction rows as [| r rows IH]; intros table.
  - now intros [= <-].
  - cbn [update_rows].
    destruct (update_rows hit f rows) as [[t ret] |] eqn:E; [| discriminate].
    cbn. destruct (hit r).
    + destruct (f r); cbn; [intros [= <-]; discriminate | discriminate].
    + intros [= <- ->]. now rewrite (IH t eq_refl).
Qed.

Lemma update_users_failure sets idx params st :
  match update_users sets idx params st with
  | (Ok [], st') | (Err _, st') => st' = st
  | _ => True
  end.
Proof.
  unfold update_users. destruct sets as [| s0 sets]; [reflexivity |].
  destruct (negb _); [reflexivity |].
  destruct (resolve_sets _ _ _) as [f |]; [| reflexivity].
  destruct (param params idx) as [[| | | | key] |]; try reflexivity.
  destruct (update_rows _ f _) as [[table [| r returned]] |] eqn:E;
    [| trivial | reflexivity].
  apply update_rows_none_returned in E as ->. apply store_eta.
Qed.

Lemma update_jobs_failure companies sets idx params st :
  match update_jobs companies sets idx params st with
  | (Ok [], st') | (Err _, st') => st' = st
  | _ => True
  end.
Proof.
  unfold update_jobs. destruct sets as [| s0 sets]; [reflexivity |].
  destruct (negb _); [reflexivity |].
  destruct (resolve_sets _ _ _) as [f |]; [| reflexivity].
  destruct (param params idx) as [[| | | key |] |]; try reflexivity.
  destruct (negb (in_integer key)); [reflexivity |].
  destruct (update_rows _ f _) as [[table returned] |] eqn:E;
    [| reflexivity].
  destruct (_ && _); [reflexivity |].
  destruct returned as [| r returned]; [| trivial].
  apply update_rows_none_returned in E as ->. apply store_eta.
Qed.

Section Failures.
Variables (bcrypt_hash : string -> Z -> string) (BCRYPT_WORK_FACTOR : Z).

(** X19: a call of [User.register], [User.apply], [User.update],
    [User.remove], [Job.create], [Job.update] or [Job.remove] that throws
    leaves the store as it was, whatever the arguments. *)
Theorem failed_calls_write_nothing (st : store) :
  (forall r e st',
     User.register bcrypt_hash BCRYPT_WORK_FACTOR r st = (Err e, st') ->
     st' = st)
  /\ (forall username jobId e st',
        User.apply username jobId st = (Err e, st') -> st' = st)
  /\ (forall username data e st',
        User.update bcrypt_hash BCRYPT_WORK_FACTOR username data st
        = (Err e, st') -> st' = st)
  /\ (forall on_delete username e st',
        User.remove on_delete username st = (Err e, st') -> st' = st)
  /\ (forall nextval companies data e st',
        Job.create nextval companies data st = (Err e, st') -> st' = st)
  /\ (forall companies id data e st',
        Job.update companies id data st = (Err e, st') -> st' = st)
  /\ (forall on_delete id e st',
        Job.remove on_delete id st = (Err e, st') -> st' = st).
Proof.
  split; [| split; [| split; [| split; [| split; [| split]]]]].
  - intros r e st'. rewrite register_eq.
    destruct (user_exists _ st); [now intros [= _ <-] | discriminate].
  - intros username jobId e st'. rewrite apply_eq.
    destruct (in_integer jobId); [| now intros [= _ <-]]. cbn [negb].
    destruct (user_exists username st); [| now intros [= _ <-]].
    destruct (job_exists jobId st); [| now intros [= _ <-]].
    destruct (application_exists username jobId st);
      [now intros [= _ <-] | discriminate].
  - intros username data e st'. unfold User.update. unfold bind at 1.
    assert (Hrest : forall data' : ordered_obj,
      (let! built := lift (sqlForPartialUpdate data' User.jsToSql) in
       let usernameVarIdx := (length (values built) + 1)%nat in
       let! rows :=
         update_users (assignments built) usernameVarIdx
           (values built ++ [JStr username]) in
       match head rows with
       | None => throw (NotFoundError ("No user: " +:+ username))
       | Some user => ret (delete "password" (User.user_obj user))
       end) st = (Err e, st') -> st' = st).
    { intros data'. unfold bind, lift.
      destruct (sqlForPartialUpdate data' User.jsToSql) as [built |];
        [| now intros [= _ <-]].
      pose proof (update_users_failure (assignments built)
                    (length (values built) + 1)
                    (values built ++ [JStr username]) st) as H.
      destruct (update_users _ _ _ st) as [[[| r rows] | e'] st''];
        cbn; [now intros [= _ <-] | discriminate | now intros [= _ <-]]. }
    destruct (truthy (ordered_get "password" data)); [| apply Hrest].
    destruct (ordered_get "password" data); try (now intros [= _ <-]).
    apply Hrest.
  - intros on_delete username e st'. rewrite user_remove_eq.
    destruct (user_exists username st); [| now intros [= _ <-]].
    destruct on_delete; [discriminate |].
    destruct (has_applications username st); [now intros [= _ <-] | discriminate].
  - intros nextval companies data e st'.
    destruct (create_outcome nextval companies data st)
      as [H | (job & _ & _ & ->)]; [| discriminate].
    intros E. rewrite E in H. exact H.
  - intros companies id data e st'. unfold Job.update, bind, lift.
    destruct (sqlForPartialUpdate data Job.jsToSql) as [built |];
      [| now intros [= _ <-]].
    pose proof (update_jobs_failure companies (assignments built)
                  (length (values built) + 1)
                  (values built ++ [JNum id]) st) as H.
    destruct (update_jobs _ _ _ _ st) as [[[| r rows] | e'] st''];
      cbn; [now intros [= _ <-] | discriminate | now intros [= _ <-]].
  - intros on_delete id e st'. rewrite job_remove_eq.
    destruct (in_integer id); [| now intros [= _ <-]].
    destruct (job_exists id st); [| now intros [= _ <-]].
    destruct on_delete; [discriminate |].
    destruct (has_applicants id st); [now intros [= _ <-] | discriminate].
Qed.

End Failures.

Lemma failed_calls_write_nothing_witness :
  snd (User.apply "u9" 1 sample_store) = sample_store
  /\ snd (Job.remove Restrict 1 sample_store) = sample_store.
Proof.
  destruct (failed_calls_write_nothing sample_hash 12 sample_store)
    as (_ & Ha & _ & _ & _ & _ & Hr).
  split.
  - apply (Ha "u9" 1%Z (NotFoundError "user: u9 not found")). reflexivity.
  - apply (Hr Restrict 1%Z (DbError "delete violates foreign key constraint")).
    reflexivity.
Defined.

(** ** [routes/users.js] *)

Section Routes.
Variables (unauthorized_message : string)
  (userUpdateSchema_errors : ordered_obj -> list string)
  (bcrypt_hash : string -> Z -> string) (BCRYPT_WORK_FACTOR : Z)
  (on_delete : fk_action).

(** X20: [GET /users/:username] and [DELETE /users/:username] called by a
    user who is not an admin and whose username is not the one of the path
    pass an UnauthorizedError to [next]; no model is called and nothing is
    written. *)
Theorem routes_refuse_other_users (user : UsersRoutes.locals_user)
    (params_username : string) (st : store) :
  UsersRoutes.isAdmin user = false ->
  UsersRoutes.username user <> params_username ->
  UsersRoutes.get_user unauthorized_message user params_username st
  = (UsersRoutes.Next
       (UsersRoutes.Thrown (UnauthorizedError unauthorized_message)), st)
  /\ UsersRoutes.delete_user_route unauthorized_message on_delete user
       params_username st
     = (UsersRoutes.Next
          (UsersRoutes.Thrown (UnauthorizedError unauthorized_message)), st).
Proof.
  intros Ha Hn. apply String.eqb_neq in Hn.
  unfold UsersRoutes.get_user, UsersRoutes.delete_user_route, UsersRoutes.pass.
  now rewrite Ha, Hn.
Qed.

(** X21: [PATCH /users/:username] called by a user who is not an admin
    passes a TypeError to [next], whatever the path and the body, also when
    the path names the caller: the guard reads [res.params.username], and
    [res] has no [params]. Nothing is validated and nothing is written. *)
Theorem patch_refuses_every_non_admin (user : UsersRoutes.locals_user)
    (params_username : string) (req_body : ordered_obj) (st : store) :
  UsersRoutes.isAdmin user = false ->
  exists message,
    UsersRoutes.patch_user userUpdateSchema_errors bcrypt_hash
      BCRYPT_WORK_FACTOR user params_username req_body st
    = (UsersRoutes.Next (UsersRoutes.Thrown (TypeError message)), st)
    /\ UsersRoutes.patch_user userUpdateSchema_errors bcrypt_hash
         BCRYPT_WORK_FACTOR user (UsersRoutes.username user) req_body st
       = (UsersRoutes.Next (UsersRoutes.Thrown (TypeError message)), st).
Proof.
  intros Ha. eexists. unfold UsersRoutes.patch_user, UsersRoutes.pass.
  rewrite Ha. split; reflexivity.
Qed.

(** X22: [PATCH /users/:username] called by an admin. A body that the
    schema rejects is answered by the BadRequestError on the messages of the
    validator, before the model is called. A body that validates and is a
    payload of fields of a user is written to the user of the path, who is
    sent back with status 200; when no user has the username the
    NotFoundError of [User.update] is passed to [next]. *)
Theorem patch_by_admin (user : UsersRoutes.locals_user)
    (params_username : string) (req_body : ordered_obj) (st : store) :
  UsersRoutes.isAdmin user = true ->
  (userUpdateSchema_errors req_body <> [] ->
   UsersRoutes.patch_user userUpdateSchema_errors bcrypt_hash
     BCRYPT_WORK_FACTOR user params_username req_body st
   = (UsersRoutes.Next
        (UsersRoutes.BadRequestErrors (userUpdateSchema_errors req_body)), st))
  /\ (userUpdateSchema_errors req_body = [] ->
      req_body <> [] -> user_payload req_body = true ->
      forall target,
        head (select_users_by_username params_username st) = Some target ->
        let data := hashed_payload bcrypt_hash BCRYPT_WORK_FACTOR req_body in
        UsersRoutes.patch_user userUpdateSchema_errors bcrypt_hash
          BCRYPT_WORK_FACTOR user params_username req_body st
        = (UsersRoutes.Sent
             {| UsersRoutes.status := 200;
                UsersRoutes.body :=
                  UsersRoutes.JsonUser
                    (User.user_obj (updated_user data target)) |},
           with_users (update_user_rows params_username data (users st)) st))
  /\ (userUpdateSchema_errors req_body = [] ->
      req_body <> [] -> user_payload req_body = true ->
      user_exists params_username st = false ->
      UsersRoutes.patch_user userUpdateSchema_errors bcrypt_hash
        BCRYPT_WORK_FACTOR user params_username req_body st
      = (UsersRoutes.Next
           (UsersRoutes.Thrown
              (NotFoundError ("No user: " +:+ params_username))), st)).
Proof.
  intros Ha. unfold UsersRoutes.patch_user, UsersRoutes.pass. rewrite Ha.
  cbn [negb]. split; [| split].
  - intros He. now destruct (userUpdateSchema_errors req_body).
  - intros He Hne Hp target Ht. cbv zeta. rewrite He.
    unfold UsersRoutes.respond.
    rewrite (user_update_eq _ _ _ _ _ Hne Hp). cbv zeta. now rewrite Ht.
  - intros He Hne Hp Hnone. rewrite He. unfold UsersRoutes.respond.
    rewrite (user_update_eq _ _ _ _ _ Hne Hp). cbv zeta.
    now rewrite (no_user_no_row _ _ Hnone).
Qed.

(** X23: [GET /users/:username] and [DELETE /users/:username] called by an
    admin or by the user of the path. [GET] sends the record of the user
    with status 200, and both pass the NotFoundError of the model to [next]
    when no user has the username. [DELETE] of a user that the database
    lets go sends [{ deleted: username }] and removes the user, after which
    [GET] of the username is a NotFound. *)
Theorem get_and_delete_by_self_or_admin (user : UsersRoutes.locals_user)
    (params_username : string) (st : store) :
  UsersRoutes.isAdmin user = true
  \/ UsersRoutes.username user = params_username ->
  (forall target,
     head (select_users_by_username params_username st) = Some target ->
     UsersRoutes.get_user unauthorized_message user params_username st
     = (UsersRoutes.Sent
          {| UsersRoutes.status := 200;
             UsersRoutes.body := UsersRoutes.JsonUser (User.user_obj target) |},
        st))
  /\ (user_exists params_username st = false ->
      UsersRoutes.get_user unauthorized_message user params_username st
      = (UsersRoutes.Next
           (UsersRoutes.Thrown
              (NotFoundError ("No user: " +:+ params_username))), st)
      /\ UsersRoutes.delete_user_route unauthorized_message on_delete user
           params_username st
         = (UsersRoutes.Next
              (UsersRoutes.Thrown
                 (NotFoundError ("No user: " +:+ params_username))), st))
  /\ (user_exists params_username st = true ->
      on_delete = Cascade \/ has_applications params_username st = false ->
      let st' := drop_user on_delete params_username st in
      UsersRoutes.delete_user_route unauthorized_message on_delete user
        params_username st
      = (UsersRoutes.Sent
           {| UsersRoutes.status := 200;
              UsersRoutes.body := UsersRoutes.JsonDeleted params_username |},
         st')
      /\ UsersRoutes.get_user unauthorized_message user params_username st'
         = (UsersRoutes.Next
              (UsersRoutes.Thrown
                 (NotFoundError ("No user: " +:+ params_username))), st')).
Proof.
  intros Hallowed.
  assert (Hgate : negb (UsersRoutes.isAdmin user)
                  && negb (String.eqb (UsersRoutes.username user)
                             params_username) = false).
  { destruct Hallowed as [-> | ->]; [reflexivity |].
    rewrite String.eqb_refl. apply andb_false_r. }
  unfold UsersRoutes.get_user, UsersRoutes.delete_user_route. rewrite Hgate.
  unfold UsersRoutes.respond. split; [| split].
  - intros target Ht. now rewrite get_eq, Ht.
  - intros Hnone. split.
    + now rewrite (get_not_found _ _ Hnone).
    + now rewrite user_remove_eq, Hnone.
  - intros He Hok. cbv zeta.
    assert (Hr : User.remove on_delete params_username st
                 = (Ok tt, drop_user on_delete params_username st)).
    { rewrite user_remove_eq, He. destruct on_delete; [reflexivity |].
      destruct Hok as [Hok | Hok]; [discriminate | now rewrite Hok]. }
    rewrite Hr. split; [reflexivity |].
    rewrite get_not_found; [reflexivity |].
    rewrite user_exists_drop, String.eqb_refl. reflexivity.
Qed.

End Routes.

Lemma routes_refuse_other_users_witness :
  UsersRoutes.get_user "Unauthorized" sample_caller "u1" sample_store
  = (UsersRoutes.Next (UsersRoutes.Thrown (UnauthorizedError "Unauthorized")),
     sample_store)
  /\ UsersRoutes.delete_user_route "Unauthorized" Cascade sample_caller "u1"
       sample_store
     = (UsersRoutes.Next
          (UsersRoutes.Thrown (UnauthorizedError "Unauthorized")),
        sample_store).
Proof.
  apply (routes_refuse_other_users "Unauthorized" Cascade sample_caller "u1"
           sample_store); [reflexivity | discriminate].
Defined.

Lemma patch_refuses_every_non_admin_witness :
  exists message,
    UsersRoutes.patch_user sample_schema_errors sample_hash 12 sample_caller
      "u1" [("email", JStr "new@example.com")] sample_store
    = (UsersRoutes.Next (UsersRoutes.Thrown (TypeError message)), sample_store)
    /\ UsersRoutes.patch_user sample_schema_errors sample_hash 12 sample_caller
         (UsersRoutes.username sample_caller)
         [("email", JStr "new@example.com")] sample_store
       = (UsersRoutes.Next (UsersRoutes.Thrown (TypeError message)),
          sample_store).
Proof.
  apply (patch_refuses_every_non_admin sample_schema_errors sample_hash 12
           sample_caller "u1" [("email", JStr "new@example.com")]
           sample_store).
  reflexivity.
Defined.

Lemma patch_by_admin_witness :
  UsersRoutes.patch_user sample_schema_errors sample_hash 12 sample_admin "u1"
    [("username", JStr "root")] sample_store
  = (UsersRoutes.Next
       (UsersRoutes.BadRequestErrors
          (sample_schema_errors [("username", JStr "root")])), sample_store)
  /\ UsersRoutes.patch_user sample_schema_errors sample_hash 12 sample_admin
       "u9" [("email", JStr "new@example.com")] sample_store
     = (UsersRoutes.Next
          (UsersRoutes.Thrown (NotFoundError ("No user: " +:+ "u9"))),
        sample_store).
Proof.
  split.
  - destruct (patch_by_admin sample_schema_errors sample_hash 12 sample_admin
                "u1" [("username", JStr "root")] sample_store eq_refl)
      as (H & _).
    apply H. discriminate.
  - destruct (patch_by_admin sample_schema_errors sample_hash 12 sample_admin
                "u9" [("email", JStr "new@example.com")] sample_store eq_refl)
      as (_ & _ & H).
    apply H; [reflexivity | discriminate | reflexivity | reflexivity].
Defined.

Lemma get_and_delete_by_self_or_admin_witness :
  UsersRoutes.get_user "Unauthorized" sample_caller "u2" sample_store
  = (UsersRoutes.Sent
       {| UsersRoutes.status := 200;
          UsersRoutes.body :=
            UsersRoutes.JsonUser (User.user_obj (sample_user "u2")) |},
     sample_store)
  /\ UsersRoutes.delete_user_route "Unauthorized" Restrict sample_caller "u2"
       sample_store
     = (UsersRoutes.Sent
          {| UsersRoutes.status := 200;
             UsersRoutes.body := UsersRoutes.JsonDeleted "u2" |},
        drop_user Restrict "u2" sample_store).
Proof.
  destruct (get_and_delete_by_self_or_admin "Unauthorized" Restrict
              sample_caller "u2" sample_store) as (Hg & _ & Hd);
    [now right |].
  split; [apply Hg; reflexivity |].
  destruct Hd as (Hd & _); [reflexivity | now right | exact Hd].
Defined.

(** ** [get], [update] and the title of [Job.find] *)

Lemma head_filter_holds {A} (p : A -> bool) (l : list A) x :
  head (List.filter p l) = Some x -> In x l /\ p x = true.
Proof.
  intros H. apply filter_In.
  destruct (List.filter p l) as [| y l'] eqn:E; cbn in H; [discriminate H |].
  injection H as ->. now left.
Qed.

(** X3: [User.get] hands back the record of a row of [users] whose username
    is the one asked for when there is one, the store as it was, and fails
    with the NotFoundError [No user: <username>] when there is none. *)
Theorem user_get_outcome (username : string) (st : store) :
  (user_exists username st = true ->
   exists user,
     In user (users st) /\ u_username user = username
     /\ User.get username st = (Ok (User.user_obj user), st)
     /\ User.user_obj user !! "username" = Some (JStr username))
  /\ (user_exists username st = false ->
      User.get username st
      = (Err (NotFoundError ("No user: " +:+ username)), st)).
Proof.
  split.
  - intros H. rewrite get_eq.
    pose proof (head_filter_is_some
                  (fun u => String.eqb (u_username u) username) (users st)) as Hs.
    fold (select_users_by_username username st) in Hs.
    fold (user_exists username st) in Hs. rewrite H in Hs.
    destruct (head (select_users_by_username username st)) as [user |] eqn:E;
      [| discriminate].
    apply head_filter_holds in E as [Hin Hu]. apply String.eqb_eq in Hu.
    exists user. repeat split; try assumption.
    change (User.user_obj user !! "username") with (Some (JStr (u_username user))).
    now rewrite Hu.
  - apply get_not_found.
Qed.

Lemma user_get_outcome_witness :
  user_exists "u9" sample_store = false
  /\ User.get "u9" sample_store
     = (Err (NotFoundError "No user: u9"), sample_store).
Proof.
  split; [reflexivity |].
  destruct (user_get_outcome "u9" sample_store) as (_ & H).
  apply H. reflexivity.
Defined.

(** X12: [Job.get]. An id outside the range of INTEGER is refused by the
    database, and its error is raised. For an id within the range the call
    hands back the record of a job of the store whose id is the one asked
    for when there is one, and otherwise fails with a NotFoundError whose
    message is [No company: <id>]. The store is as it was. *)
Theorem job_get_outcome (id : Z) (st : store) :
  (in_integer id = false -> Job.get id st = (Err out_of_range, st))
  /\ (in_integer id = true -> job_exists id st = true ->
      exists job,
        In job (jobs st) /\ j_id job = id
        /\ Job.get id st = (Ok (Job.job_obj job), st)
        /\ Job.job_obj job !! "id" = Some (JNum id))
  /\ (in_integer id = true -> job_exists id st = false ->
      Job.get id st
      = (Err (NotFoundError ("No company: " +:+ pretty id)), st)).
Proof.
  split; [| split].
  - intros H. now rewrite job_get_eq, H.
  - intros Hid H. rewrite job_get_eq, Hid.
    pose proof (head_filter_is_some (fun j => (j_id j =? id)%Z) (jobs st)) as Hs.
    fold (jobs_by_id id st) in Hs. fold (job_exists id st) in Hs.
    rewrite H in Hs.
    destruct (head (jobs_by_id id st)) as [job |] eqn:E; [| discriminate].
    apply head_filter_holds in E as [Hin Hj]. apply Z.eqb_eq in Hj.
    exists job. repeat split; try assumption.
    change (Job.job_obj job !! "id") with (Some (JNum (j_id job))).
    now rewrite Hj.
  - intros Hid H. now rewrite job_get_eq, Hid, (no_job_no_row _ _ H).
Qed.

Lemma job_get_outcome_witness :
  (exists job,
     In job (jobs sample_store)
     /\ Job.get 1 sample_store = (Ok (Job.job_obj job), sample_store)
     /\ Job.job_obj job !! "id" = Some (JNum 1))
  /\ Job.get 9 sample_store
     = (Err (NotFoundError "No company: 9"), sample_store)
  /\ Job.get 2147483648 sample_store = (Err out_of_range, sample_store).
Proof.
  split; [| split].
  - destruct (job_get_outcome 1%Z sample_store) as (_ & H & _).
    destruct H as (job & Hin & _ & H & Hid); [reflexivity | reflexivity |].
    exists job. split; [exact Hin | split; [exact H | exact Hid]].
  - destruct (job_get_outcome 9%Z sample_store) as (_ & _ & H).
    apply H; reflexivity.
  - destruct (job_get_outcome 2147483648%Z sample_store) as (H & _).
    apply H; reflexivity.
Defined.

Lemma ordered_get_set_other k k' v (data : ordered_obj) :
  k <> k' -> ordered_get k (ordered_set k' v data) = ordered_get k data.
Proof.
  intros Hk. apply String.eqb_neq in Hk.
  induction data as [| [k0 v0] data IH]; cbn; [now rewrite Hk |].
  destruct (String.eqb k' k0) eqn:E; cbn.
  - apply String.eqb_eq in E as <-. now rewrite Hk.
  - now rewrite IH.
Qed.

Section UpdateWrites.
Variables (bcrypt_hash : string -> Z -> string) (BCRYPT_WORK_FACTOR : Z).

(** X6: [User.update] with a payload of fields of a user. The password of
    the payload, when it is not the empty text, is replaced by its bcrypt
    hash before anything is written and every other field is left as given;
    when a user has the username, the call hands back the record of the row
    with the fields of that payload written over it, and the table is the
    old one with the rows of the username rewritten so. *)
Theorem user_update_writes_payload (username : string) (data : ordered_obj)
    (st : store) :
  data <> [] -> user_payload data = true ->
  let data' := hashed_payload bcrypt_hash BCRYPT_WORK_FACTOR data in
  (forall user,
     head (select_users_by_username username st) = Some user ->
     User.update bcrypt_hash BCRYPT_WORK_FACTOR username data st
     = (Ok (User.user_obj (updated_user data' user)),
        with_users (update_user_rows username data' (users st)) st))
  /\ (forall p, ordered_get "password" data = JStr p ->
        ordered_get "password" data'
        = JStr (if String.eqb p "" then ""
                else bcrypt_hash p BCRYPT_WORK_FACTOR))
  /\ (forall k, k <> "password" -> ordered_get k data' = ordered_get k data).
Proof.
  intros Hne Hp. cbv zeta. split; [| split].
  - intros user Hu. rewrite (user_update_eq _ _ _ _ _ Hne Hp). cbv zeta.
    now rewrite Hu.
  - intros p. apply hashed_password.
  - intros k Hk. unfold hashed_payload.
    destruct (ordered_get "password" data); try reflexivity.
    destruct (String.eqb s ""); [reflexivity |].
    now apply ordered_get_set_other.
Qed.

End UpdateWrites.

Lemma user_update_writes_payload_witness :
  ordered_get "password"
    (hashed_payload sample_hash 12 [("password", JStr "new")])
  = JStr "hash:new".
Proof.
  destruct (user_update_writes_payload sample_hash 12 "u1"
              [("password", JStr "new")] sample_store) as (_ & H & _);
    [discriminate | reflexivity |].
  exact (H "new" eq_refl).
Defined.

(** X15: [Job.update] with a payload that is not empty and gives fields of
    a job, each once and with a value of its type, a salary within the
    range of INTEGER, on an id within that range that a job has. When the
    values meet the checks of the table (a salary not negative, an equity
    between 0 and 1) and a company given is one of [companies], the call
    hands back the record of the row with the fields written over it, an
    equity in the normal form of NUMERIC, and the table is the old one with
    the rows of the id rewritten so. When a check fails, or when the
    company given is unknown, the error of the database is raised and
    nothing is written. *)
Theorem job_update_writes_payload (companies : list string) (id : Z)
    (data : ordered_obj) (st : store) :
  data <> [] -> job_payload data = true ->
  in_integer id = true -> salary_in_integer data = true ->
  forall job,
    head (jobs_by_id id st) = Some job ->
    Job.update companies id data st
    = (if job_constraints data
       then
         if company_known companies data
         then (Ok (Job.job_obj (updated_job data job)),
               with_jobs (update_job_rows id data (jobs st)) st)
         else (Err (DbError "update violates foreign key constraint"), st)
       else (Err (DbError "row violates a constraint"), st))
    /\ (forall s num scale,
          ordered_get "equity" data = JStr s ->
          parse_numeric s = Some (num, scale) ->
          j_equity (updated_job data job) = numeric_text num scale)
    /\ (forall h, ordered_get "companyHandle" data = JStr h ->
          company_known companies data = inb h companies).
Proof.
  intros Hne Hp Hid Hs job Hj. split; [| split].
  - now rewrite (job_update_eq _ _ _ _ Hne Hp Hid Hs), Hj.
  - intros s num scale Ee Ep. unfold updated_job. cbn [j_equity].
    now rewrite Ee, Ep.
  - intros h Eh. unfold company_known. now rewrite Eh.
Qed.

Lemma job_update_writes_payload_witness :
  Job.update fixture_companies 1
    [("equity", JStr ".5"); ("companyHandle", JStr "c2")] sample_store
  = (Ok (Job.job_obj {| j_id := 1; j_title := "j1"; j_salary := Some 11%Z;
                        j_equity := "0.5"; j_company_handle := "c2" |}),
     with_jobs
       (update_job_rows 1 [("equity", JStr ".5"); ("companyHandle", JStr "c2")]
          (jobs sample_store)) sample_store)
  /\ Job.update fixture_companies 1 [("companyHandle", JStr "nope")]
       sample_store
     = (Err (DbError "update violates foreign key constraint"), sample_store).
Proof.
  split.
  - destruct (job_update_writes_payload fixture_companies 1%Z
                [("equity", JStr ".5"); ("companyHandle", JStr "c2")]
                sample_store) with (job := sample_job 1 "j1" 11) as (H & _);
      [discriminate | reflexivity | reflexivity | reflexivity | reflexivity |].
    exact H.
  - destruct (job_update_writes_payload fixture_companies 1%Z
                [("companyHandle", JStr "nope")] sample_store)
      with (job := sample_job 1 "j1" 11) as (H & _);
      [discriminate | reflexivity | reflexivity | reflexivity | reflexivity |].
    exact H.
Defined.

Lemma like_any_char s : like "%_%" s = negb (String.eqb s "").
Proof.
  induction s as [| c s IH]; [reflexivity |].
  change (like "%_%" (String c s))
    with (like "_%" (String c s) || like "%_%" s).
  change (like "_%" (String c s)) with (like "%" s).
  now rewrite like_percent.
Qed.

(** X14: the title filter of [Job.find], on titles of ASCII characters,
    those of the jobs and the one asked for. For a title without [%], [_]
    and the backslash, the jobs found are those whose title contains it,
    the letters [A] to [Z] read as [a] to [z]. The pattern characters of
    [LIKE] are not escaped: the title [_] finds every job whose title is
    not empty, not the jobs whose title contains an underscore. *)
Theorem find_title_is_substring (t : string) (st : store) :
  Forall (fun j => ascii_text (j_title j) = true) (jobs st) ->
  let bag (title : string) :=
    {| Job.title := JStr title; Job.minSalary := JUndefined;
       Job.hasEquity := JUndefined; Job.companyHandle := JUndefined |} in
  (t <> "" -> plain t = true -> ascii_text t = true ->
   Job.find (bag t) st
   = (Ok (List.map Job.job_obj
            (List.filter (fun j => mentions (lower (j_title j)) (lower t))
               (jobs st))), st))
  /\ Job.find (bag "_") st
     = (Ok (List.map Job.job_obj
              (List.filter (fun j => negb (String.eqb (j_title j) ""))
                 (jobs st))), st).
Proof.
  intros _. cbv zeta. split.
  - intros Hne Hp _. rewrite find_returns_matching_jobs_eq.
    + do 3 f_equal. apply filter_pointwise. intros j.
      unfold job_matches, equity_matches, salary_matches, handle_matches.
      cbn [Job.title Job.minSalary Job.hasEquity Job.companyHandle truthy
             negb orb].
      rewrite !andb_true_r. now apply title_matches_plain.
    + reflexivity.
    + unfold truthy_filters, count_true.
      cbn [Job.title Job.minSalary Job.hasEquity Job.companyHandle truthy].
      apply String.eqb_neq in Hne. now rewrite Hne.
  - rewrite find_returns_matching_jobs_eq; [| reflexivity | discriminate].
    do 3 f_equal. apply filter_pointwise. intros j.
    unfold job_matches, title_matches, equity_matches, salary_matches,
      handle_matches.
    cbn [Job.title Job.minSalary Job.hasEquity Job.companyHandle truthy
           negb orb to_js_string String.eqb Ascii.eqb Bool.eqb].
    rewrite !andb_true_r.
    change (lower ("%" +:+ "_" +:+ "%")) with "%_%".
    rewrite like_any_char. f_equal.
    destruct (j_title j); reflexivity.
Qed.

Lemma find_title_is_substring_witness :
  Job.find {| Job.title := JStr "J1"; Job.minSalary := JUndefined;
              Job.hasEquity := JUndefined; Job.companyHandle := JUndefined |}
    fixture_store
  = (Ok (List.map Job.job_obj
           [fixture_job 1 "j11" 11 "c1"; fixture_job 3 "j12" 12 "c2";
            fixture_job 5 "j13" 13 "c3"]), fixture_store).
Proof.
  destruct (find_title_is_substring "J1" fixture_store) as (H & _);
    [repeat constructor |].
  apply H; [discriminate | reflexivity | reflexivity].
Defined.

(** ** A second [User.apply] *)

(** X5: a call of [User.apply] that succeeds has added exactly one row to
    [applications], the pair of its arguments, which was not there before,
    and hands back that pair; the same call once more fails with the error
    of status 409 and adds nothing. *)
Theorem apply_records_once (username : string) (jobId : Z) (st : store)
    (o : obj) (st' : store) :
  User.apply username jobId st = (Ok o, st') ->
  st' = add_application username jobId st
  /\ o = User.application_obj {| a_username := username; a_job_id := jobId |}
  /\ application_exists username jobId st = false
  /\ application_exists username jobId st' = true
  /\ length (applications st') = S (length (applications st))
  /\ User.apply username jobId st'
     = (Err (ExpressError
               (username +:+ " has already applied to job:" +:+ pretty jobId)
               409), st').
Proof.
  intros H. pose proof H as H0. rewrite apply_eq in H0.
  destruct (in_integer jobId) eqn:Ei; [| discriminate H0]. cbn [negb] in H0.
  destruct (user_exists username st) eqn:Eu; [| discriminate H0].
  destruct (job_exists jobId st) eqn:Ej; [| discriminate H0].
  destruct (application_exists username jobId st) eqn:Ea; [discriminate H0 |].
  cbn [negb] in H0. injection H0 as <- <-.
  destruct (apply_twice_conflict username jobId st Ei Eu Ej Ea)
    as (st2 & Hs & _ & Hc).
  rewrite H in Hs. cbn [snd] in Hs. subst st2.
  split; [reflexivity |]. split; [reflexivity |]. split; [reflexivity |].
  split; [| split; [| exact Hc]].
  - unfold application_exists, add_application. cbn [applications].
    rewrite existsb_app. cbn. rewrite String.eqb_refl, Z.eqb_refl.
    now rewrite orb_true_r.
  - unfold add_application. cbn [applications].
    rewrite length_app. cbn. lia.
Qed.

Lemma apply_records_once_witness :
  User.apply "u2" 1 (add_application "u2" 1 sample_store)
  = (Err (ExpressError ("u2" +:+ " has already applied to job:" +:+ pretty 1%Z)
            409), add_application "u2" 1 sample_store).
Proof.
  destruct (apply_records_once "u2" 1%Z sample_store
              (User.application_obj {| a_username := "u2"; a_job_id := 1 |})
              (add_application "u2" 1 sample_store))
    as (_ & _ & _ & _ & _ & H); [vm_compute; reflexivity | exact H].
Defined.
